(** * mkdocs-autolinks-plugin: a shallow embedding of [plugin.py]

    The plugin rewrites Markdown links that name a bare file
    ([[label](page.md)]) into links relative to the linking page, using a
    table from basenames to absolute paths that it builds from the files of
    the site.  This file embeds [mkdocs_autolinks_plugin/plugin.py] together
    with the parts of the Python standard library it calls ([str] methods,
    [posixpath], [urllib.parse.quote], [re.sub] for the one regular
    expression of the plugin), and proves properties of the embedding.

    Conventions.
    - A Python [str] is a [string]: a sequence of characters with code
      points below 256.  On such strings the embedded library functions
      agree with CPython's.
    - [os.path] is [posixpath]; the working directory read by
      [os.path.abspath] is the parameter [cwd].
    - A call that can raise returns a [result]; a method that mutates the
      plugin returns the new plugin state next to its result, so that the
      state left behind by a raised exception is part of the model.
    - Log calls ([LOG.warning], [LOG.info]) have no effect on the values
      computed and are left out. *)

From Stdlib Require Import Ascii String NArith DecimalString.
From stdpp Require Import gmap strings list sorting.

Local Open Scope char_scope.

(** ** Exceptions and results *)

Inductive exn : Set := ValueError | TypeError.

Inductive result (A : Type) : Type :=
| Ok (a : A)
| Raise (e : exn).
Arguments Ok {A} a.
Arguments Raise {A} e.

(** A computation over a mutable store of type [S] that may raise: the
    store as the computation left it is returned in both cases. *)
Definition M (S A : Type) : Type := S → result A * S.

Definition ret {S A} (a : A) : M S A := λ s, (Ok a, s).
Definition raise {S A} (e : exn) : M S A := λ s, (Raise e, s).
Definition bind {S A B} (m : M S A) (k : A → M S B) : M S B :=
  λ s, match m s with
       | (Ok a, s') => k a s'
       | (Raise e, s') => (Raise e, s')
       end.
Definition lift {S A} (r : result A) : M S A := λ s, (r, s).
Definition modify {S} (f : S → S) : M S unit := λ s, (Ok tt, f s).

Notation "'let!' x := m 'in' k" := (bind m (λ x, k))
  (at level 10, x name, m at level 100, k at level 200, only parsing).

(** ** Python [str] methods *)

Module PyStr.

Definition is_sep (c : ascii) : bool := Ascii.eqb c "/".

(** [str.isspace] on code points below 256. *)
Definition isspace (c : ascii) : bool :=
  let n := N_of_ascii c in
  ((9 <=? n) && (n <=? 13) || (28 <=? n) && (n <=? 32)
   || (n =? 133) || (n =? 160))%N.

Fixpoint forallb (f : ascii → bool) (s : string) : bool :=
  match s with
  | EmptyString => true
  | String c s' => f c && forallb f s'
  end.

Fixpoint existsb (f : ascii → bool) (s : string) : bool :=
  match s with
  | EmptyString => false
  | String c s' => f c || existsb f s'
  end.

(** [span f s]: the longest prefix of [s] whose characters satisfy [f],
    and what follows it. *)
Fixpoint span (f : ascii → bool) (s : string) : string * string :=
  match s with
  | EmptyString => (EmptyString, EmptyString)
  | String c s' =>
      if f c then let '(a, b) := span f s' in (String c a, b)
      else (EmptyString, s)
  end.

Fixpoint drop (n : nat) (s : string) : string :=
  match n, s with
  | O, _ => s
  | S _, EmptyString => EmptyString
  | S k, String _ s' => drop k s'
  end.

Definition startswith (p s : string) : bool := String.prefix p s.

Fixpoint lstrip_by (f : ascii → bool) (s : string) : string :=
  match s with
  | EmptyString => EmptyString
  | String c s' => if f c then lstrip_by f s' else s
  end.

Fixpoint rstrip_by (f : ascii → bool) (s : string) : string :=
  match s with
  | EmptyString => EmptyString
  | String c s' =>
      match rstrip_by f s' with
      | EmptyString => if f c then EmptyString else String c EmptyString
      | r => String c r
      end
  end.

(** [s.strip()] *)
Definition strip (s : string) : string := rstrip_by isspace (lstrip_by isspace s).

(** [s.rstrip('/')] *)
Definition rstrip_sep (s : string) : string := rstrip_by is_sep s.

(** [(p[:i], p[i:])] for [i = p.rfind('/') + 1]. *)
Fixpoint rsplit_sep (p : string) : string * string :=
  match p with
  | EmptyString => (EmptyString, EmptyString)
  | String c p' =>
      match rsplit_sep p' with
      | (EmptyString, t) =>
          if is_sep c then (String c EmptyString, t)
          else (EmptyString, String c t)
      | (h, t) => (String c h, t)
      end
  end.

(** [s.split('/')] *)
Fixpoint split_sep (s : string) : list string :=
  match s with
  | EmptyString => [EmptyString]
  | String c s' =>
      if is_sep c then EmptyString :: split_sep s'
      else match split_sep s' with
           | x :: l => String c x :: l
           | [] => [String c EmptyString]
           end
  end.

(** [sep.join(l)] *)
Definition join (sep : string) (l : list string) : string := String.concat sep l.

(** The scan of [s.replace(old, new)] for a non-empty [old]: occurrences
    are found from left to right and do not overlap.  [skip] counts the
    characters of an occurrence that are still to be passed over. *)
Fixpoint replace_go (old new : string) (skip : nat) (s : string) : string :=
  match s with
  | EmptyString => EmptyString
  | String c s' =>
      match skip with
      | S k => replace_go old new k s'
      | O =>
          if startswith old s
          then new +:+ replace_go old new (String.length old - 1) s'
          else String c (replace_go old new 0 s')
      end
  end.

Fixpoint interleave (new : string) (s : string) : string :=
  match s with
  | EmptyString => EmptyString
  | String c s' => String c (new +:+ interleave new s')
  end.

(** [s.replace(old, new)]; an empty [old] matches before every character
    and at the end. *)
Definition replace (s old new : string) : string :=
  match old with
  | EmptyString => new +:+ interleave new s
  | _ => replace_go old new 0 s
  end.

(** [str(n)] and the [{n}] of an f-string, for a non-negative integer. *)
Definition of_nat (n : nat) : string := NilEmpty.string_of_uint (Nat.to_uint n).

End PyStr.

(** ** [posixpath] *)

Module posixpath.

Import PyStr.

Definition sep : string := "/".
Definition curdir : string := ".".
Definition pardir : string := "..".

Definition isabs (s : string) : bool := startswith sep s.

Definition basename (p : string) : string := snd (rsplit_sep p).

Definition dirname (p : string) : string :=
  let head := fst (rsplit_sep p) in
  if negb (String.eqb head "") && negb (forallb is_sep head)
  then rstrip_sep head
  else head.

(** One step of the loop of [join]. *)
Definition join_step (path b : string) : string :=
  if startswith sep b then b
  else if String.eqb path "" || is_sep (default "x" (last (list_ascii_of_string path)))
       then path +:+ b
       else path +:+ sep +:+ b.

(** [join(a, *p)] *)
Definition join (a : string) (p : list string) : string := foldl join_step a p.

(** One step of the loop of [normpath] over the components. *)
Definition normpath_step (initial_slashes : nat) (new_comps : list string)
    (comp : string) : list string :=
  if String.eqb comp "" || String.eqb comp "." then new_comps
  else if negb (String.eqb comp "..")
          || (Nat.eqb initial_slashes 0 && bool_decide (new_comps = []))
          || (bool_decide (new_comps ≠ []) && bool_decide (last new_comps = Some ".."%string))
       then new_comps ++ [comp]
       else removelast new_comps.

Definition normpath (path : string) : string :=
  if String.eqb path "" then "."%string
  else
    let initial_slashes :=
      if startswith "/" path then
        if startswith "//" path && negb (startswith "///" path) then 2 else 1
      else 0 in
    let comps := foldl (normpath_step initial_slashes) [] (split_sep path) in
    let path' := PyStr.join "/" comps in
    let path'' := String.concat "" (replicate initial_slashes "/"%string) +:+ path' in
    if String.eqb path'' "" then "."%string else path''.

(** [len(commonprefix([l1, l2]))] is the length of the longest common
    prefix of the two component lists. *)
Fixpoint commonprefix (l1 l2 : list string) : list string :=
  match l1, l2 with
  | x :: l1', y :: l2' => if String.eqb x y then x :: commonprefix l1' l2' else []
  | _, _ => []
  end.

Section with_cwd.
(** [os.getcwd()] *)
Variable cwd : string.

Definition abspath (path : string) : string :=
  if isabs path then normpath path else normpath (join cwd [path]).

Definition nonempty (x : string) : bool := negb (String.eqb x "").

Definition relpath (path start : string) : result string :=
  if String.eqb path "" then Raise ValueError
  else
    let start_list := List.filter nonempty (split_sep (abspath start)) in
    let path_list := List.filter nonempty (split_sep (abspath path)) in
    let i := length (commonprefix start_list path_list) in
    let rel_list := replicate (length start_list - i) pardir ++ List.skipn i path_list in
    match rel_list with
    | [] => Ok curdir
    | a :: p => Ok (join a p)
    end.

End with_cwd.

End posixpath.

(** ** [urllib.parse.quote] *)

Module urllib.

Definition hex_digit (n : N) : ascii :=
  if (n <? 10)%N then ascii_of_N (48 + n) else ascii_of_N (55 + n).

(** ['%{:02X}'.format(b)] *)
Definition percent (b : N) : string :=
  String "%" (String (hex_digit (b / 16)) (String (hex_digit (b mod 16)) EmptyString)).

(** The bytes of the UTF-8 encoding of a code point below 256. *)
Definition utf8 (c : ascii) : list N :=
  let n := N_of_ascii c in
  if (n <? 128)%N then [n]
  else [N.lor 192 (N.shiftr n 6); N.lor 128 (N.land n 63)].

(** Membership in [_ALWAYS_SAFE] extended with the default [safe='/']. *)
Definition is_safe (b : N) : bool :=
  ((65 <=? b) && (b <=? 90) || (97 <=? b) && (b <=? 122)
   || (48 <=? b) && (b <=? 57)
   || (b =? 95) || (b =? 46) || (b =? 45) || (b =? 126) || (b =? 47))%N.

Definition quote_byte (b : N) : string :=
  if is_safe b then String (ascii_of_N b) EmptyString else percent b.

Fixpoint quote (s : string) : string :=
  match s with
  | EmptyString => EmptyString
  | String c s' => String.concat "" (quote_byte <$> utf8 c) +:+ quote s'
  end.

End urllib.

(** ** The regular expression and [re.sub] *)

Module re.

Import PyStr.

Definition AUTOLINK_RE : string :=
  "(?:\!\[\]|\[([^\]]+)\])\((([^)/]+\.(md|png|jpg|jpeg|bmp|gif))(#[^)]*" +:+ ")*" +:+ ")\)".

(** A match of [AUTOLINK_RE]: the matched text is a head, "![]" or
    "[label]", an opening parenthesis, a name, a dot, an extension, the
    text of the anchor iterations and a closing parenthesis. *)
Record Match : Set := {
  link_head : string;       (* "![]" or "[label]" *)
  group1 : option string;   (* the label; [None] for the image form *)
  name : string;            (* what "[^)/]+" took *)
  group4 : string;          (* the extension *)
  anchor : string           (* what the iterations of the anchor group took *)
}.

Definition group3 (m : Match) : string := name m +:+ "." +:+ group4 m.
Definition group2 (m : Match) : string := group3 m +:+ anchor m.
Definition group0 (m : Match) : string := link_head m +:+ "(" +:+ group2 m +:+ ")".

(** [Some rest] when [s = p ++ rest]. *)
Fixpoint strip_prefix (p s : string) : option string :=
  match p, s with
  | EmptyString, _ => Some s
  | String a p', String b s' => if Ascii.eqb a b then strip_prefix p' s' else None
  | String _ _, EmptyString => None
  end.

Definition extensions : list string := ["md"; "png"; "jpg"; "jpeg"; "bmp"; "gif"]%string.

Definition not_rparen (c : ascii) : bool := negb (Ascii.eqb c ")").
Definition not_rbracket (c : ascii) : bool := negb (Ascii.eqb c "]").
Definition name_char (c : ascii) : bool := negb (Ascii.eqb c ")") && negb (Ascii.eqb c "/").

(** The repeated anchor group and the closing parenthesis.  Every
    iteration of the group starts at a "#" and takes characters other
    than ")"; whichever way the iterations are cut, they end where the
    first ")" stands, so the text matched is "#" up to that ")", or
    nothing when ")" comes at once. *)
Definition match_anchors (t : string) : option (string * string) :=
  match t with
  | String ")" rest => Some (EmptyString, rest)
  | String "#" t' =>
      let '(a, r) := span not_rparen t' in
      match r with
      | String ")" rest => Some (String "#" a, rest)
      | _ => None
      end
  | _ => None
  end.

(** "(md|png|jpg|jpeg|bmp|gif)" and what follows it: the alternatives in
    the order of the pattern, the next one tried when the rest fails. *)
Fixpoint match_ext (exts : list string) (t : string) : option (string * string * string) :=
  match exts with
  | [] => None
  | e :: exts' =>
      match strip_prefix e t with
      | Some t' =>
          match match_anchors t' with
          | Some (a, rest) => Some (e, a, rest)
          | None => match_ext exts' t
          end
      | None => match_ext exts' t
      end
  end.

Definition match_dot_ext (t : string) : option (string * string * string) :=
  match t with
  | String "." t' => match_ext extensions t'
  | _ => None
  end.

(** "[^)/]+" and what follows it: the greedy "+" takes as many characters
    as it can and gives them back one at a time, so the longest name
    after which the rest matches wins. *)
Fixpoint match_name (t : string) : option (string * string * string * string) :=
  match t with
  | EmptyString => None
  | String c t' =>
      if name_char c then
        match match_name t' with
        | Some (n, e, a, rest) => Some (String c n, e, a, rest)
        | None =>
            match match_dot_ext t' with
            | Some (e, a, rest) => Some (String c EmptyString, e, a, rest)
            | None => None
            end
        end
      else None
  end.

(** "(?:\!\[\]|\[([^\]]+)\])": the two alternatives start with different
    characters; the label is the run of characters up to the first "]"
    and has at least one character. *)
Definition match_head (s : string) : option (string * option string * string) :=
  match strip_prefix "![]" s with
  | Some rest => Some ("![]"%string, None, rest)
  | None =>
      match s with
      | String "[" t =>
          let '(lab, r) := span not_rbracket t in
          match lab, r with
          | String _ _, String "]" rest => Some ("[" +:+ lab +:+ "]", Some lab, rest)
          | _, _ => None
          end
      | _ => None
      end
  end.

(** The match of [AUTOLINK_RE] that starts at the first character of [s],
    with the text after it. *)
Definition match_ (s : string) : option (Match * string) :=
  match match_head s with
  | Some (hd, g1, String "(" t) =>
      match match_name t with
      | Some (n, e, a, rest) =>
          Some ({| link_head := hd; group1 := g1; name := n; group4 := e; anchor := a |}, rest)
      | None => None
      end
  | _ => None
  end.

(** The scan of [re.sub(AUTOLINK_RE, repl, s)] with a callable [repl]:
    matches are looked for from left to right; a match is replaced by
    what [repl] returns and the scan goes on after it; a character at
    which nothing matches is copied.  [skip] counts the characters of the
    last match still to be passed over.  A match is never empty. *)
Fixpoint sub_go {S} (repl : Match → M S string) (skip : nat) (s : string) : M S string :=
  match s with
  | EmptyString => ret EmptyString
  | String c s' =>
      match skip with
      | S k => sub_go repl k s'
      | O =>
          match match_ s with
          | Some (m, _) =>
              let! r := repl m in
              let! out := sub_go repl (String.length (group0 m) - 1) s' in
              ret (r +:+ out)
          | None =>
              let! out := sub_go repl 0 s' in
              ret (String c out)
          end
      end
  end.

Definition sub {S} (repl : Match → M S string) (s : string) : M S string :=
  sub_go repl 0 s.

End re.

(** ** The objects handed over by MkDocs *)

Record File : Set := { src_path : string; abs_src_path : string }.
Record Page : Set := { file : File }.
Record Config : Set := { docs_dir : string }.

(** ** [collections.Counter] and [defaultdict]

    A [Counter] keeps its keys in the order of their first insertion, which
    is the order in which the report lists them. *)

Abbreviation Counter := (list (string * nat)).

(** [c[k]], 0 for an absent key. *)
Fixpoint counter_get (k : string) (c : Counter) : nat :=
  match c with
  | [] => 0
  | (k', n) :: c' => if String.eqb k k' then n else counter_get k c'
  end.

(** [c[k] += 1] *)
Fixpoint counter_incr (k : string) (c : Counter) : Counter :=
  match c with
  | [] => [(k, 1)]
  | (k', n) :: c' =>
      if String.eqb k k' then (k', S n) :: c' else (k', n) :: counter_incr k c'
  end.

(** [d[k]] of a [defaultdict]: the value, and the dictionary with the
    default stored under [k] when [k] was absent. *)
Definition dd_get {V} (dflt : V) (k : string) (d : gmap string V) : V * gmap string V :=
  match d !! k with
  | Some v => (v, d)
  | None => (dflt, <[k := dflt]> d)
  end.

Fixpoint for_each {S A} (f : A → M S unit) (l : list A) : M S unit :=
  match l with
  | [] => ret tt
  | x :: l' => let! _ := f x in for_each f l'
  end.

(** [sorted(d)]: the keys of a dictionary in ascending order. *)
Definition sorted {V} (d : gmap string V) : list string :=
  merge_sort String.le (fst <$> map_to_list d).

Definition nl : string := String "010" EmptyString.

(** ** [class AutoLinkReplacer] *)

Module AutoLinkReplacer.

Import PyStr posixpath urllib re.

(** The attributes set by [__init__], but for [missing_filenames]: that
    one is the plugin's own dictionary, shared with the replacer, and is
    the store of the computation [__call__]. *)
Record t : Type := {
  base_docs_dir : string;
  abs_page_path : string;
  filename_to_abs_path : option (gmap string string)
}.

Section with_cwd.
Variable cwd : string.

(** [self.missing_filenames[filename][rel_page_path] += 1] *)
Definition count_missing (filename rel_page_path : string)
    (missing_filenames : gmap string Counter) : gmap string Counter :=
  let '(c, d) := dd_get [] filename missing_filenames in
  <[filename := counter_incr rel_page_path c]> d.

Definition __call__ (self : t) (match_ : Match) : M (gmap string Counter) string :=
  let filename := strip (group3 match_) in
  let abs_linker_dir := dirname (abs_page_path self) in
  match filename_to_abs_path self with
  | None => raise TypeError
  | Some index =>
      match index !! filename with
      | None =>
          let! rel_page_path := lift (relpath cwd (abs_page_path self) (base_docs_dir self)) in
          let! _ := modify (count_missing filename rel_page_path) in
          ret (group0 match_)
      | Some abs_link_path =>
          let! rel_link_path := lift (relpath cwd abs_link_path abs_linker_dir) in
          ret (replace (group0 match_) (group3 match_) (quote rel_link_path))
      end
  end.

End with_cwd.

End AutoLinkReplacer.

(** ** [class AutoLinksPlugin] *)

Module AutoLinksPlugin.

Import PyStr posixpath.

Record t : Type := {
  filename_to_abs_path : option (gmap string string);
  missing_filenames : gmap string Counter;
  duplicate_filenames : gmap string (list string)
}.

Definition __init__ : t :=
  {| filename_to_abs_path := None; missing_filenames := ∅; duplicate_filenames := ∅ |}.

Definition set_filename_to_abs_path (v : option (gmap string string)) (self : t) : t :=
  {| filename_to_abs_path := v;
     missing_filenames := missing_filenames self;
     duplicate_filenames := duplicate_filenames self |}.

Definition set_missing_filenames (v : gmap string Counter) (self : t) : t :=
  {| filename_to_abs_path := filename_to_abs_path self;
     missing_filenames := v;
     duplicate_filenames := duplicate_filenames self |}.

Definition set_duplicate_filenames (v : gmap string (list string)) (self : t) : t :=
  {| filename_to_abs_path := filename_to_abs_path self;
     missing_filenames := missing_filenames self;
     duplicate_filenames := v |}.

(** [self.duplicate_filenames[filename].append(x)] *)
Definition append_duplicate (filename x : string) (self : t) : t :=
  let '(l, d) := dd_get [] filename (duplicate_filenames self) in
  set_duplicate_filenames (<[filename := l ++ [x]]> d) self.

Section with_cwd.
Variable cwd : string.

(** The body of the loop of [init_filename_to_abs_path]. *)
Definition init_step (docs_dir : string) (file_ : File) : M t unit := λ self,
  let filename := basename (abs_src_path file_) in
  match filename_to_abs_path self with
  | None => (Raise TypeError, self)
  | Some index =>
      match index !! filename with
      | Some first =>
          let '(l, d) := dd_get [] filename (duplicate_filenames self) in
          let self := set_duplicate_filenames d self in
          let r :=
            if Nat.eqb (length l) 0 then
              match relpath cwd first docs_dir with
              | Ok rel => (Ok tt, append_duplicate filename rel self)
              | Raise e => (Raise e, self)
              end
            else (Ok tt, self) in
          match r with
          | (Ok _, self) => (Ok tt, append_duplicate filename (src_path file_) self)
          | (Raise e, self) => (Raise e, self)
          end
      | None =>
          (Ok tt, set_filename_to_abs_path (Some (<[filename := abs_src_path file_]> index)) self)
      end
  end.

Definition init_filename_to_abs_path (files : list File) (docs_dir : string) : M t unit :=
  let! _ := modify (set_filename_to_abs_path (Some ∅)) in
  for_each (init_step docs_dir) files.

Definition on_page_markdown (markdown : string) (page : Page) (config : Config)
    (files : list File) : M t string :=
  let base_docs_dir := docs_dir config in
  let! _ := (λ self, match filename_to_abs_path self with
                     | None => init_filename_to_abs_path files base_docs_dir self
                     | Some _ => (Ok tt, self)
                     end) in
  let abs_page_path := abs_src_path (file page) in
  λ self,
    let replacer :=
      {| AutoLinkReplacer.base_docs_dir := base_docs_dir;
         AutoLinkReplacer.abs_page_path := abs_page_path;
         AutoLinkReplacer.filename_to_abs_path := filename_to_abs_path self |} in
    let '(markdown, missing) :=
      re.sub (AutoLinkReplacer.__call__ cwd replacer) markdown (missing_filenames self) in
    (markdown, set_missing_filenames missing self).

End with_cwd.

Definition duplicate_line (self : t) (filename : string) : string :=
  let paths := PyStr.join ", " ((λ p, "`" +:+ p +:+ "`") <$> default [] (duplicate_filenames self !! filename)) in
  "- [ ] " +:+ filename +:+ ", at " +:+ paths.

Definition ref_line (ref : string * nat) : string :=
  let '(ref_path, occurences) := ref in
  "  - `" +:+ ref_path +:+ "` (" +:+ of_nat occurences +:+ " occurences)".

Definition missing_block (self : t) (filename : string) : string :=
  let counter := default [] (missing_filenames self !! filename) in
  let refs_str := PyStr.join nl (ref_line <$> counter) in
  let num_files := length counter in
  "- [ ] " +:+ filename +:+ ", in " +:+ of_nat num_files +:+ " file(s)" +:+ nl +:+ refs_str.

Definition generate_report (self : t) : string :=
  let duplicate_filenames_str :=
    PyStr.join nl (duplicate_line self <$> sorted (duplicate_filenames self)) in
  let missing_filenames_str :=
    PyStr.join nl (missing_block self <$> sorted (missing_filenames self)) in
  "# AutoLinksPlugin report" +:+ nl +:+ nl +:+
  "## Duplicate filenames" +:+ nl +:+ nl +:+
  duplicate_filenames_str +:+ nl +:+ nl +:+
  "## Missing filenames" +:+ nl +:+ nl +:+
  missing_filenames_str +:+ nl.

(** [on_post_build] writes the report to a fixed path: the path and the
    text written. *)
Definition on_post_build (self : t) : string * string :=
  ("mkdocs-autolinks-plugin-report.md"%string, generate_report self).

End AutoLinksPlugin.

Local Close Scope char_scope.

(** ** Vocabulary of the statements *)

Definition result_map {A B} (f : A → B) (r : result A) : result B :=
  match r with
  | Ok a => Ok (f a)
  | Raise e => Raise e
  end.

(** The outcome of a computation with [p] put in front of the text it
    returns. *)
Definition prepend {S} (p : string) (x : result string * S) : result string * S :=
  (result_map (String.append p) x.1, x.2).

(** The files of [files] whose basename is [b], in the order of [files]. *)
Definition named (b : string) (files : list File) : list File :=
  filter (λ f, posixpath.basename (abs_src_path f) = b) files.

(** What [relpath] returns, for a path for which it raises nothing. *)
Definition rel_to (cwd start path : string) : string :=
  match posixpath.relpath cwd path start with
  | Ok r => r
  | Raise _ => EmptyString
  end.

(** The entry of the duplicate registry for a basename after the index has
    been built: [d0] is the entry before, [fs] the files with that
    basename. *)
Definition duplicates_entry (cwd docs_dir : string) (d0 : option (list string))
    (fs : list File) : option (list string) :=
  match fs with
  | f0 :: f1 :: tl =>
      let l := default [] d0 in
      Some ((if Nat.eqb (length l) 0 then [rel_to cwd docs_dir (abs_src_path f0)] else l)
            ++ (src_path <$> f1 :: tl))
  | _ => d0
  end.

(** [missing_filenames[filename][ref]] read without creating an entry. *)
Definition missing_count (missing : gmap string Counter) (filename ref : string) : nat :=
  counter_get ref (default [] (missing !! filename)).

(** Across the builds served by one plugin, the pages of a later build are
    rewritten as a fresh plugin would rewrite them from the files of that
    build.  [self1] is the plugin after a page of the first build. *)
Definition index_rebuilt_per_build : Prop :=
  ∀ (cwd : string) (config : Config)
    (files1 : list File) (page1 : Page) (markdown1 : string)
    (files2 : list File) (page2 : Page) (markdown2 : string),
    let self1 :=
      (AutoLinksPlugin.on_page_markdown cwd markdown1 page1 config files1
         AutoLinksPlugin.__init__).2 in
    (AutoLinksPlugin.on_page_markdown cwd markdown2 page2 config files2 self1).1 =
    (AutoLinksPlugin.on_page_markdown cwd markdown2 page2 config files2
       AutoLinksPlugin.__init__).1.

(** The keys of every counter of the registry are distinct, as the keys of
    a dictionary are. *)
Definition counters_wf (missing : gmap string Counter) : Prop :=
  map_Forall (λ _ (c : Counter), NoDup c.*1) missing.

(** The characters [quote] can put out: the safe ones and "%". *)
Definition quoted_char (c : ascii) : bool :=
  urllib.is_safe (N_of_ascii c) || Ascii.eqb c "%".

(** The characters that the name of a link can hold and that start no
    anchor. *)
Definition plain_char (c : ascii) : bool :=
  re.name_char c && negb (Ascii.eqb c "#").

Definition has_lbracket (s : string) : bool := PyStr.existsb (Ascii.eqb "[") s.

(** The characters a link can start with: "[", and "!" for the image
    form. *)
Definition has_link_start (s : string) : bool :=
  PyStr.existsb (λ c, Ascii.eqb c "[" || Ascii.eqb c "!") s.

Definition has_sep (s : string) : bool := PyStr.existsb PyStr.is_sep s.

(** What the matcher returns, with another text after the match. *)
Definition set_rest3 (rest : string) (o : option (string * string * string)) :=
  match o with
  | Some (e, a, _) => Some (e, a, rest)
  | None => None
  end.

Definition set_rest4 (rest : string) (o : option (string * string * string * string)) :=
  match o with
  | Some (n, e, a, _) => Some (n, e, a, rest)
  | None => None
  end.

(** A page cut in pieces: text that holds no "[", and links. *)
Inductive piece : Type :=
| Text (u : string)
| Link (m : re.Match).

Definition piece_text (p : piece) : string :=
  match p with
  | Text u => u
  | Link m => re.group0 m
  end.

Fixpoint pieces_text (ps : list piece) : string :=
  match ps with
  | [] => EmptyString
  | p :: ps' => piece_text p +:+ pieces_text ps'
  end.

Global Instance Match_eq_dec : EqDecision re.Match.
Proof. solve_decision. Defined.

Section pieces.
Variable cwd : string.
Variable self : AutoLinkReplacer.t.

(** The path from the directory of the page to the file indexed under the
    name of the link. *)
Definition link_rel (m : re.Match) : option string :=
  match AutoLinkReplacer.filename_to_abs_path self with
  | Some index =>
      match index !! PyStr.strip (re.group3 m) with
      | Some abs_link_path =>
          match posixpath.relpath cwd abs_link_path
                  (posixpath.dirname (AutoLinkReplacer.abs_page_path self)) with
          | Ok rel => Some rel
          | Raise _ => None
          end
      | None => None
      end
  | None => None
  end.

(** The text that the replacer returns for a link whose name is in the
    index. *)
Definition link_out (m : re.Match) : string :=
  match link_rel m with
  | Some rel => PyStr.replace (re.group0 m) (re.group3 m) (urllib.quote rel)
  | None => re.group0 m
  end.

(** A link that is what the pattern matches in its own text, whose name is
    in the index and holds none of "(", "[" and "]", whose label and anchor
    hold no "[", and whose file is reached by a path that holds a "/". *)
Definition stable_link (m : re.Match) : bool :=
  bool_decide (re.match_ (re.group0 m) = Some (m, EmptyString))
  && match link_rel m with Some rel => has_sep rel | None => false end
  && negb (PyStr.existsb (λ c, Ascii.eqb "(" c || Ascii.eqb "[" c || Ascii.eqb "]" c)
             (re.group3 m))
  && negb (has_lbracket (default EmptyString (re.group1 m)))
  && negb (has_lbracket (re.anchor m)).

Definition simple_piece (p : piece) : bool :=
  match p with
  | Text u => negb (has_lbracket u)
  | Link m => stable_link m
  end.

Definition piece_out (p : piece) : string :=
  match p with
  | Text u => u
  | Link m => link_out m
  end.

Fixpoint pieces_out (ps : list piece) : string :=
  match ps with
  | [] => EmptyString
  | p :: ps' => piece_out p +:+ pieces_out ps'
  end.

End pieces.

(** The replacer that the page hook makes for a page. *)
Definition page_replacer (config : Config) (page : Page) (index : gmap string string)
    : AutoLinkReplacer.t :=
  {| AutoLinkReplacer.base_docs_dir := docs_dir config;
     AutoLinkReplacer.abs_page_path := abs_src_path (file page);
     AutoLinkReplacer.filename_to_abs_path := Some index |}.

(** A link that the replacer has nothing to do on: its trimmed name is no
    key of the index, or its name is already the encoded path from the
    directory of the page to the file indexed under its trimmed name. *)
Definition settled_link (cwd : string) (page : Page) (index : gmap string string)
    (m : re.Match) : bool :=
  match index !! PyStr.strip (re.group3 m) with
  | Some abs_link_path =>
      String.eqb
        (urllib.quote
           (rel_to cwd (posixpath.dirname (abs_src_path (file page))) abs_link_path))
        (re.group3 m)
  | None => true
  end.

(** ** Sample sites *)

(** The three files of the duplicate example of the specification. *)
Definition abc_files : list File :=
  [ {| src_path := "a/x.md"; abs_src_path := "/docs/a/x.md" |};
    {| src_path := "b/x.md"; abs_src_path := "/docs/b/x.md" |};
    {| src_path := "c/x.md"; abs_src_path := "/docs/c/x.md" |} ].

Definition docs_config : Config := {| docs_dir := "/docs" |}.

Definition page_at (src abs : string) : Page :=
  {| file := {| src_path := src; abs_src_path := abs |} |}.

(** A replacer for the page "/docs/d1.md" of a site with no file, and the
    match of the link "![](ghost.png)". *)
Definition ghost_replacer : AutoLinkReplacer.t :=
  {| AutoLinkReplacer.base_docs_dir := "/docs";
     AutoLinkReplacer.abs_page_path := "/docs/d1.md";
     AutoLinkReplacer.filename_to_abs_path := Some ∅ |}.

Definition ghost_match : re.Match :=
  {| re.link_head := "![]"; re.group1 := None; re.name := "ghost";
     re.group4 := "png"; re.anchor := "" |}.

(** A site in which "x.md" lies in "a", and the site after the file has
    been moved to "b". *)
Definition site_a : list File := [ {| src_path := "a/x.md"; abs_src_path := "/docs/a/x.md" |} ].
Definition site_b : list File := [ {| src_path := "b/x.md"; abs_src_path := "/docs/b/x.md" |} ].

(** A plugin that has recorded two missing names. *)
Definition reporting_plugin : AutoLinksPlugin.t :=
  {| AutoLinksPlugin.filename_to_abs_path := Some ∅;
     AutoLinksPlugin.missing_filenames :=
       {[ "zeta.png" := [("d1.md", 1)];
          "ghost.png" := [("d1.md", 2); ("d2.md", 1)] ]};
     AutoLinksPlugin.duplicate_filenames :=
       {[ "x.md" := ["a/x.md"; "b/x.md"]; "index.md" := ["index.md"; "a/index.md"] ]} |}.

(** A site with a page "notes.md" in the directory "x", and a page in the
    directory "a" that links to it. *)
Definition notes_site : list File :=
  [ {| src_path := "x/notes.md"; abs_src_path := "/docs/x/notes.md" |};
    {| src_path := "a/page.md"; abs_src_path := "/docs/a/page.md" |} ].

(** A site with a file whose name holds "](". *)
Definition bracket_site : list File :=
  [ {| src_path := "x/a.md](a.md"; abs_src_path := "/docs/x/a.md](a.md" |};
    {| src_path := "p.md"; abs_src_path := "/docs/p.md" |} ].

(** A site with a file whose name holds a space, and a file whose name is
    the percent-encoding of that name. *)
Definition percent_site : list File :=
  [ {| src_path := "a b.md"; abs_src_path := "/docs/a b.md" |};
    {| src_path := "sub/a%20b.md"; abs_src_path := "/docs/sub/a%20b.md" |};
    {| src_path := "p.md"; abs_src_path := "/docs/p.md" |} ].

(** The replacer for the page "/docs/a/page.md" of [notes_site], and the
    match of the link "[Link](notes.md#section-2)". *)
Definition notes_replacer : AutoLinkReplacer.t :=
  {| AutoLinkReplacer.base_docs_dir := "/docs";
     AutoLinkReplacer.abs_page_path := "/docs/a/page.md";
     AutoLinkReplacer.filename_to_abs_path :=
       Some {[ "notes.md" := "/docs/x/notes.md"; "page.md" := "/docs/a/page.md" ]} |}.

Definition notes_match : re.Match :=
  {| re.link_head := "[Link]"; re.group1 := Some "Link"; re.name := "notes";
     re.group4 := "md"; re.anchor := "#section-2" |}.

(** The match of the link "![](notes.md)". *)
Definition notes_image : re.Match :=
  {| re.link_head := "![]"; re.group1 := None; re.name := "notes";
     re.group4 := "md"; re.anchor := "" |}.

(** A page of [notes_site] with two links and text around them. *)
Definition notes_page : list piece :=
  [ Text "See "; Link notes_match; Text ", or (!) "; Link notes_image; Text "!" ].

(** A site with a page in the directory "a", a page "sibling.md" beside
    it and a page "notes.md" in the directory "x"; and a page of the site
    with a check box, a footnote mark, a link to another site, a link to
    each of the two pages and an image that no file has. *)
Definition mixed_site : list File :=
  [ {| src_path := "x/notes.md"; abs_src_path := "/docs/x/notes.md" |};
    {| src_path := "a/page.md"; abs_src_path := "/docs/a/page.md" |};
    {| src_path := "a/sibling.md"; abs_src_path := "/docs/a/sibling.md" |} ].

Definition mixed_index : gmap string string :=
  {[ "notes.md" := "/docs/x/notes.md"; "page.md" := "/docs/a/page.md";
     "sibling.md" := "/docs/a/sibling.md" ]}.

Definition mixed_page : string :=
  "- [ ] todo[^1] [ext](http://a.b/c.md) [s](sibling.md) [n](notes.md) ![](ghost.png)".

Definition mixed_page_rewritten : string :=
  "- [ ] todo[^1] [ext](http://a.b/c.md) [s](sibling.md) [n](../x/notes.md) ![](ghost.png)".

(** ** Vocabulary of the further properties *)

(** The shape that the pattern prescribes for a link: the head is "![]",
    or a label between brackets that is not empty and holds no "]"; the
    name is not empty and holds neither ")" nor "/"; the extension is one
    of the six; the anchor is empty, or starts with "#" and holds no
    ")". *)
Definition link_shaped (m : re.Match) : bool :=
  match re.group1 m with
  | None => String.eqb (re.link_head m) "![]"
  | Some lab =>
      String.eqb (re.link_head m) ("[" +:+ lab +:+ "]")
      && negb (String.eqb lab "") && PyStr.forallb re.not_rbracket lab
  end
  && negb (String.eqb (re.name m) "") && PyStr.forallb re.name_char (re.name m)
  && bool_decide (re.group4 m ∈ re.extensions)
  && PyStr.forallb re.not_rparen (re.anchor m)
  && match re.anchor m with
     | EmptyString => true
     | String c _ => Ascii.eqb c "#"
     end.

(** [re.finditer(AUTOLINK_RE, s)]: the matches that the scan of [re.sub]
    comes to, from left to right.  [skip] counts the characters of the
    last match still to be passed over. *)
Fixpoint finditer_go (skip : nat) (s : string) : list re.Match :=
  match s with
  | EmptyString => []
  | String c s' =>
      match skip with
      | S k => finditer_go k s'
      | O =>
          match re.match_ s with
          | Some (m, _) => m :: finditer_go (String.length (re.group0 m) - 1) s'
          | None => finditer_go 0 s'
          end
      end
  end.

Definition finditer (s : string) : list re.Match := finditer_go 0 s.

(** The trimmed names of the links of a text that are no key of the
    index, one for each such link, from left to right. *)
Definition unresolved (index : gmap string string) (s : string) : list string :=
  filter (λ k, index !! k = None) ((λ m, PyStr.strip (re.group3 m)) <$> finditer s).

(** No path of the index is empty. *)
Definition index_paths_nonempty (self : AutoLinksPlugin.t) : Prop :=
  ∀ index, AutoLinksPlugin.filename_to_abs_path self = Some index →
           map_Forall (λ (_ : string) (p : string), p ≠ "") index.

(** The plugin after the index of [notes_site] has been built. *)
Definition notes_plugin : AutoLinksPlugin.t :=
  {| AutoLinksPlugin.filename_to_abs_path :=
       Some {[ "notes.md" := "/docs/x/notes.md"; "page.md" := "/docs/a/page.md" ]};
     AutoLinksPlugin.missing_filenames := ∅;
     AutoLinksPlugin.duplicate_filenames := ∅ |}.

(** A component of a normalised path: not empty, without "/", and neither
    "." nor "..". *)
Definition clean_comp (c : string) : bool :=
  negb (String.eqb c "") && negb (has_sep c)
  && negb (String.eqb c ".") && negb (String.eqb c "..").

(** The absolute path with the components [cs]. *)
Definition abs_of (cs : list string) : string := "/" +:+ PyStr.join "/" cs.

(** The value of a hexadecimal digit in upper case. *)
Definition hex_value (c : ascii) : N :=
  let n := N_of_ascii c in
  if ((48 <=? n) && (n <=? 57))%N then (n - 48)%N else (n - 55)%N.

(** The character at the start of a quoted text, and the text after what
    stands for it: a character as it is, or the character with the
    UTF-8 bytes that one or two "%XX" give. *)
Definition unquote_head (s : string) : option (ascii * string) :=
  match s with
  | String "%" (String h1 (String h2 r)) =>
      let b := (16 * hex_value h1 + hex_value h2)%N in
      if (b <? 128)%N then Some (ascii_of_N b, r)
      else
        match r with
        | String "%" (String h3 (String h4 r')) =>
            let b2 := (16 * hex_value h3 + hex_value h4)%N in
            Some (ascii_of_N (64 * N.land b 3 + N.land b2 63), r')
        | _ => None
        end
  | String c r => Some (c, r)
  | EmptyString => None
  end.

(** A text of characters that [quote] keeps. *)
Definition all_safe (s : string) : bool :=
  PyStr.forallb (λ c, urllib.is_safe (N_of_ascii c)) s.

(** The replacer for the page "/docs/a/page.md" of a site that has
    "notes.md" in the directory of the page. *)
Definition sibling_replacer : AutoLinkReplacer.t :=
  {| AutoLinkReplacer.base_docs_dir := "/docs";
     AutoLinkReplacer.abs_page_path := "/docs/a/page.md";
     AutoLinkReplacer.filename_to_abs_path :=
       Some {[ "notes.md" := "/docs/a/notes.md"; "page.md" := "/docs/a/page.md" ]} |}.

(** The pieces that the scan of [re.sub] cuts a text in: the links it
    comes to, and one text for every character that it copies. *)
Fixpoint scan_go (skip : nat) (s : string) : list piece :=
  match s with
  | EmptyString => []
  | String c s' =>
      match skip with
      | S k => scan_go k s'
      | O =>
          match re.match_ s with
          | Some (m, _) => Link m :: scan_go (String.length (re.group0 m) - 1) s'
          | None => Text (String c EmptyString) :: scan_go 0 s'
          end
      end
  end.

Definition scan (s : string) : list piece := scan_go 0 s.

(** The fixed frame of the report around the texts of its two
    sections. *)
Definition report_frame (duplicates_section missing_section : string) : string :=
  "# AutoLinksPlugin report" +:+ nl +:+ nl +:+
  "## Duplicate filenames" +:+ nl +:+ nl +:+
  duplicates_section +:+ nl +:+ nl +:+
  "## Missing filenames" +:+ nl +:+ nl +:+
  missing_section +:+ nl.

(** * Properties *)

(** ** Strings *)

Section string_facts.
Import PyStr.

Lemma sapp_cons (c : ascii) (s t : string) : String c s +:+ t = String c (s +:+ t).
Proof. reflexivity. Qed.

Lemma sapp_nil_l (s : string) : "" +:+ s = s.
Proof. reflexivity. Qed.

Lemma sapp_nil_r (s : string) : s +:+ "" = s.
Proof. induction s as [|c s IH]; [done|]. by rewrite sapp_cons, IH. Qed.

Lemma sapp_assoc (s t u : string) : (s +:+ t) +:+ u = s +:+ t +:+ u.
Proof. induction s as [|c s IH]; [done|]. by rewrite !sapp_cons, IH. Qed.

Lemma slength_app (s t : string) :
  String.length (s +:+ t) = String.length s + String.length t.
Proof. induction s as [|c s IH]; [done|]. rewrite sapp_cons. simpl. by rewrite IH. Qed.

Lemma sdrop_app_length (s t : string) : drop (String.length s) (s +:+ t) = t.
Proof. induction s as [|c s IH]; [by destruct t|]. by rewrite sapp_cons. Qed.

Lemma sforallb_app (f : ascii → bool) (s t : string) :
  forallb f (s +:+ t) = forallb f s && forallb f t.
Proof.
  induction s as [|c s IH]; [done|].
  rewrite sapp_cons. simpl. rewrite IH. by destruct (f c).
Qed.

Lemma sexistsb_app (f : ascii → bool) (s t : string) :
  existsb f (s +:+ t) = existsb f s || existsb f t.
Proof.
  induction s as [|c s IH]; [done|].
  rewrite sapp_cons. simpl. rewrite IH. by destruct (f c).
Qed.

Lemma existsb_false_forallb (f : ascii → bool) (s : string) :
  existsb f s = false ↔ forallb (λ c, negb (f c)) s = true.
Proof.
  induction s as [|c s IH]; [done|]. simpl.
  destruct (f c); simpl; [split; discriminate|done].
Qed.

Lemma forallb_impl (f g : ascii → bool) (s : string) :
  (∀ c, f c = true → g c = true) → forallb f s = true → forallb g s = true.
Proof.
  intros Hfg. induction s as [|c s IH]; [done|]. simpl.
  intros [Hc Hs]%andb_prop. by rewrite (Hfg c Hc), IH.
Qed.

(** [span] cuts its argument in two; the first part satisfies the test
    and the second part does not start with a character that does. *)
Lemma span_spec (f : ascii → bool) (s a b : string) :
  span f s = (a, b) →
  s = a +:+ b ∧ forallb f a = true ∧
  match b with String c _ => f c = false | EmptyString => True end.
Proof.
  revert a b. induction s as [|c s IH]; intros a b; simpl.
  - intros [= <- <-]. done.
  - destruct (f c) eqn:Hc.
    + destruct (span f s) as [a' b'] eqn:Hs. intros [= <- <-].
      destruct (IH _ _ eq_refl) as (-> & Ha & Hb).
      rewrite sapp_cons. simpl. by rewrite Hc, Ha.
    + intros [= <- <-]. done.
Qed.

(** Conversely, a run of characters that satisfy the test, followed by
    one that does not, is cut right after the run. *)
Lemma span_app (f : ascii → bool) (a : string) (c : ascii) (b : string) :
  forallb f a = true → f c = false → span f (a +:+ String c b) = (a, String c b).
Proof.
  intros Ha Hc. induction a as [|x a IH].
  - rewrite sapp_nil_l. simpl. by rewrite Hc.
  - rewrite sapp_cons. simpl. apply andb_prop in Ha as [Hx Ha].
    by rewrite Hx, (IH Ha).
Qed.

End string_facts.

(** Brings a concatenation of strings to the form [c1 :: ... :: (s +:+ t)],
    associated to the right. *)
Ltac norm_app :=
  repeat (rewrite sapp_assoc || rewrite sapp_cons || rewrite sapp_nil_l).

(** ** The regular expression *)

Section regex_facts.
Import PyStr re.

Lemma strip_prefix_spec (p s r : string) : strip_prefix p s = Some r ↔ s = p +:+ r.
Proof.
  revert s. induction p as [|a p IH]; intros s; simpl.
  - rewrite sapp_nil_l. split; congruence.
  - destruct s as [|b s]; [by rewrite sapp_cons|].
    rewrite sapp_cons. destruct (Ascii.eqb_spec a b) as [->|Hab].
    + rewrite IH. split; congruence.
    + split; congruence.
Qed.

Lemma strip_prefix_app (p r : string) : strip_prefix p (p +:+ r) = Some r.
Proof. by apply strip_prefix_spec. Qed.

Lemma match_anchors_spec (t a rest : string) :
  match_anchors t = Some (a, rest) →
  t = a +:+ ")" +:+ rest ∧ forallb not_rparen a = true ∧
  (a = "" ∨ ∃ a', a = String "#" a').
Proof.
  unfold match_anchors. destruct t as [|c t]; [done|].
  destruct (Ascii.eqb_spec c ")") as [->|Hc1].
  { intros [= <- <-]. eauto. }
  destruct (Ascii.eqb_spec c "#") as [->|Hc2].
  - destruct (span not_rparen t) as [a' r] eqn:Hs.
    apply span_spec in Hs as (-> & Ha & _).
    destruct r as [|c r]; [done|].
    destruct (Ascii.eqb_spec c ")") as [->|Hc3].
    + intros [= <- <-]. rewrite sapp_cons. simpl. eauto.
    + destruct c as [[] [] [] [] [] [] [] []]; done.
  - destruct c as [[] [] [] [] [] [] [] []]; done.
Qed.

Lemma match_ext_spec (exts : list string) (t e a rest : string) :
  match_ext exts t = Some (e, a, rest) →
  e ∈ exts ∧ t = e +:+ a +:+ ")" +:+ rest ∧ forallb not_rparen a = true ∧
  (a = "" ∨ ∃ a', a = String "#" a').
Proof.
  induction exts as [|x exts IH]; simpl; [done|].
  destruct (strip_prefix x t) as [t'|] eqn:Hx.
  - destruct (match_anchors t') as [[a' rest']|] eqn:Ha.
    + intros [= <- <- <-]. apply strip_prefix_spec in Hx as ->.
      apply match_anchors_spec in Ha as (-> & ? & ?).
      split; [left|done].
    + intros H. destruct (IH H) as (? & ?). split; [by right|done].
  - intros H. destruct (IH H) as (? & ?). split; [by right|done].
Qed.

Lemma match_dot_ext_spec (t e a rest : string) :
  match_dot_ext t = Some (e, a, rest) →
  e ∈ extensions ∧ t = "." +:+ e +:+ a +:+ ")" +:+ rest ∧
  forallb not_rparen a = true ∧ (a = "" ∨ ∃ a', a = String "#" a').
Proof.
  unfold match_dot_ext. destruct t as [|c t]; [done|].
  destruct (Ascii.eqb_spec c ".") as [->|Hc].
  - intros (? & -> & ?)%match_ext_spec. done.
  - destruct c as [[] [] [] [] [] [] [] []]; done.
Qed.

Lemma match_name_spec (t n e a rest : string) :
  match_name t = Some (n, e, a, rest) →
  t = n +:+ "." +:+ e +:+ a +:+ ")" +:+ rest ∧
  n ≠ "" ∧ forallb name_char n = true ∧ e ∈ extensions ∧
  forallb not_rparen a = true ∧ (a = "" ∨ ∃ a', a = String "#" a').
Proof.
  revert n. induction t as [|c t IH]; intros n; simpl; [done|].
  destruct (name_char c) eqn:Hc; [|done].
  destruct (match_name t) as [[[[n' e'] a'] rest']|] eqn:Hn.
  - intros [= <- <- <- <-].
    destruct (IH _ eq_refl) as (-> & ? & Hn' & ?).
    rewrite sapp_cons. simpl. rewrite Hc, Hn'. done.
  - destruct (match_dot_ext t) as [[[e' a'] rest']|] eqn:Hd; [|done].
    intros [= <- <- <- <-].
    apply match_dot_ext_spec in Hd as (? & -> & ?).
    simpl. rewrite Hc. done.
Qed.

Lemma match_head_spec (s hd : string) (g1 : option string) (rest : string) :
  match_head s = Some (hd, g1, rest) →
  s = hd +:+ rest ∧
  (hd = "![]" ∧ g1 = None ∨
   ∃ lab, g1 = Some lab ∧ hd = "[" +:+ lab +:+ "]" ∧ lab ≠ "" ∧
          forallb not_rbracket lab = true).
Proof.
  unfold match_head.
  destruct (strip_prefix "![]" s) as [r|] eqn:Hp.
  { intros [= <- <- <-]. apply strip_prefix_spec in Hp. eauto. }
  destruct s as [|c s]; [done|].
  destruct (Ascii.eqb_spec c "[") as [->|Hc].
  - destruct (span not_rbracket s) as [lab r] eqn:Hs.
    apply span_spec in Hs as (-> & Hlab & _).
    destruct lab as [|x lab]; [done|].
    destruct r as [|y r]; [done|].
    destruct (Ascii.eqb_spec y "]") as [->|Hy].
    + intros [= <- <- <-]. split.
      * by norm_app.
      * right. eauto.
    + destruct y as [[] [] [] [] [] [] [] []]; done.
  - destruct c as [[] [] [] [] [] [] [] []]; done.
Qed.

(** A match is a prefix of the text it was found in, and has the shape
    the pattern prescribes. *)
Lemma match_spec (s : string) (m : Match) (rest : string) :
  match_ s = Some (m, rest) →
  s = group0 m +:+ rest ∧
  (link_head m = "![]" ∧ group1 m = None ∨
   ∃ lab, group1 m = Some lab ∧ link_head m = "[" +:+ lab +:+ "]" ∧ lab ≠ "" ∧
          forallb not_rbracket lab = true) ∧
  name m ≠ "" ∧ forallb name_char (name m) = true ∧ group4 m ∈ extensions ∧
  forallb not_rparen (anchor m) = true ∧
  (anchor m = "" ∨ ∃ a', anchor m = String "#" a').
Proof.
  unfold match_.
  destruct (match_head s) as [[[hd g1] r]|] eqn:Hh; [|done].
  apply match_head_spec in Hh as (-> & Hhd).
  destruct r as [|c r]; [done|].
  destruct (Ascii.eqb_spec c "(") as [->|Hc].
  - destruct (match_name r) as [[[[n e] a] rest']|] eqn:Hn; [|done].
    intros [= <- <-]. apply match_name_spec in Hn as (-> & ?).
    split; [|done]. unfold group0, group2, group3. simpl.
    by norm_app.
  - destruct c as [[] [] [] [] [] [] [] []]; done.
Qed.

Lemma group0_length_pos (m : Match) : 0 < String.length (group0 m).
Proof. unfold group0. rewrite !slength_app. simpl. lia. Qed.

(** A match starts with "!" or with "[". *)
Lemma match_first_char (c : ascii) (s : string) :
  c ≠ "!"%char → c ≠ "["%char → match_ (String c s) = None.
Proof.
  intros H1 H2. unfold match_, match_head. simpl.
  destruct (Ascii.eqb_spec "!" c) as [<-|_]; [done|].
  destruct c as [[] [] [] [] [] [] [] []]; done.
Qed.

End regex_facts.

(** ** The scan of [re.sub] *)

Section sub_facts.
Import PyStr re.
Context {S : Type}.
Variable repl : Match → M S string.

Lemma sub_go_drop (k : nat) (s : string) (st : S) :
  sub_go repl k s st = sub_go repl 0 (drop k s) st.
Proof.
  revert k. induction s as [|c s IH]; intros [|k]; try done.
  simpl. apply IH.
Qed.

Lemma sub_nil (st : S) : sub repl "" st = (Ok "", st).
Proof. done. Qed.

(** Where nothing matches, the character is copied. *)
Lemma sub_skip (c : ascii) (s : string) (st : S) :
  match_ (String c s) = None →
  sub repl (String c s) st = prepend (String c "") (sub repl s st).
Proof.
  intros Hm. unfold sub, prepend. simpl. rewrite Hm. unfold bind, ret.
  by destruct (sub_go repl 0 s st) as [[out|e] st'].
Qed.

(** Where a link matches, it is replaced by what [repl] returns for it,
    and the scan goes on after the link. *)
Lemma sub_match (s : string) (m : Match) (rest : string) (st : S) :
  match_ s = Some (m, rest) →
  sub repl s st =
    match repl m st with
    | (Ok r, st') => prepend r (sub repl rest st')
    | (Raise e, st') => (Raise e, st')
    end.
Proof.
  intros Hm. pose proof (match_spec _ _ _ Hm) as [Hs _].
  pose proof (group0_length_pos m) as Hlen.
  destruct (group0 m) as [|c g] eqn:Hg; [simpl in Hlen; lia|].
  rewrite Hs, sapp_cons. unfold sub. simpl.
  rewrite sapp_cons in Hs. rewrite <- Hs, Hm. unfold bind, ret.
  destruct (repl m st) as [[r|e] st']; [|done].
  rewrite sub_go_drop, Hg. simpl. rewrite Nat.sub_0_r, sdrop_app_length.
  unfold prepend. by destruct (sub_go repl 0 rest st') as [[out|e] st''].
Qed.

(** A text without "[" holds no link and is returned as it is. *)
Lemma sub_no_lbracket (s : string) (st : S) :
  existsb (Ascii.eqb "[") s = false → sub repl s st = (Ok s, st).
Proof.
  induction s as [|c s IH]; [done|]. cbn [existsb].
  intros [Hc Hs]%orb_false_elim. rewrite sub_skip, (IH Hs); [done|].
  apply Ascii.eqb_neq in Hc.
  destruct (Ascii.eqb_spec c "!") as [->|Hc']; [|by apply match_first_char].
  unfold match_, match_head. cbn [strip_prefix].
  destruct s as [|d s]; [done|]. cbn [existsb] in Hs.
  apply orb_false_elim in Hs as [Hd%Ascii.eqb_neq _].
  destruct (Ascii.eqb_spec "[" d) as [<-|_]; [done|].
  by rewrite Ascii.eqb_refl.
Qed.

Lemma prepend_prepend (p q : string) (x : result string * S) :
  prepend p (prepend q x) = prepend (p +:+ q) x.
Proof.
  destruct x as [[r|e] st]; unfold prepend; simpl; [|done].
  by rewrite sapp_assoc.
Qed.

Lemma match_empty_label (t : string) : match_ ("[]" +:+ t) = None.
Proof. done. Qed.

Lemma prepend_nil (x : result string * S) : prepend "" x = x.
Proof. by destruct x as [[r|e] st]. Qed.

(** The scan copies a text in which no link can start. *)
Lemma sub_app_no_start (pre u : string) (st : S) :
  has_link_start pre = false →
  sub repl (pre +:+ u) st = prepend pre (sub repl u st).
Proof.
  unfold has_link_start. induction pre as [|c pre IH].
  - intros _. by rewrite sapp_nil_l, prepend_nil.
  - cbn [existsb]. intros [Hc Hpre]%orb_false_elim.
    apply orb_false_elim in Hc as [Hc1%Ascii.eqb_neq Hc2%Ascii.eqb_neq].
    rewrite sapp_cons, sub_skip, (IH Hpre) by by apply match_first_char.
    by rewrite prepend_prepend.
Qed.

(** The scan copies an empty pair of brackets. *)
Lemma sub_empty_label (t : string) (st : S) :
  sub repl ("[]" +:+ t) st = prepend "[]" (sub repl t st).
Proof.
  norm_app.
  rewrite sub_skip by apply (match_empty_label t).
  rewrite sub_skip by by apply match_first_char.
  by rewrite prepend_prepend.
Qed.

End sub_facts.

(** ** Paths *)

Section path_facts.
Import PyStr posixpath.
Variable cwd : string.

(** [relpath] raises for the empty path only. *)
Lemma relpath_nonempty (path start : string) :
  path ≠ "" → relpath cwd path start = Ok (rel_to cwd start path).
Proof.
  intros Hne. unfold rel_to, relpath.
  destruct (String.eqb_spec path "") as [->|_]; [done|].
  by destruct (_ ++ _)%list.
Qed.

Lemma relpath_empty (start : string) : relpath cwd "" start = Raise ValueError.
Proof. done. Qed.

Lemma relpath_Ok (path start r : string) :
  relpath cwd path start = Ok r → path ≠ "" ∧ rel_to cwd start path = r.
Proof.
  intros Hr. split; [by intros ->|]. unfold rel_to. by rewrite Hr.
Qed.

End path_facts.

(** ** The index builder *)

Section index_builder.
Import PyStr posixpath AutoLinksPlugin.
Variable cwd : string.

Lemma for_each_app {S A} (f : A → M S unit) (l1 l2 : list A) (st : S) :
  for_each f (l1 ++ l2) st =
    match for_each f l1 st with
    | (Ok _, st') => for_each f l2 st'
    | (Raise e, st') => (Raise e, st')
    end.
Proof.
  revert st. induction l1 as [|x l1 IH]; intros st; [done|].
  simpl. unfold bind. destruct (f x st) as [[[]|e] st']; [apply IH|done].
Qed.

Lemma named_snoc (b : string) (files : list File) (f : File) :
  named b (files ++ [f]) =
    named b files ++ (if decide (basename (abs_src_path f) = b) then [f] else []).
Proof.
  unfold named. by rewrite filter_app.
Qed.

Lemma named_elem_of (b : string) (files : list File) :
  named b files ≠ [] ↔ ∃ f, f ∈ files ∧ basename (abs_src_path f) = b.
Proof.
  unfold named. split.
  - destruct (filter _ files) as [|f l] eqn:Hf; [done|]. intros _.
    exists f.
    assert (f ∈ filter (λ f, basename (abs_src_path f) = b) files) as Hin
      by (rewrite Hf; left).
    by apply list_elem_of_filter in Hin as [? ?].
  - intros (f & Hin & Hb) Hnil.
    assert (f ∈ filter (λ f, basename (abs_src_path f) = b) files) as Hf
      by by apply list_elem_of_filter.
    rewrite Hnil in Hf. by apply elem_of_nil in Hf.
Qed.

(** A file whose basename is new is indexed. *)
Lemma init_step_new (docs_dir : string) (f : File) (self : t)
    (index : gmap string string) :
  filename_to_abs_path self = Some index →
  index !! basename (abs_src_path f) = None →
  init_step cwd docs_dir f self =
    (Ok tt, set_filename_to_abs_path
              (Some (<[basename (abs_src_path f) := abs_src_path f]> index)) self).
Proof. intros Hidx Hb. unfold init_step. by rewrite Hidx, Hb. Qed.

(** A file whose basename is indexed already is appended to the entry of
    the basename in the duplicate registry, after the indexed file when
    the entry was empty; the index is left as it is. *)
Lemma init_step_duplicate (docs_dir : string) (f : File) (self : t)
    (index : gmap string string) (first : string) :
  filename_to_abs_path self = Some index →
  index !! basename (abs_src_path f) = Some first →
  first ≠ "" →
  init_step cwd docs_dir f self =
    (Ok tt,
     let bf := basename (abs_src_path f) in
     let l := default [] (duplicate_filenames self !! bf) in
     set_duplicate_filenames
       (<[bf := (if Nat.eqb (length l) 0 then [rel_to cwd docs_dir first] else l)
                ++ [src_path f]]> (duplicate_filenames self)) self).
Proof.
  intros Hidx Hb Hne. unfold init_step. rewrite Hidx, Hb.
  unfold dd_get. rewrite (relpath_nonempty _ _ _ Hne).
  destruct self as [i m d]. simpl in *.
  destruct (d !! basename (abs_src_path f)) as [l|] eqn:Hl; simpl.
  - destruct (Nat.eqb_spec (length l) 0) as [Hlen|Hlen].
    + destruct l; [|done]. unfold append_duplicate, dd_get. simpl.
      rewrite Hl. simpl. rewrite lookup_insert_eq. simpl.
      by rewrite insert_insert_eq.
    + unfold append_duplicate, dd_get. simpl. by rewrite Hl.
  - unfold append_duplicate, dd_get. simpl.
    rewrite !lookup_insert_eq. simpl. rewrite lookup_insert_eq. simpl.
    by rewrite !insert_insert_eq.
Qed.

(** The state after the loop of [init_filename_to_abs_path] has run over
    [files], started with an empty index: the loop raises nothing, every
    basename is indexed under its first file, and the duplicate registry
    holds an entry for the basenames met twice. *)
Lemma init_loop (docs_dir : string) (files : list File) (self0 : t) :
  Forall (λ f, abs_src_path f ≠ "") files →
  ∃ self index,
    for_each (init_step cwd docs_dir) files (set_filename_to_abs_path (Some ∅) self0)
      = (Ok tt, self) ∧
    filename_to_abs_path self = Some index ∧
    (∀ b, index !! b = abs_src_path <$> head (named b files)) ∧
    (∀ b, duplicate_filenames self !! b =
          duplicates_entry cwd docs_dir (duplicate_filenames self0 !! b) (named b files)) ∧
    missing_filenames self = missing_filenames self0.
Proof.
  induction files as [|f files IH] using rev_ind; intros Hne.
  { eexists _, ∅. split_and!; done. }
  apply Forall_app in Hne as [Hne Hf%Forall_inv].
  destruct (IH Hne) as (self & index & Hrun & Hidx & Hindex & Hdups & Hmiss).
  rewrite for_each_app, Hrun. simpl. unfold bind, ret.
  set (bf := basename (abs_src_path f)).
  destruct (index !! bf) as [first|] eqn:Hbf.
  - (* the basename is indexed already: the file is a duplicate *)
    pose proof Hbf as Hfirst. rewrite Hindex in Hfirst.
    destruct (named bf files) as [|f0 tl] eqn:Hnamed; [done|].
    injection Hfirst as <-.
    assert (abs_src_path f0 ≠ "") as Hf0.
    { assert (f0 ∈ named bf files) as Hin by (rewrite Hnamed; left).
      apply list_elem_of_filter in Hin as [_ Hin].
      by apply (proj1 (Forall_forall _ _) Hne). }
    rewrite (init_step_duplicate _ _ _ _ _ Hidx Hbf Hf0). fold bf.
    eexists _, index. split_and!; [done|done| | |done].
    + intros b. rewrite named_snoc, Hindex.
      destruct (decide (basename (abs_src_path f) = b)) as [<-|Hb].
      * fold bf. by rewrite Hnamed.
      * by rewrite app_nil_r.
    + intros b. simpl. rewrite named_snoc.
      destruct (decide (basename (abs_src_path f) = b)) as [<-|Hb].
      * fold bf. rewrite lookup_insert_eq, Hdups, Hnamed.
        unfold duplicates_entry.
        set (l0 := default [] (duplicate_filenames self0 !! bf)).
        set (x := if Nat.eqb (length l0) 0
                  then [rel_to cwd docs_dir (abs_src_path f0)] else l0).
        destruct tl as [|f1 tl]; [done|]. cbn [default from_option id].
        assert (Nat.eqb (length (x ++ (src_path <$> f1 :: tl))) 0 = false)
          as -> by (apply Nat.eqb_neq; rewrite length_app; simpl; lia).
        simpl. fold x. by rewrite fmap_app, <- app_assoc.
      * fold bf in Hb. by rewrite lookup_insert_ne, Hdups, app_nil_r.
  - (* a new basename: the file is indexed *)
    rewrite (init_step_new _ _ _ _ Hidx Hbf). fold bf.
    eexists _, _. split_and!; [done|done| | |done].
    + intros b. rewrite named_snoc.
      destruct (decide (basename (abs_src_path f) = b)) as [<-|Hb].
      * fold bf. rewrite lookup_insert_eq.
        rewrite Hindex in Hbf. by destruct (named bf files).
      * fold bf in Hb. by rewrite lookup_insert_ne, Hindex, app_nil_r.
    + intros b. simpl. rewrite named_snoc, Hdups.
      destruct (decide (basename (abs_src_path f) = b)) as [<-|Hb].
      * fold bf. rewrite Hindex in Hbf. by destruct (named bf files).
      * by rewrite app_nil_r.
Qed.

End index_builder.

(** ** Claims about the index builder *)

Section index_claims.
Import PyStr posixpath AutoLinksPlugin.

(** C3.  For every sequence of files with non-empty absolute paths,
    [init_filename_to_abs_path] raises nothing and leaves an index that
    has an entry for a basename exactly when some file has that basename;
    the entry is the absolute path of the first such file of the
    sequence, so that a later file with the same basename never replaces
    it. *)
Theorem index_first_file_wins (cwd docs_dir : string) (files : list File) (self0 : t) :
  Forall (λ f, abs_src_path f ≠ "") files →
  ∃ self index,
    init_filename_to_abs_path cwd files docs_dir self0 = (Ok tt, self) ∧
    filename_to_abs_path self = Some index ∧
    (∀ b, index !! b = abs_src_path <$> head (named b files)) ∧
    (∀ b, is_Some (index !! b) ↔ ∃ f, f ∈ files ∧ basename (abs_src_path f) = b).
Proof.
  intros Hne.
  destruct (init_loop cwd docs_dir files self0 Hne)
    as (self & index & Hrun & Hidx & Hindex & _ & _).
  exists self, index. split_and!; [done..|].
  intros b. rewrite Hindex, <- named_elem_of.
  destruct (named b files); simpl; split; intros H; try done.
Qed.

Lemma index_first_file_wins_witness :
  ∃ self index,
    init_filename_to_abs_path "/" abc_files "/docs" __init__ = (Ok tt, self) ∧
    filename_to_abs_path self = Some index ∧
    (∀ b, index !! b = abs_src_path <$> head (named b abc_files)) ∧
    (∀ b, is_Some (index !! b) ↔ ∃ f, f ∈ abc_files ∧ basename (abs_src_path f) = b).
Proof.
  apply (index_first_file_wins "/" "/docs" abc_files __init__).
  repeat constructor; discriminate.
Defined.

(** C4.  Started on a fresh plugin, for every sequence of files with
    non-empty absolute paths, the duplicate registry has an entry for a
    basename exactly when at least two files have that basename; the
    entry lists as many paths as there are such files, in the order of
    the sequence: first the path of the indexed file relative to the
    documents directory, then the [src_path] of each later file. *)
Theorem duplicates_registry_spec (cwd docs_dir : string) (files : list File) :
  Forall (λ f, abs_src_path f ≠ "") files →
  ∃ self index,
    init_filename_to_abs_path cwd files docs_dir __init__ = (Ok tt, self) ∧
    filename_to_abs_path self = Some index ∧
    ∀ b,
      (is_Some (duplicate_filenames self !! b) ↔ 2 ≤ length (named b files)) ∧
      ∀ l, duplicate_filenames self !! b = Some l →
           length l = length (named b files) ∧
           ∃ f0 tl rel, named b files = f0 :: tl ∧
                        index !! b = Some (abs_src_path f0) ∧
                        relpath cwd (abs_src_path f0) docs_dir = Ok rel ∧
                        l = rel :: (src_path <$> tl).
Proof.
  intros Hne.
  destruct (init_loop cwd docs_dir files __init__ Hne)
    as (self & index & Hrun & Hidx & Hindex & Hdups & _).
  exists self, index. split_and!; [done..|].
  intros b. rewrite Hdups, Hindex. simpl. rewrite lookup_empty.
  destruct (named b files) as [|f0 [|f1 tl]] eqn:Hnamed; simpl.
  - split; [split; [by intros []|lia]|done].
  - split; [split; [by intros []|lia]|done].
  - split; [split; [lia|eauto]|].
    intros l [= <-]. simpl. rewrite length_fmap. split; [done|].
    exists f0, (f1 :: tl), (rel_to cwd docs_dir (abs_src_path f0)).
    split_and!; [done..| |done].
    apply relpath_nonempty.
    assert (f0 ∈ named b files) as Hin by (rewrite Hnamed; left).
    apply list_elem_of_filter in Hin as [_ Hin].
    by apply (proj1 (Forall_forall _ _) Hne).
Qed.

Lemma duplicates_registry_spec_witness :
  ∃ self index,
    init_filename_to_abs_path "/" abc_files "/docs" __init__ = (Ok tt, self) ∧
    filename_to_abs_path self = Some index ∧
    ∀ b,
      (is_Some (duplicate_filenames self !! b) ↔ 2 ≤ length (named b abc_files)) ∧
      ∀ l, duplicate_filenames self !! b = Some l →
           length l = length (named b abc_files) ∧
           ∃ f0 tl rel, named b abc_files = f0 :: tl ∧
                        index !! b = Some (abs_src_path f0) ∧
                        relpath "/" (abs_src_path f0) "/docs" = Ok rel ∧
                        l = rel :: (src_path <$> tl).
Proof.
  apply (duplicates_registry_spec "/" "/docs" abc_files).
  repeat constructor; discriminate.
Defined.

(** When the [src_path] of the indexed file is its path relative to the
    documents directory, as it is for the files MkDocs hands over, the
    entry is the list of the [src_path]s of the files with that
    basename. *)
Corollary duplicates_registry_src_paths (cwd docs_dir : string) (files : list File) :
  Forall (λ f, relpath cwd (abs_src_path f) docs_dir = Ok (src_path f)) files →
  ∃ self,
    init_filename_to_abs_path cwd files docs_dir __init__ = (Ok tt, self) ∧
    ∀ b, duplicate_filenames self !! b =
         if decide (2 ≤ length (named b files))
         then Some (src_path <$> named b files) else None.
Proof.
  intros Hok.
  assert (Forall (λ f, abs_src_path f ≠ "") files) as Hne.
  { eapply Forall_impl; [exact Hok|]. intros f Hf Hempty. simpl in *.
    by rewrite Hempty, relpath_empty in Hf. }
  destruct (init_loop cwd docs_dir files __init__ Hne)
    as (self & index & Hrun & Hidx & Hindex & Hdups & _).
  exists self. split; [done|].
  intros b. rewrite Hdups. simpl. rewrite lookup_empty.
  destruct (named b files) as [|f0 [|f1 tl]] eqn:Hnamed; simpl; [done..|].
  do 2 f_equal.
  assert (f0 ∈ files) as Hin.
  { assert (f0 ∈ named b files) as Hin by (rewrite Hnamed; left).
    by apply list_elem_of_filter in Hin as [_ Hin]. }
  unfold rel_to. by rewrite (proj1 (Forall_forall _ _) Hok f0 Hin).
Qed.

(** The example of the specification: "a/x.md", "b/x.md" and "c/x.md",
    given in that order. *)
Example duplicates_abc :
  ∃ self index,
    init_filename_to_abs_path "/" abc_files "/docs" __init__ = (Ok tt, self) ∧
    filename_to_abs_path self = Some index ∧
    index !! "x.md" = Some "/docs/a/x.md" ∧
    duplicate_filenames self !! "x.md" = Some ["a/x.md"; "b/x.md"; "c/x.md"].
Proof.
  destruct (init_loop "/" "/docs" abc_files __init__) as
    (self & index & Hrun & Hidx & Hindex & Hdups & _).
  { repeat constructor; discriminate. }
  exists self, index. split_and!; [done..| |].
  - by rewrite Hindex.
  - by rewrite Hdups.
Qed.

End index_claims.

(** ** The replacer and the page hook *)

Section replacer_facts.
Import PyStr posixpath urllib re.
Variable cwd : string.

Lemma counter_get_incr (k : string) (c : Counter) :
  counter_get k (counter_incr k c) = S (counter_get k c).
Proof.
  induction c as [|[k' n] c IH]; simpl.
  - by rewrite String.eqb_refl.
  - destruct (String.eqb_spec k k') as [->|Hk]; simpl.
    + by rewrite String.eqb_refl.
    + by destruct (String.eqb_spec k k').
Qed.

Lemma counter_get_incr_ne (k k' : string) (c : Counter) :
  k ≠ k' → counter_get k' (counter_incr k c) = counter_get k' c.
Proof.
  intros Hne. induction c as [|[k'' n] c IH]; simpl.
  - by destruct (String.eqb_spec k' k) as [->|].
  - destruct (String.eqb_spec k k'') as [->|Hk]; simpl.
    + by destruct (String.eqb_spec k' k'') as [->|].
    + by rewrite IH.
Qed.

(** A counter keeps its keys, in their order, and gets a new key at its
    end. *)
Lemma counter_incr_keys (k : string) (c : Counter) :
  (counter_incr k c).*1 = if decide (k ∈ c.*1) then c.*1 else c.*1 ++ [k].
Proof.
  induction c as [|[k' n] c IH].
  - done.
  - cbn [counter_incr]. destruct (String.eqb_spec k k') as [->|Hk].
    + rewrite !fmap_cons. cbn [fst]. by rewrite decide_True by left.
    + rewrite !fmap_cons, IH. cbn [fst].
      destruct (decide (k ∈ c.*1)) as [Hin|Hin].
      * by rewrite decide_True by by right.
      * rewrite decide_False; [done|]. by intros [?|?]%elem_of_cons.
Qed.

Lemma counter_incr_NoDup (k : string) (c : Counter) :
  NoDup c.*1 → NoDup (counter_incr k c).*1.
Proof.
  intros Hc. rewrite counter_incr_keys. destruct (decide _) as [|Hk]; [done|].
  apply NoDup_app. split_and!; [done| |apply NoDup_singleton].
  intros x Hx ->%list_elem_of_singleton. done.
Qed.

Lemma count_missing_lookup (filename ref : string) (missing : gmap string Counter) :
  AutoLinkReplacer.count_missing filename ref missing !! filename
  = Some (counter_incr ref (default [] (missing !! filename))).
Proof.
  unfold AutoLinkReplacer.count_missing, dd_get.
  destruct (missing !! filename); simpl; by rewrite lookup_insert_eq.
Qed.

Lemma count_missing_lookup_ne (filename ref f : string) (missing : gmap string Counter) :
  filename ≠ f →
  AutoLinkReplacer.count_missing filename ref missing !! f = missing !! f.
Proof.
  intros Hne. unfold AutoLinkReplacer.count_missing, dd_get.
  destruct (missing !! filename); simpl; by rewrite !lookup_insert_ne.
Qed.

Lemma missing_count_count_missing (filename ref : string) (missing : gmap string Counter) :
  missing_count (AutoLinkReplacer.count_missing filename ref missing) filename ref
  = S (missing_count missing filename ref).
Proof.
  unfold missing_count. rewrite count_missing_lookup. simpl.
  apply counter_get_incr.
Qed.

Lemma missing_count_count_missing_ne (filename ref f r : string)
    (missing : gmap string Counter) :
  (f, r) ≠ (filename, ref) →
  missing_count (AutoLinkReplacer.count_missing filename ref missing) f r
  = missing_count missing f r.
Proof.
  intros Hne. unfold missing_count.
  destruct (decide (filename = f)) as [<-|Hf].
  - rewrite count_missing_lookup. simpl. apply counter_get_incr_ne. congruence.
  - by rewrite count_missing_lookup_ne.
Qed.

(** The call for a link whose name is not in the index. *)
Lemma call_miss (self : AutoLinkReplacer.t) (m : Match) (index : gmap string string)
    (missing : gmap string Counter) :
  AutoLinkReplacer.filename_to_abs_path self = Some index →
  index !! strip (group3 m) = None →
  AutoLinkReplacer.abs_page_path self ≠ "" →
  AutoLinkReplacer.__call__ cwd self m missing =
    (Ok (group0 m),
     AutoLinkReplacer.count_missing (strip (group3 m))
       (rel_to cwd (AutoLinkReplacer.base_docs_dir self)
               (AutoLinkReplacer.abs_page_path self)) missing).
Proof.
  intros Hidx Hmiss Hne. unfold AutoLinkReplacer.__call__.
  rewrite Hidx, Hmiss. unfold bind, lift, modify, ret.
  by rewrite (relpath_nonempty _ _ _ Hne).
Qed.

(** The call for a link whose name is in the index. *)
Lemma call_hit (self : AutoLinkReplacer.t) (m : Match) (index : gmap string string)
    (abs_link_path : string) (missing : gmap string Counter) :
  AutoLinkReplacer.filename_to_abs_path self = Some index →
  index !! strip (group3 m) = Some abs_link_path →
  abs_link_path ≠ "" →
  AutoLinkReplacer.__call__ cwd self m missing =
    (Ok (replace (group0 m) (group3 m)
           (quote (rel_to cwd (dirname (AutoLinkReplacer.abs_page_path self))
                          abs_link_path))),
     missing).
Proof.
  intros Hidx Hhit Hne. unfold AutoLinkReplacer.__call__.
  rewrite Hidx, Hhit. unfold bind, lift, ret.
  by rewrite (relpath_nonempty _ _ _ Hne).
Qed.

(** With an index in place, the page hook is the scan of the page with
    the replacer, run on the registry of missing names; the files it is
    given play no part. *)
Lemma on_page_markdown_initialized (markdown : string) (page : Page) (config : Config)
    (files : list File) (self : AutoLinksPlugin.t) (index : gmap string string) :
  AutoLinksPlugin.filename_to_abs_path self = Some index →
  AutoLinksPlugin.on_page_markdown cwd markdown page config files self =
    let '(r, missing) :=
      re.sub (AutoLinkReplacer.__call__ cwd
                {| AutoLinkReplacer.base_docs_dir := docs_dir config;
                   AutoLinkReplacer.abs_page_path := abs_src_path (file page);
                   AutoLinkReplacer.filename_to_abs_path := Some index |})
             markdown (AutoLinksPlugin.missing_filenames self) in
    (r, AutoLinksPlugin.set_missing_filenames missing self).
Proof.
  intros Hidx. unfold AutoLinksPlugin.on_page_markdown, bind. by rewrite !Hidx.
Qed.

Lemma on_page_markdown_frame (markdown : string) (page : Page) (config : Config)
    (files : list File) (self : AutoLinksPlugin.t) (index : gmap string string) :
  AutoLinksPlugin.filename_to_abs_path self = Some index →
  let self' := (AutoLinksPlugin.on_page_markdown cwd markdown page config files self).2 in
  AutoLinksPlugin.filename_to_abs_path self' = Some index ∧
  AutoLinksPlugin.duplicate_filenames self' = AutoLinksPlugin.duplicate_filenames self ∧
  ∃ missing, self' = AutoLinksPlugin.set_missing_filenames missing self.
Proof.
  intros Hidx. rewrite (on_page_markdown_initialized _ _ _ _ _ _ Hidx).
  destruct (re.sub _ _ _) as [r missing]. simpl. eauto.
Qed.

(** Without an index, the page hook first builds it from its files. *)
Lemma on_page_markdown_first (markdown : string) (page : Page) (config : Config)
    (files : list File) (self : AutoLinksPlugin.t) :
  AutoLinksPlugin.filename_to_abs_path self = None →
  Forall (λ f, abs_src_path f ≠ "") files →
  ∃ self' index,
    AutoLinksPlugin.init_filename_to_abs_path cwd files (docs_dir config) self
      = (Ok tt, self') ∧
    AutoLinksPlugin.filename_to_abs_path self' = Some index ∧
    (∀ b, index !! b = abs_src_path <$> head (named b files)) ∧
    AutoLinksPlugin.on_page_markdown cwd markdown page config files self =
    AutoLinksPlugin.on_page_markdown cwd markdown page config files self'.
Proof.
  intros Hnone Hne.
  destruct (init_loop cwd (docs_dir config) files self Hne)
    as (self' & index & Hrun & Hidx & Hindex & _ & _).
  exists self', index. split_and!; [done..|].
  unfold AutoLinksPlugin.on_page_markdown at 1. unfold bind at 1.
  rewrite Hnone.
  change (AutoLinksPlugin.init_filename_to_abs_path cwd files (docs_dir config) self)
    with (for_each (AutoLinksPlugin.init_step cwd (docs_dir config)) files
            (AutoLinksPlugin.set_filename_to_abs_path (Some ∅) self)).
  rewrite Hrun. unfold AutoLinksPlugin.on_page_markdown, bind. by rewrite !Hidx.
Qed.

End replacer_facts.

(** ** Claims about the replacer and the page hook *)

Section replacer_claims.
Import PyStr posixpath urllib re.

(** C5.  A recognised link whose trimmed file name is not a key of the
    index, on a page with a non-empty path: the call raises nothing and
    returns the matched text as it is; the count of the missing registry
    for the name and the path of the page relative to the documents
    directory grows by one, and no other count changes.  In a text in
    which the scan finds the link, the text of the link is copied to the
    output and the scan goes on after it. *)
Theorem unresolved_link_is_counted (cwd : string) (self : AutoLinkReplacer.t)
    (m : Match) (index : gmap string string) (missing : gmap string Counter) :
  AutoLinkReplacer.filename_to_abs_path self = Some index →
  index !! strip (group3 m) = None →
  AutoLinkReplacer.abs_page_path self ≠ "" →
  ∃ rel_page_path missing',
    relpath cwd (AutoLinkReplacer.abs_page_path self)
                (AutoLinkReplacer.base_docs_dir self) = Ok rel_page_path ∧
    AutoLinkReplacer.__call__ cwd self m missing = (Ok (group0 m), missing') ∧
    missing_count missing' (strip (group3 m)) rel_page_path
      = S (missing_count missing (strip (group3 m)) rel_page_path) ∧
    (∀ f r, (f, r) ≠ (strip (group3 m), rel_page_path) →
            missing_count missing' f r = missing_count missing f r) ∧
    (∀ s rest, match_ s = Some (m, rest) →
               re.sub (AutoLinkReplacer.__call__ cwd self) s missing
               = prepend (group0 m)
                   (re.sub (AutoLinkReplacer.__call__ cwd self) rest missing')).
Proof.
  intros Hidx Hmiss Hne. eexists _, _. split_and!.
  - by apply relpath_nonempty.
  - by eapply call_miss.
  - apply missing_count_count_missing.
  - intros f r Hfr. by apply missing_count_count_missing_ne.
  - intros s rest Hs. rewrite (sub_match _ _ _ _ _ Hs).
    by rewrite (call_miss cwd _ _ _ _ Hidx Hmiss Hne).
Qed.

Lemma unresolved_link_is_counted_witness :
  ∃ rel_page_path missing',
    relpath "/" "/docs/d1.md" "/docs" = Ok rel_page_path ∧
    AutoLinkReplacer.__call__ "/" ghost_replacer ghost_match ∅
      = (Ok (group0 ghost_match), missing') ∧
    missing_count missing' (strip (group3 ghost_match)) rel_page_path
      = S (missing_count ∅ (strip (group3 ghost_match)) rel_page_path) ∧
    (∀ f r, (f, r) ≠ (strip (group3 ghost_match), rel_page_path) →
            missing_count missing' f r = missing_count ∅ f r) ∧
    (∀ s rest, match_ s = Some (ghost_match, rest) →
               re.sub (AutoLinkReplacer.__call__ "/" ghost_replacer) s ∅
               = prepend (group0 ghost_match)
                   (re.sub (AutoLinkReplacer.__call__ "/" ghost_replacer) rest missing')).
Proof.
  apply (unresolved_link_is_counted "/" ghost_replacer ghost_match ∅ ∅).
  - reflexivity.
  - reflexivity.
  - discriminate.
Defined.

(** The example of the specification: "d1.md" names the missing
    "ghost.png" twice, then "d2.md" names it once. *)
Example ghost_counts :
  let files := [file (page_at "d1.md" "/docs/d1.md"); file (page_at "d2.md" "/docs/d2.md")] in
  let '(r1, self1) :=
    AutoLinksPlugin.on_page_markdown "/" "![](ghost.png) and [again](ghost.png)"
      (page_at "d1.md" "/docs/d1.md") docs_config files AutoLinksPlugin.__init__ in
  let '(r2, self2) :=
    AutoLinksPlugin.on_page_markdown "/" "see [g](ghost.png)."
      (page_at "d2.md" "/docs/d2.md") docs_config files self1 in
  r1 = Ok "![](ghost.png) and [again](ghost.png)" ∧
  r2 = Ok "see [g](ghost.png)." ∧
  map_to_list (AutoLinksPlugin.missing_filenames self2)
    = [("ghost.png", [("d1.md", 2); ("d2.md", 1)])].
Proof. vm_compute. done. Qed.

(** C9.  With an index in place, a call of the page hook leaves the index
    and the duplicate registry as they were, whatever it returns or
    raises. *)
Theorem page_hook_frame (cwd markdown : string) (page : Page) (config : Config)
    (files : list File) (self : AutoLinksPlugin.t) (index : gmap string string) :
  AutoLinksPlugin.filename_to_abs_path self = Some index →
  let self' := (AutoLinksPlugin.on_page_markdown cwd markdown page config files self).2 in
  AutoLinksPlugin.filename_to_abs_path self' = Some index ∧
  AutoLinksPlugin.duplicate_filenames self' = AutoLinksPlugin.duplicate_filenames self.
Proof.
  intros Hidx self'.
  destruct (on_page_markdown_frame cwd markdown page config files self index Hidx)
    as (? & ? & _).
  done.
Qed.

Lemma page_hook_frame_witness :
  let self := AutoLinksPlugin.set_filename_to_abs_path (Some ∅) AutoLinksPlugin.__init__ in
  let self' :=
    (AutoLinksPlugin.on_page_markdown "/" "![](ghost.png)" (page_at "d1.md" "/docs/d1.md")
       docs_config [] self).2 in
  AutoLinksPlugin.filename_to_abs_path self' = Some ∅ ∧
  AutoLinksPlugin.duplicate_filenames self' = AutoLinksPlugin.duplicate_filenames self.
Proof.
  apply (page_hook_frame "/" "![](ghost.png)" (page_at "d1.md" "/docs/d1.md")
           docs_config [] _ ∅).
  reflexivity.
Defined.

(** C6, as the claim states it, fails: after a build of a site with
    "a/x.md", the page "[l](x.md)" of a build in which the file has moved
    to "b/x.md" is still rewritten to "a/x.md". *)
Lemma index_kept_across_builds : ¬ index_rebuilt_per_build.
Proof.
  intros H.
  specialize (H "/" docs_config site_a (page_at "p.md" "/docs/p.md") ""
                site_b (page_at "p.md" "/docs/p.md") "[l](x.md)").
  vm_compute in H. discriminate H.
Qed.

Example second_build_uses_first_index :
  let self1 :=
    (AutoLinksPlugin.on_page_markdown "/" "" (page_at "p.md" "/docs/p.md")
       docs_config site_a AutoLinksPlugin.__init__).2 in
  (AutoLinksPlugin.on_page_markdown "/" "[l](x.md)" (page_at "p.md" "/docs/p.md")
     docs_config site_b self1).1 = Ok "[l](a/x.md)" ∧
  (AutoLinksPlugin.on_page_markdown "/" "[l](x.md)" (page_at "p.md" "/docs/p.md")
     docs_config site_b AutoLinksPlugin.__init__).1 = Ok "[l](b/x.md)".
Proof. vm_compute. done. Qed.

(** C6, amended.  The first call of the page hook on a plugin without an
    index builds the index from the files of that call; every later call
    on the same plugin finds that index, keeps it, and returns what it
    would return for the files of the first call, whatever files it is
    given. *)
Theorem index_built_once (cwd : string) (self0 : AutoLinksPlugin.t)
    (markdown1 : string) (page1 : Page) (config1 : Config) (files1 : list File) :
  AutoLinksPlugin.filename_to_abs_path self0 = None →
  Forall (λ f, abs_src_path f ≠ "") files1 →
  let self1 :=
    (AutoLinksPlugin.on_page_markdown cwd markdown1 page1 config1 files1 self0).2 in
  ∃ index,
    AutoLinksPlugin.filename_to_abs_path self1 = Some index ∧
    (∀ b, index !! b = abs_src_path <$> head (named b files1)) ∧
    ∀ markdown2 page2 config2 files2,
      AutoLinksPlugin.filename_to_abs_path
        (AutoLinksPlugin.on_page_markdown cwd markdown2 page2 config2 files2 self1).2
        = Some index ∧
      AutoLinksPlugin.on_page_markdown cwd markdown2 page2 config2 files2 self1
        = AutoLinksPlugin.on_page_markdown cwd markdown2 page2 config2 files1 self1.
Proof.
  intros Hnone Hne self1.
  destruct (on_page_markdown_first cwd markdown1 page1 config1 files1 self0 Hnone Hne)
    as (self' & index & _ & Hidx' & Hindex & Hrun).
  assert (AutoLinksPlugin.filename_to_abs_path self1 = Some index) as Hidx1.
  { subst self1. rewrite Hrun.
    by apply (on_page_markdown_frame cwd markdown1 page1 config1 files1 self' index). }
  exists index. split_and!; [done..|].
  intros markdown2 page2 config2 files2. split.
  - by apply (on_page_markdown_frame cwd markdown2 page2 config2 files2 self1 index).
  - by rewrite !(on_page_markdown_initialized _ _ _ _ _ _ _ Hidx1).
Qed.

Lemma index_built_once_witness :
  let self1 :=
    (AutoLinksPlugin.on_page_markdown "/" "" (page_at "p.md" "/docs/p.md")
       docs_config site_a AutoLinksPlugin.__init__).2 in
  ∃ index,
    AutoLinksPlugin.filename_to_abs_path self1 = Some index ∧
    (∀ b, index !! b = abs_src_path <$> head (named b site_a)) ∧
    ∀ markdown2 page2 config2 files2,
      AutoLinksPlugin.filename_to_abs_path
        (AutoLinksPlugin.on_page_markdown "/" markdown2 page2 config2 files2 self1).2
        = Some index ∧
      AutoLinksPlugin.on_page_markdown "/" markdown2 page2 config2 files2 self1
        = AutoLinksPlugin.on_page_markdown "/" markdown2 page2 config2 site_a self1.
Proof.
  apply (index_built_once "/" AutoLinksPlugin.__init__ "" (page_at "p.md" "/docs/p.md")
           docs_config site_a).
  - reflexivity.
  - repeat constructor; discriminate.
Defined.

End replacer_claims.

(** ** Claims about the report *)

Section report_claims.
Import PyStr AutoLinksPlugin.

Lemma sorted_spec {V} (d : gmap string V) :
  StronglySorted String.le (sorted d) ∧ NoDup (sorted d) ∧
  ∀ k, k ∈ sorted d ↔ is_Some (d !! k).
Proof.
  unfold sorted. split_and!.
  - apply StronglySorted_merge_sort; apply _.
  - rewrite merge_sort_Permutation. apply NoDup_fst_map_to_list.
  - intros k. rewrite merge_sort_Permutation, list_elem_of_fmap. split.
    + intros ([k' v] & -> & Hin%elem_of_map_to_list). eauto.
    + intros [v Hv]. exists (k, v). by rewrite elem_of_map_to_list.
Qed.

Lemma counter_get_NoDup (c : Counter) (ref : string) (n : nat) :
  NoDup c.*1 → (ref, n) ∈ c → counter_get ref c = n.
Proof.
  induction c as [|[k' n'] c IH]; [by intros _ ?%elem_of_nil|].
  rewrite fmap_cons, NoDup_cons. cbn [fst counter_get].
  intros [Hk' Hc] [[= -> ->]|Hin]%elem_of_cons.
  - by rewrite String.eqb_refl.
  - destruct (String.eqb_spec ref k') as [->|_]; [|by apply IH].
    destruct Hk'. apply list_elem_of_fmap. by exists (k', n).
Qed.

(** The text of the report, from the two registries. *)
Lemma report_text (self : t) :
  counters_wf (missing_filenames self) →
  generate_report self =
    "# AutoLinksPlugin report" +:+ nl +:+ nl +:+
    "## Duplicate filenames" +:+ nl +:+ nl +:+
    String.concat nl
      ((λ filename,
          "- [ ] " +:+ filename +:+ ", at " +:+
          String.concat ", "
            ((λ p, "`" +:+ p +:+ "`")
               <$> default [] (duplicate_filenames self !! filename)))
         <$> sorted (duplicate_filenames self)) +:+ nl +:+ nl +:+
    "## Missing filenames" +:+ nl +:+ nl +:+
    String.concat nl
      ((λ filename,
          "- [ ] " +:+ filename +:+ ", in " +:+
          of_nat (length (default [] (missing_filenames self !! filename)).*1)
          +:+ " file(s)" +:+ nl +:+
          String.concat nl
            ((λ ref_path,
                "  - `" +:+ ref_path +:+ "` (" +:+
                of_nat (missing_count (missing_filenames self) filename ref_path)
                +:+ " occurences)")
               <$> (default [] (missing_filenames self !! filename)).*1))
         <$> sorted (missing_filenames self)) +:+ nl.
Proof.
  intros Hwf. unfold generate_report, PyStr.join. do 14 f_equal.
  apply Forall_fmap_ext_1, Forall_forall. intros filename _.
  unfold missing_block, missing_count, PyStr.join.
  destruct (missing_filenames self !! filename) as [counter|] eqn:Hc; [|done].
  pose proof (Hwf _ _ Hc) as Hnd. simpl in Hnd. simpl.
  rewrite length_fmap. do 7 f_equal.
  rewrite <- list_fmap_compose. apply Forall_fmap_ext_1, Forall_forall.
  intros [ref n] Hin. simpl.
  by rewrite (counter_get_NoDup counter ref n Hnd Hin).
Qed.

(** C8.  The report is the fixed frame around two sections.  The section
    of duplicate names has one line for each key of the duplicate
    registry, the keys in ascending order and none of them twice; the
    line names the key and lists the paths registered for it, in their
    order.  The section of missing names has one entry for each key of
    the missing registry, the keys in ascending order and none of them
    twice; the entry is a line that names the key and gives the number
    of documents that refer to it, these being distinct, followed by one
    indented line for each of them, in the order in which they were
    first recorded, with the count registered for that document. *)
Theorem report_sections_sorted (self : t) :
  counters_wf (missing_filenames self) →
  let ds := sorted (duplicate_filenames self) in
  let ms := sorted (missing_filenames self) in
  generate_report self =
    "# AutoLinksPlugin report" +:+ nl +:+ nl +:+
    "## Duplicate filenames" +:+ nl +:+ nl +:+
    String.concat nl
      ((λ filename,
          "- [ ] " +:+ filename +:+ ", at " +:+
          String.concat ", "
            ((λ p, "`" +:+ p +:+ "`")
               <$> default [] (duplicate_filenames self !! filename)))
         <$> ds) +:+ nl +:+ nl +:+
    "## Missing filenames" +:+ nl +:+ nl +:+
    String.concat nl
      ((λ filename,
          "- [ ] " +:+ filename +:+ ", in " +:+
          of_nat (length (default [] (missing_filenames self !! filename)).*1)
          +:+ " file(s)" +:+ nl +:+
          String.concat nl
            ((λ ref_path,
                "  - `" +:+ ref_path +:+ "` (" +:+
                of_nat (missing_count (missing_filenames self) filename ref_path)
                +:+ " occurences)")
               <$> (default [] (missing_filenames self !! filename)).*1))
         <$> ms) +:+ nl ∧
  StronglySorted String.le ds ∧ NoDup ds ∧
  (∀ k, k ∈ ds ↔ is_Some (duplicate_filenames self !! k)) ∧
  StronglySorted String.le ms ∧ NoDup ms ∧
  (∀ k, k ∈ ms ↔ is_Some (missing_filenames self !! k)) ∧
  (∀ filename paths,
     duplicate_filenames self !! filename = Some paths →
     duplicate_line self filename =
       "- [ ] " +:+ filename +:+ ", at " +:+
       String.concat ", " ((λ p, "`" +:+ p +:+ "`") <$> paths)) ∧
  ∀ filename counter,
    missing_filenames self !! filename = Some counter →
    NoDup counter.*1 ∧
    missing_block self filename =
      "- [ ] " +:+ filename +:+ ", in " +:+ of_nat (length counter.*1)
      +:+ " file(s)" +:+ nl +:+
      String.concat nl
        ((λ ref_path,
            "  - `" +:+ ref_path +:+ "` (" +:+
            of_nat (missing_count (missing_filenames self) filename ref_path)
            +:+ " occurences)") <$> counter.*1).
Proof.
  intros Hwf ds ms.
  destruct (sorted_spec (duplicate_filenames self)) as (? & ? & ?).
  destruct (sorted_spec (missing_filenames self)) as (? & ? & ?).
  split_and!; [by apply report_text|done..| |].
  - intros filename paths Hp. unfold duplicate_line, PyStr.join. by rewrite Hp.
  - intros filename counter Hc. pose proof (Hwf _ _ Hc) as Hnd. simpl in Hnd.
    split; [done|].
    unfold missing_block, missing_count, PyStr.join. rewrite Hc. simpl.
    rewrite length_fmap. do 7 f_equal.
    rewrite <- list_fmap_compose. apply Forall_fmap_ext_1, Forall_forall.
    intros [ref n] Hin. simpl.
    by rewrite (counter_get_NoDup counter ref n Hnd Hin).
Qed.

Lemma report_sections_sorted_witness :
  let self := reporting_plugin in
  let ds := sorted (duplicate_filenames self) in
  let ms := sorted (missing_filenames self) in
  generate_report self =
    "# AutoLinksPlugin report" +:+ nl +:+ nl +:+
    "## Duplicate filenames" +:+ nl +:+ nl +:+
    String.concat nl
      ((λ filename,
          "- [ ] " +:+ filename +:+ ", at " +:+
          String.concat ", "
            ((λ p, "`" +:+ p +:+ "`")
               <$> default [] (duplicate_filenames self !! filename)))
         <$> ds) +:+ nl +:+ nl +:+
    "## Missing filenames" +:+ nl +:+ nl +:+
    String.concat nl
      ((λ filename,
          "- [ ] " +:+ filename +:+ ", in " +:+
          of_nat (length (default [] (missing_filenames self !! filename)).*1)
          +:+ " file(s)" +:+ nl +:+
          String.concat nl
            ((λ ref_path,
                "  - `" +:+ ref_path +:+ "` (" +:+
                of_nat (missing_count (missing_filenames self) filename ref_path)
                +:+ " occurences)")
               <$> (default [] (missing_filenames self !! filename)).*1))
         <$> ms) +:+ nl ∧
  StronglySorted String.le ds ∧ NoDup ds ∧
  (∀ k, k ∈ ds ↔ is_Some (duplicate_filenames self !! k)) ∧
  StronglySorted String.le ms ∧ NoDup ms ∧
  (∀ k, k ∈ ms ↔ is_Some (missing_filenames self !! k)) ∧
  (∀ filename paths,
     duplicate_filenames self !! filename = Some paths →
     duplicate_line self filename =
       "- [ ] " +:+ filename +:+ ", at " +:+
       String.concat ", " ((λ p, "`" +:+ p +:+ "`") <$> paths)) ∧
  ∀ filename counter,
    missing_filenames self !! filename = Some counter →
    NoDup counter.*1 ∧
    missing_block self filename =
      "- [ ] " +:+ filename +:+ ", in " +:+ of_nat (length counter.*1)
      +:+ " file(s)" +:+ nl +:+
      String.concat nl
        ((λ ref_path,
            "  - `" +:+ ref_path +:+ "` (" +:+
            of_nat (missing_count (missing_filenames self) filename ref_path)
            +:+ " occurences)") <$> counter.*1).
Proof.
  apply (report_sections_sorted reporting_plugin).
  unfold counters_wf. refine (bool_decide_unpack _ _). vm_compute. exact I.
Defined.

Example report_of_reporting_plugin :
  generate_report reporting_plugin =
    "# AutoLinksPlugin report" +:+ nl +:+ nl +:+
    "## Duplicate filenames" +:+ nl +:+ nl +:+
    "- [ ] index.md, at `index.md`, `a/index.md`" +:+ nl +:+
    "- [ ] x.md, at `a/x.md`, `b/x.md`" +:+ nl +:+ nl +:+
    "## Missing filenames" +:+ nl +:+ nl +:+
    "- [ ] ghost.png, in 2 file(s)" +:+ nl +:+
    "  - `d1.md` (2 occurences)" +:+ nl +:+
    "  - `d2.md` (1 occurences)" +:+ nl +:+
    "- [ ] zeta.png, in 1 file(s)" +:+ nl +:+
    "  - `d1.md` (1 occurences)" +:+ nl.
Proof. vm_compute. reflexivity. Qed.

End report_claims.

(** ** Claims about the grammar of links *)

Section grammar_claims.
Import PyStr re.

(** C10, as the claim states it, fails for a text in which the empty pair
    of brackets comes after an open "[".  In "[x[](notes.md)" the label of
    the link that is recognised is "x[": it runs up to the first "]", and
    the target "(notes.md)" after "[]" is rewritten. *)
Lemma empty_label_inside_label :
  match_ "[x[](notes.md)"
    = Some ({| link_head := "[x[]"; group1 := Some "x["; name := "notes";
               group4 := "md"; anchor := "" |}, "") ∧
  (AutoLinksPlugin.on_page_markdown "/" "[x[](notes.md)"
     (page_at "a/page.md" "/docs/a/page.md") docs_config notes_site
     AutoLinksPlugin.__init__).1 = Ok "[x[](../x/notes.md)".
Proof. vm_compute. split; reflexivity. Qed.

(** C10, amended.  Nothing is recognised at a "[" that is followed at once
    by "]": the regular expression has no match that starts there,
    whatever text follows.  The scan copies "[](" and goes on with the
    text after it.  A text in which "[](" comes after characters other
    than "[" and "!" and is followed by no further "[" is returned as it
    is, and the store is untouched, whatever the replacer and the index
    are. *)
Theorem empty_label_not_recognized (t : string) :
  match_ ("[]" +:+ t) = None ∧
  (∀ S (repl : Match → M S string) (st : S),
     re.sub repl ("[](" +:+ t) st = prepend "[](" (re.sub repl t st)) ∧
  (has_lbracket t = false →
   ∀ pre, has_link_start pre = false →
   ∀ S (repl : Match → M S string) (st : S),
     re.sub repl (pre +:+ "[](" +:+ t) st = (Ok (pre +:+ "[](" +:+ t), st)).
Proof.
  assert (∀ S (repl : Match → M S string) (st : S),
            re.sub repl ("[](" +:+ t) st = prepend "[](" (re.sub repl t st)) as Hscan.
  { intros S repl st.
    change ("[](" +:+ t) with ("[]" +:+ String "("%char t).
    rewrite sub_empty_label, sub_skip by by apply match_first_char.
    by rewrite prepend_prepend. }
  split_and!; [apply match_empty_label|done|].
  intros Ht pre Hpre S repl st.
  by rewrite sub_app_no_start, Hscan, sub_no_lbracket.
Qed.

Lemma empty_label_not_recognized_witness :
  match_ ("[]" +:+ "(notes.md)") = None ∧
  (∀ S (repl : Match → M S string) (st : S),
     re.sub repl ("[](" +:+ "notes.md)") st = prepend "[](" (re.sub repl "notes.md)" st)) ∧
  (∀ S (repl : Match → M S string) (st : S),
     re.sub repl ("see " +:+ "[](" +:+ "notes.md)") st
     = (Ok ("see " +:+ "[](" +:+ "notes.md)"), st)).
Proof.
  split_and!.
  - exact (proj1 (empty_label_not_recognized "(notes.md)")).
  - exact (proj1 (proj2 (empty_label_not_recognized "notes.md)"))).
  - exact (proj2 (proj2 (empty_label_not_recognized "notes.md)")) eq_refl "see " eq_refl).
Defined.

(** An empty label in a page: the link is left as it is although the file
    it names is indexed, and nothing is recorded. *)
Example empty_label_example :
  let '(r, self) :=
    AutoLinksPlugin.on_page_markdown "/" "see [](notes.md) and ![](notes.md)"
      (page_at "a/page.md" "/docs/a/page.md") docs_config notes_site
      AutoLinksPlugin.__init__ in
  r = Ok "see [](notes.md) and ![](../x/notes.md)" ∧
  AutoLinksPlugin.missing_filenames self = ∅.
Proof. vm_compute. split; reflexivity. Qed.

End grammar_claims.


(** ** [str.replace] *)

Section replace_facts.
Import PyStr.

Lemma startswith_spec (p s : string) : startswith p s = true ↔ ∃ r, s = p +:+ r.
Proof.
  unfold startswith. revert s. induction p as [|a p IH]; intros s.
  - split; [by exists s|]. by destruct s.
  - destruct s as [|b s]; [split; [done|by intros [r Hr]]|].
    cbn [String.prefix].
    destruct (ascii_dec a b) as [->|Hab].
    + rewrite IH. split; intros [r Hr]; exists r.
      * by rewrite sapp_cons, Hr.
      * rewrite sapp_cons in Hr. congruence.
    + split; [done|]. intros [r Hr]. rewrite sapp_cons in Hr. congruence.
Qed.

Lemma replace_go_drop (old new : string) (k : nat) (s : string) :
  replace_go old new k s = replace_go old new 0 (drop k s).
Proof.
  revert k. induction s as [|c s IH]; intros [|k]; try done.
  simpl. apply IH.
Qed.

(** An occurrence at the front is replaced, and the scan goes on after
    it. *)
Lemma replace_front (old new rest : string) :
  old ≠ "" → replace (old +:+ rest) old new = new +:+ replace rest old new.
Proof.
  intros Hne. destruct old as [|a old]; [done|]. unfold replace.
  rewrite sapp_cons. cbn [replace_go].
  assert (startswith (String a old) (String a (old +:+ rest)) = true) as ->.
  { apply startswith_spec. by exists rest. }
  f_equal. rewrite replace_go_drop.
  replace (String.length (String a old) - 1) with (String.length old)
    by (cbn [String.length]; lia).
  by rewrite sdrop_app_length.
Qed.

(** A character at which no occurrence starts is copied. *)
Lemma replace_copy (old new : string) (c : ascii) (s : string) :
  old ≠ "" → startswith old (String c s) = false →
  replace (String c s) old new = String c (replace s old new).
Proof.
  intros Hne Hp. destruct old as [|a old]; [done|]. unfold replace.
  cbn [replace_go]. by rewrite Hp.
Qed.

(** An occurrence that starts in front of a character that is not in
    [old] ends in front of it. *)
Lemma startswith_app_absent (old a : string) (c : ascii) (b : string) :
  existsb (Ascii.eqb c) old = false →
  startswith old (a +:+ String c b) = true →
  ∃ a', a = old +:+ a'.
Proof.
  unfold startswith. revert a. induction old as [|x old IH]; intros a Hc.
  - intros _. by exists a.
  - cbn [existsb] in Hc. apply orb_false_elim in Hc as [Hx Hold].
    destruct a as [|y a].
    + rewrite sapp_nil_l. cbn [String.prefix].
      destruct (ascii_dec x c) as [->|]; [|done].
      by rewrite Ascii.eqb_refl in Hx.
    + rewrite sapp_cons. cbn [String.prefix].
      destruct (ascii_dec x y) as [->|]; [|done].
      intros [a' ->]%IH; [|done]. by exists a'.
Qed.

(** The scan does not see across a character that is not in [old]: the
    text before it and the text after it are rewritten apart. *)
Lemma replace_app_absent (old new a : string) (c : ascii) (b : string) :
  old ≠ "" → existsb (Ascii.eqb c) old = false →
  replace (a +:+ String c b) old new
  = replace a old new +:+ String c (replace b old new).
Proof.
  intros Hne Hc. remember (String.length a) as n eqn:Hn.
  revert a Hn. induction n as [n IH] using lt_wf_ind. intros a ->.
  destruct a as [|x a].
  { rewrite sapp_nil_l, replace_copy; [by destruct old|done|].
    destruct (startswith old (String c b)) eqn:Hp; [|done].
    apply (startswith_app_absent old "" c b Hc) in Hp as [a' Ha'].
    by destruct old. }
  destruct (startswith old (String x a +:+ String c b)) eqn:Hp.
  - destruct (startswith_app_absent _ _ _ _ Hc Hp) as [a' Ha'].
    assert (String.length a' < String.length (String x a)) as Hlt.
    { rewrite Ha', slength_app. destruct old; [done|simpl; lia]. }
    rewrite Ha', sapp_assoc, !replace_front, sapp_assoc by done. f_equal.
    by apply (IH (String.length a')).
  - rewrite sapp_cons in *. rewrite !replace_copy, sapp_cons; [|done| |done..].
    + f_equal. apply (IH (String.length a)); [simpl; lia|done].
    + destruct (startswith old (String x a)) eqn:Hp'; [|done].
      apply startswith_spec in Hp' as [r Hr].
      assert (startswith old (String x (a +:+ String c b)) = true) as Hp''; [|congruence].
      apply startswith_spec. exists (r +:+ String c b).
      by rewrite <- sapp_assoc, <- Hr, sapp_cons.
Qed.

Lemma replace_nil (old new : string) : old ≠ "" → replace "" old new = "".
Proof. by destruct old. Qed.

(** A text shorter than [old] holds no occurrence of it. *)
Lemma replace_short (old new s : string) :
  String.length s < String.length old → replace s old new = s.
Proof.
  intros Hlen. assert (old ≠ "") as Hne by (intros ->; simpl in Hlen; lia).
  induction s as [|c s IH]; [by apply replace_nil|].
  rewrite replace_copy, IH; [done|simpl in *; lia|done|].
  destruct (startswith old (String c s)) eqn:Hp; [|done].
  apply startswith_spec in Hp as [r Hr].
  apply (f_equal String.length) in Hr. rewrite slength_app in Hr. lia.
Qed.

(** A character that is neither in the text nor in [new] is not in the
    text that [replace] returns. *)
Lemma replace_absent_char (c : ascii) (old new s : string) :
  old ≠ "" →
  existsb (Ascii.eqb c) s = false → existsb (Ascii.eqb c) new = false →
  existsb (Ascii.eqb c) (replace s old new) = false.
Proof.
  intros Hne Hs Hnew. remember (String.length s) as n eqn:Hn.
  revert s Hn Hs. induction n as [n IH] using lt_wf_ind. intros s -> Hs.
  destruct s as [|x s]; [by rewrite replace_nil|].
  destruct (startswith old (String x s)) eqn:Hp.
  - apply startswith_spec in Hp as [r Hr]. rewrite Hr in *.
    rewrite replace_front, sexistsb_app, Hnew by done. simpl.
    rewrite sexistsb_app in Hs. apply orb_false_elim in Hs as [_ Hs].
    apply (IH (String.length r)); [|done..].
    rewrite slength_app. destruct old; [done|simpl; lia].
  - rewrite replace_copy by done. cbn [existsb] in *.
    apply orb_false_elim in Hs as [-> Hs]. simpl.
    apply (IH (String.length s)); [simpl; lia|done..].
Qed.

Lemma interleave_nil (s : string) : interleave "" s = s.
Proof. induction s as [|c s IH]; [done|]. cbn [interleave]. by rewrite sapp_nil_l, IH. Qed.

(** Replacing a text by itself changes nothing. *)
Lemma replace_by_itself (s old : string) : replace s old old = s.
Proof.
  destruct (String.eqb_spec old "") as [->|Hne].
  { unfold replace. by rewrite sapp_nil_l, interleave_nil. }
  remember (String.length s) as n eqn:Hn. revert s Hn.
  induction n as [n IH] using lt_wf_ind. intros s ->.
  destruct s as [|c s]; [by apply replace_nil|].
  destruct (startswith old (String c s)) eqn:Hp.
  - apply startswith_spec in Hp as [r Hr]. rewrite Hr, replace_front by done.
    rewrite (IH (String.length r)); [done| |done].
    rewrite Hr, slength_app. destruct old; [done|simpl; lia].
  - rewrite replace_copy by done. rewrite (IH (String.length s)); [done|simpl; lia|done].
Qed.

End replace_facts.

(** ** [quote] and the targets it makes *)

Section quote_facts.
Import PyStr urllib re.

Lemma quote_cons (c : ascii) (s : string) :
  quote (String c s) = String.concat "" (quote_byte <$> utf8 c) +:+ quote s.
Proof. done. Qed.

Lemma quote_char_quoted (c : ascii) :
  forallb quoted_char (String.concat "" (quote_byte <$> utf8 c)) = true.
Proof. destruct c as [[] [] [] [] [] [] [] []]; vm_compute; reflexivity. Qed.

Lemma quote_quoted (s : string) : forallb quoted_char (quote s) = true.
Proof.
  induction s as [|c s IH]; [done|].
  by rewrite quote_cons, sforallb_app, quote_char_quoted, IH.
Qed.

Lemma quoted_char_no_lbracket (c : ascii) :
  quoted_char c = true → Ascii.eqb "[" c = false.
Proof. destruct c as [[] [] [] [] [] [] [] []]; vm_compute; congruence. Qed.

Lemma quoted_char_plain (c : ascii) :
  quoted_char c = true → is_sep c = false → plain_char c = true.
Proof. destruct c as [[] [] [] [] [] [] [] []]; vm_compute; congruence. Qed.

Lemma quote_no_lbracket (s : string) : has_lbracket (quote s) = false.
Proof.
  apply existsb_false_forallb.
  apply (forallb_impl quoted_char); [|apply quote_quoted].
  intros c Hc. by rewrite quoted_char_no_lbracket.
Qed.

(** [quote] keeps every "/". *)
Lemma quote_has_sep (s : string) : has_sep s = true → has_sep (quote s) = true.
Proof.
  unfold has_sep. induction s as [|c s IH]; [done|].
  cbn [existsb]. rewrite quote_cons, sexistsb_app.
  destruct (is_sep c) eqn:Hc.
  - apply Ascii.eqb_eq in Hc as ->. done.
  - simpl. intros Hs. by rewrite (IH Hs), orb_true_r.
Qed.

Lemma first_sep_split (s : string) :
  has_sep s = true → ∃ a b, s = a +:+ String "/" b ∧ has_sep a = false.
Proof.
  unfold has_sep. induction s as [|c s IH]; [done|]. cbn [existsb].
  destruct (is_sep c) eqn:Hc.
  - apply Ascii.eqb_eq in Hc as ->. by exists "", s.
  - simpl. intros (a & b & -> & Ha)%IH. exists (String c a), b.
    split; [done|]. cbn [existsb]. by rewrite Hc.
Qed.

Lemma match_anchors_plain (c : ascii) (t : string) :
  plain_char c = true ∨ is_sep c = true → match_anchors (String c t) = None.
Proof.
  destruct c as [[] [] [] [] [] [] [] []]; vm_compute; intros [?|?]; congruence.
Qed.

Lemma strip_prefix_before_sep (e r x t : string) :
  forallb plain_char e = true → forallb plain_char r = true →
  strip_prefix e (r +:+ String "/" x) = Some t →
  ∃ r', t = r' +:+ String "/" x ∧ forallb plain_char r' = true.
Proof.
  revert r. induction e as [|a e IH]; intros r He Hr.
  - intros [= <-]. eauto.
  - cbn [forallb] in He. apply andb_prop in He as [Ha He].
    destruct r as [|b r].
    + rewrite sapp_nil_l. cbn [strip_prefix].
      destruct (Ascii.eqb_spec a "/") as [->|_]; done.
    + rewrite sapp_cons. cbn [strip_prefix forallb] in *.
      apply andb_prop in Hr as [_ Hr].
      destruct (Ascii.eqb a b); [by apply IH|done].
Qed.

Lemma match_ext_before_sep (exts : list string) (r x : string) :
  Forall (λ e, forallb plain_char e = true) exts →
  forallb plain_char r = true →
  match_ext exts (r +:+ String "/" x) = None.
Proof.
  intros Hexts Hr. induction Hexts as [|e exts He _ IH]; [done|].
  cbn [match_ext].
  destruct (strip_prefix e _) as [t|] eqn:Ht; [|done].
  apply strip_prefix_before_sep in Ht as (r' & -> & Hr'); [|done..].
  destruct r' as [|c r'].
  - rewrite sapp_nil_l, match_anchors_plain; [done|by right].
  - rewrite sapp_cons, match_anchors_plain; [done|].
    cbn [forallb] in Hr'. apply andb_prop in Hr' as [? _]. by left.
Qed.

Lemma match_dot_ext_before_sep (r x : string) :
  forallb plain_char r = true → match_dot_ext (r +:+ String "/" x) = None.
Proof.
  intros Hr. destruct r as [|c r]; [done|].
  rewrite sapp_cons. unfold match_dot_ext.
  cbn [forallb] in Hr. apply andb_prop in Hr as [_ Hr].
  assert (match_ext extensions (r +:+ String "/" x) = None) as ->.
  { apply match_ext_before_sep; [|done]. by repeat constructor. }
  by destruct c as [[] [] [] [] [] [] [] []].
Qed.

(** No link has a target in which a "/" comes before the end of the
    name. *)
Lemma match_name_before_sep (r x : string) :
  forallb plain_char r = true → match_name (r +:+ String "/" x) = None.
Proof.
  induction r as [|c r IH]; [done|].
  cbn [forallb]. intros [Hc Hr]%andb_prop.
  rewrite sapp_cons. cbn [match_name].
  rewrite (IH Hr), (match_dot_ext_before_sep _ _ Hr).
  by destruct (name_char c).
Qed.

End quote_facts.

(** ** Claims about the rewriting of a link *)

Section rewrite_claims.
Import PyStr posixpath urllib re.

Lemma group3_nonempty (m : Match) : group3 m ≠ "".
Proof.
  unfold group3. destruct (name m); [done|]. by rewrite sapp_cons.
Qed.

(** The call for a link whose name is in the index, when the name holds no
    "(": the target of the link returned starts with the encoded path from
    the directory of the page to the indexed file.  The head and the anchor
    are scanned for the name as well. *)
Lemma hit_rewrites_target (cwd : string) (self : AutoLinkReplacer.t) (m : Match)
    (index : gmap string string) (abs_link_path rel : string)
    (missing : gmap string Counter) :
  AutoLinkReplacer.filename_to_abs_path self = Some index →
  index !! strip (group3 m) = Some abs_link_path →
  relpath cwd abs_link_path (dirname (AutoLinkReplacer.abs_page_path self)) = Ok rel →
  existsb (Ascii.eqb "(") (group3 m) = false →
  let rel_link_path := quote rel in
  AutoLinkReplacer.__call__ cwd self m missing =
    (Ok (replace (link_head m) (group3 m) rel_link_path +:+ "(" +:+ rel_link_path
         +:+ replace (anchor m +:+ ")") (group3 m) rel_link_path),
     missing).
Proof.
  intros Hidx Hhit [Hne <-]%relpath_Ok Hparen rel_link_path.
  rewrite (call_hit cwd self m index abs_link_path missing Hidx Hhit Hne).
  fold rel_link_path. do 2 f_equal.
  pose proof (group3_nonempty m) as Hg3.
  unfold group0, group2.
  change ("(" +:+ (group3 m +:+ anchor m) +:+ ")")
    with (String "("%char ((group3 m +:+ anchor m) +:+ ")")).
  rewrite replace_app_absent by done.
  by rewrite sapp_assoc, replace_front.
Qed.

(** If, moreover, the name occurs neither in the head nor in the anchor,
    the link returned is the link matched with the path in the place of
    the name. *)
Lemma hit_rewrites_target_only (cwd : string) (self : AutoLinkReplacer.t) (m : Match)
    (index : gmap string string) (abs_link_path rel : string)
    (missing : gmap string Counter) :
  AutoLinkReplacer.filename_to_abs_path self = Some index →
  index !! strip (group3 m) = Some abs_link_path →
  relpath cwd abs_link_path (dirname (AutoLinkReplacer.abs_page_path self)) = Ok rel →
  existsb (Ascii.eqb "(") (group3 m) = false →
  let rel_link_path := quote rel in
  replace (link_head m) (group3 m) rel_link_path = link_head m →
  replace (anchor m +:+ ")") (group3 m) rel_link_path = anchor m +:+ ")" →
  AutoLinkReplacer.__call__ cwd self m missing =
    (Ok (link_head m +:+ "(" +:+ rel_link_path +:+ anchor m +:+ ")"), missing).
Proof.
  intros Hidx Hhit Hrel Hparen rel_link_path Hhead Hanchor.
  rewrite (hit_rewrites_target cwd self m index abs_link_path rel missing
             Hidx Hhit Hrel Hparen).
  fold rel_link_path. by rewrite Hhead, Hanchor.
Qed.

(** The example of the specification for anchors. *)
Example anchor_example :
  (AutoLinksPlugin.on_page_markdown "/" "[Link](notes.md#section-2)"
     (page_at "a/page.md" "/docs/a/page.md") docs_config notes_site
     AutoLinksPlugin.__init__).1 = Ok "[Link](../x/notes.md#section-2)".
Proof. vm_compute. reflexivity. Qed.

(** The example of the specification for the image form. *)
Example image_example :
  (AutoLinksPlugin.on_page_markdown "/" "![](notes.md) and [See](notes.txt)"
     (page_at "a/page.md" "/docs/a/page.md") docs_config notes_site
     AutoLinksPlugin.__init__).1 = Ok "![](../x/notes.md) and [See](notes.txt)".
Proof. vm_compute. reflexivity. Qed.

(** C1, at the input where the code departs from it.  The page
    "/docs/p.md" holds the link "[a.md](a.md](a.md)", whose file name
    "a.md](a.md" is indexed under "/docs/x".  The first occurrence of the
    name in the text of the link starts in the label, so that is what
    [replace] rewrites: the target of the link returned is "a.md", not the
    encoded path "x/a.md%5D%28a.md". *)
Theorem straddling_name_leaves_target :
  match_ "[a.md](a.md](a.md)"
    = Some ({| link_head := "[a.md]"; group1 := Some "a.md"; name := "a.md](a";
               group4 := "md"; anchor := "" |}, "") ∧
  (AutoLinksPlugin.on_page_markdown "/" "[a.md](a.md](a.md)"
     (page_at "p.md" "/docs/p.md") docs_config bracket_site
     AutoLinksPlugin.__init__).1 = Ok "[x/a.md%5D%28a.md](a.md)" ∧
  quote (rel_to "/" (dirname "/docs/p.md") "/docs/x/a.md](a.md") = "x/a.md%5D%28a.md".
Proof. vm_compute. split_and!; reflexivity. Qed.

(** C2, at the input where the code departs from it.  The label of
    "[notes.md](notes.md)" is the file name; [replace] rewrites every
    occurrence of the name in the text of the link, so the label is
    rewritten with the target.  An anchor that holds the name is rewritten
    in the same way. *)
Theorem label_occurrence_rewritten :
  (AutoLinksPlugin.on_page_markdown "/" "[notes.md](notes.md)"
     (page_at "a/page.md" "/docs/a/page.md") docs_config notes_site
     AutoLinksPlugin.__init__).1 = Ok "[../x/notes.md](../x/notes.md)" ∧
  (AutoLinksPlugin.on_page_markdown "/" "[Link](notes.md#see-notes.md-top)"
     (page_at "a/page.md" "/docs/a/page.md") docs_config notes_site
     AutoLinksPlugin.__init__).1 = Ok "[Link](../x/notes.md#see-../x/notes.md-top)".
Proof. vm_compute. split_and!; reflexivity. Qed.


End rewrite_claims.

(** ** The second pass *)

Section second_pass.
Import PyStr posixpath urllib re.

Lemma match_head_image (t : string) :
  match_head ("![]" +:+ t) = Some ("![]", None, t).
Proof. unfold match_head. by rewrite strip_prefix_app. Qed.

Lemma match_head_label (lab t : string) :
  forallb not_rbracket lab = true →
  match_head ("[" +:+ lab +:+ "]" +:+ t) =
    if String.eqb lab "" then None else Some ("[" +:+ lab +:+ "]", Some lab, t).
Proof.
  intros Hlab. unfold match_head. norm_app. cbn [strip_prefix].
  change (Ascii.eqb "!" "[") with false. cbv iota.
  rewrite (span_app not_rbracket lab "]" t Hlab eq_refl).
  by destruct lab.
Qed.

(** What the pattern matches is decided by the text up to the first ")":
    the text after it is handed on as it is. *)
Lemma match_anchors_rest (v rest : string) :
  forallb not_rparen v = true →
  match_anchors (v +:+ String ")" rest)
  = match match_anchors (v +:+ String ")" "") with
    | Some (a, _) => Some (a, rest)
    | None => None
    end.
Proof.
  intros Hv. destruct v as [|c v]; [done|].
  rewrite !sapp_cons. cbn [forallb] in Hv. apply andb_prop in Hv as [Hc Hv].
  unfold match_anchors.
  rewrite !(span_app not_rparen v ")" _ Hv eq_refl).
  by destruct c as [[] [] [] [] [] [] [] []].
Qed.

Lemma strip_prefix_rparen (e v rest : string) :
  forallb not_rparen e = true →
  strip_prefix e (v +:+ String ")" rest)
  = (λ v', v' +:+ String ")" rest) <$> strip_prefix e v.
Proof.
  revert v. induction e as [|a e IH]; intros v He; [done|].
  cbn [forallb] in He. apply andb_prop in He as [Ha He].
  destruct v as [|b v].
  - rewrite sapp_nil_l. cbn [strip_prefix]. unfold not_rparen in Ha.
    by destruct (Ascii.eqb a ")").
  - rewrite sapp_cons. cbn [strip_prefix]. destruct (Ascii.eqb a b); [by apply IH|done].
Qed.

Lemma strip_prefix_not_rparen (e v v' : string) :
  forallb not_rparen v = true → strip_prefix e v = Some v' →
  forallb not_rparen v' = true.
Proof.
  intros Hv ->%strip_prefix_spec. rewrite sforallb_app in Hv.
  by apply andb_prop in Hv as [_ ?].
Qed.

Lemma match_ext_rest (exts : list string) (v rest : string) :
  Forall (λ e, forallb not_rparen e = true) exts →
  forallb not_rparen v = true →
  match_ext exts (v +:+ String ")" rest)
  = set_rest3 rest (match_ext exts (v +:+ String ")" "")).
Proof.
  intros Hexts Hv. induction Hexts as [|e exts He _ IH]; [done|].
  cbn [match_ext]. rewrite !strip_prefix_rparen by done.
  destruct (strip_prefix e v) as [v'|] eqn:Hs; simpl; [|done].
  rewrite (match_anchors_rest v' rest) by by eapply strip_prefix_not_rparen.
  by destruct (match_anchors (v' +:+ String ")" "")) as [[a r]|].
Qed.

Lemma match_dot_ext_rest (v rest : string) :
  forallb not_rparen v = true →
  match_dot_ext (v +:+ String ")" rest)
  = set_rest3 rest (match_dot_ext (v +:+ String ")" "")).
Proof.
  intros Hv. destruct v as [|c v]; [done|].
  rewrite !sapp_cons. cbn [forallb] in Hv. apply andb_prop in Hv as [_ Hv].
  unfold match_dot_ext.
  assert (match_ext extensions (v +:+ String ")" rest)
          = set_rest3 rest (match_ext extensions (v +:+ String ")" ""))) as Hext.
  { apply match_ext_rest; [|done]. by repeat constructor. }
  destruct c as [[] [] [] [] [] [] [] []]; try done.
Qed.

Lemma match_name_rest (v rest : string) :
  forallb not_rparen v = true →
  match_name (v +:+ String ")" rest)
  = set_rest4 rest (match_name (v +:+ String ")" "")).
Proof.
  induction v as [|c v IH]; [done|].
  cbn [forallb]. intros [_ Hv]%andb_prop.
  rewrite !sapp_cons. cbn [match_name].
  destruct (name_char c); [|done].
  rewrite (IH Hv), (match_dot_ext_rest v rest Hv).
  destruct (match_name (v +:+ String ")" "")) as [[[[n e] a] r]|]; [done|].
  by destruct (match_dot_ext (v +:+ String ")" "")) as [[[e a] r]|].
Qed.

Lemma match_at_head (hd : string) (g1 : option string) (v T : string) :
  (∀ X, match_head (hd +:+ X) = Some (hd, g1, X)) →
  forallb not_rparen v = true →
  match_ (hd +:+ "(" +:+ v +:+ ")" +:+ T)
  = match match_name (v +:+ String ")" "") with
    | Some (n, e, a, _) =>
        Some ({| link_head := hd; group1 := g1; name := n; group4 := e; anchor := a |}, T)
    | None => None
    end.
Proof.
  intros Hhd Hv. unfold match_. rewrite Hhd.
  change ("(" +:+ v +:+ ")" +:+ T) with (String "("%char (v +:+ String ")"%char T)).
  cbn -[match_name String.append]. rewrite (match_name_rest v T Hv).
  by destruct (match_name (v +:+ String ")" "")) as [[[[n e] a] r]|].
Qed.

Lemma extension_not_rparen (e : string) :
  e ∈ extensions → forallb not_rparen e = true.
Proof.
  intros He. unfold extensions in He.
  repeat (apply elem_of_cons in He as [->|He]; [done|]).
  by apply elem_of_nil in He.
Qed.

Lemma name_char_not_rparen (s : string) :
  forallb name_char s = true → forallb not_rparen s = true.
Proof.
  apply forallb_impl. intros c. unfold name_char, not_rparen.
  by intros [? _]%andb_prop.
Qed.

(** A match is the match of its own text, whatever text follows it. *)
Lemma match_extend (m : Match) (s rest T : string) :
  match_ s = Some (m, rest) → match_ (group0 m +:+ T) = Some (m, T).
Proof.
  intros Hm. pose proof (match_spec _ _ _ Hm) as (Hs & Hhead & _ & Hn & He & Ha & _).
  set (v := group2 m).
  assert (forallb not_rparen v = true) as Hv.
  { unfold v, group2, group3. rewrite !sforallb_app.
    rewrite (name_char_not_rparen _ Hn), (extension_not_rparen _ He), Ha. done. }
  assert (∀ X, match_head (link_head m +:+ X) = Some (link_head m, group1 m, X)) as Hhd.
  { intros X. destruct Hhead as [[-> ->]|(lab & -> & -> & Hne & Hnb)].
    - apply match_head_image.
    - rewrite !sapp_assoc, match_head_label by done.
      destruct (String.eqb_spec lab ""); [done|]. by rewrite <- !sapp_assoc. }
  assert (∀ T, group0 m +:+ T = link_head m +:+ "(" +:+ v +:+ ")" +:+ T) as Hg0.
  { intros T'. unfold group0. fold v. by rewrite !sapp_assoc. }
  rewrite Hs, (Hg0 rest), (match_at_head _ _ _ _ Hhd Hv) in Hm.
  rewrite (Hg0 T), (match_at_head _ _ _ _ Hhd Hv).
  destruct (match_name (v +:+ String ")" "")) as [[[[n e] a] r]|]; [|done].
  by injection Hm as ->.
Qed.

(** After "!", a link starts only at "[]". *)
Lemma match_bang (T : string) :
  strip_prefix "[]" T = None → match_ (String "!" T) = None.
Proof.
  intros HT. unfold match_, match_head.
  change (strip_prefix "![]" (String "!" T)) with (strip_prefix "[]" T).
  by rewrite HT.
Qed.

Lemma strip_empty_label_char (c : ascii) (s : string) :
  Ascii.eqb "[" c = false → strip_prefix "[]" (String c s) = None.
Proof. intros Hc. cbn [strip_prefix]. by rewrite Hc. Qed.

Lemma strip_empty_label_label (c : ascii) (s : string) :
  Ascii.eqb "]" c = false → strip_prefix "[]" (String "[" (String c s)) = None.
Proof. intros Hc. cbn [strip_prefix]. change (Ascii.eqb "[" "[") with true. by rewrite Hc. Qed.

Lemma strip_empty_label_text (u T : string) :
  has_lbracket u = false → strip_prefix "[]" T = None →
  strip_prefix "[]" (u +:+ T) = None.
Proof.
  intros Hu HT. destruct u as [|c u]; [by rewrite sapp_nil_l|].
  unfold has_lbracket in Hu. cbn [existsb] in Hu.
  apply orb_false_elim in Hu as [Hc _].
  rewrite sapp_cons. by apply strip_empty_label_char.
Qed.

Lemma strip_empty_label_head (lab T : string) :
  lab ≠ "" → forallb not_rbracket lab = true →
  strip_prefix "[]" (("[" +:+ lab +:+ "]") +:+ T) = None.
Proof.
  intros Hne Hlab. destruct lab as [|c lab]; [done|].
  cbn [forallb] in Hlab. apply andb_prop in Hlab as [Hc _].
  norm_app. apply strip_empty_label_label.
  unfold not_rbracket in Hc. rewrite Ascii.eqb_sym. by destruct (Ascii.eqb c "]").
Qed.

Section scan.
Context {S : Type}.
Variable repl : Match → M S string.

(** The scan copies a text without "[", when what follows it does not
    start with "[]". *)
Lemma sub_text_then (u T : string) (st : S) :
  has_lbracket u = false → strip_prefix "[]" T = None →
  re.sub repl (u +:+ T) st = prepend u (re.sub repl T st).
Proof.
  intros Hu HT. induction u as [|c u IH].
  - by rewrite sapp_nil_l, prepend_nil.
  - pose proof Hu as Hu'. unfold has_lbracket in Hu. cbn [existsb] in Hu.
    apply orb_false_elim in Hu as [Hc Hu]. fold (has_lbracket u) in Hu.
    rewrite sapp_cons, sub_skip, (IH Hu), prepend_prepend; [done|].
    apply Ascii.eqb_neq in Hc.
    destruct (Ascii.eqb_spec c "!") as [->|Hc']; [|by apply match_first_char].
    by apply match_bang, strip_empty_label_text.
Qed.

(** An image link whose target has a "/" before the end of its name is
    not recognised, and neither is anything in it when what follows the
    "(" holds no "[". *)
Lemma sub_image_with_sep (r x T : string) (st : S) :
  forallb plain_char r = true →
  has_lbracket (r +:+ String "/" x) = false →
  strip_prefix "[]" T = None →
  re.sub repl (("![]" +:+ "(" +:+ r +:+ String "/" x) +:+ T) st
  = prepend ("![]" +:+ "(" +:+ r +:+ String "/" x) (re.sub repl T st).
Proof.
  intros Hr Hx HT.
  pose proof (match_name_before_sep r (x +:+ T) Hr) as Hname.
  assert (("![]" +:+ "(" +:+ r +:+ String "/" x) +:+ T
          = String "!" ("[]" +:+ String "(" (r +:+ String "/" x) +:+ T)) as ->
    by (norm_app; done).
  change ("![]" +:+ "(" +:+ r +:+ String "/" x)
    with ("!" +:+ "[]" +:+ String "("%char (r +:+ String "/" x)).
  rewrite sub_skip.
  - rewrite sub_empty_label, sub_text_then, !prepend_prepend; [done| |done].
    unfold has_lbracket in *. cbn [existsb]. by rewrite Hx.
  - unfold match_.
    change (String "!" ("[]" +:+ String "(" (r +:+ String "/" x) +:+ T))
      with ("![]" +:+ String "("%char ((r +:+ String "/" x) +:+ T)).
    rewrite match_head_image. rewrite sapp_assoc, sapp_cons.
    cbn -[match_name String.append]. by rewrite Hname.
Qed.

(** The same for a link with a label. *)
Lemma sub_label_with_sep (lab r x T : string) (st : S) :
  forallb not_rbracket lab = true →
  has_lbracket lab = false →
  forallb plain_char r = true →
  has_lbracket (r +:+ String "/" x) = false →
  strip_prefix "[]" T = None →
  re.sub repl ((("[" +:+ lab +:+ "]") +:+ "(" +:+ r +:+ String "/" x) +:+ T) st
  = prepend (("[" +:+ lab +:+ "]") +:+ "(" +:+ r +:+ String "/" x) (re.sub repl T st).
Proof.
  intros Hnb Hlab Hr Hx HT.
  pose proof (match_name_before_sep r (x +:+ T) Hr) as Hname.
  assert (match_ ((("[" +:+ lab +:+ "]") +:+ "(" +:+ r +:+ String "/" x) +:+ T) = None)
    as Hnone.
  { unfold match_. rewrite !sapp_assoc, match_head_label by done.
    destruct (String.eqb lab ""); [done|].
    change ("(" +:+ r +:+ String "/" x +:+ T)
      with (String "("%char (r +:+ String "/" x +:+ T)).
    rewrite sapp_cons.
    cbn -[match_name String.append]. by rewrite Hname. }
  assert ((("[" +:+ lab +:+ "]") +:+ "(" +:+ r +:+ String "/" x) +:+ T
          = String "[" ((lab +:+ "](" +:+ r +:+ String "/" x) +:+ T)) as Heq
    by (norm_app; done).
  assert (has_lbracket (lab +:+ "](" +:+ r +:+ String "/" x) = false) as Hb.
  { unfold has_lbracket in *. rewrite sexistsb_app, Hlab. norm_app.
    cbn [existsb orb]. by rewrite Hx. }
  rewrite Heq in *. rewrite sub_skip by done.
  rewrite (sub_text_then _ _ _ Hb HT), prepend_prepend.
  f_equal. by norm_app.
Qed.

End scan.

Lemma forallb_and (f g h : ascii → bool) (s : string) :
  (∀ c, f c = true → g c = true → h c = true) →
  forallb f s = true → forallb g s = true → forallb h s = true.
Proof.
  intros Hfgh. induction s as [|c s IH]; [done|]. cbn [forallb].
  intros [Hf Hfs]%andb_prop [Hg Hgs]%andb_prop.
  by rewrite (Hfgh c Hf Hg), IH.
Qed.

Lemma quoted_char_not_rbracket (c : ascii) :
  quoted_char c = true → Ascii.eqb "]" c = false.
Proof. destruct c as [[] [] [] [] [] [] [] []]; vm_compute; congruence. Qed.

Lemma quote_no_rbracket (s : string) : existsb (Ascii.eqb "]") (quote s) = false.
Proof.
  apply existsb_false_forallb.
  apply (forallb_impl quoted_char); [|apply quote_quoted].
  intros c Hc. by rewrite quoted_char_not_rbracket.
Qed.

Lemma not_rbracket_absent (s : string) :
  forallb not_rbracket s = true ↔ existsb (Ascii.eqb "]") s = false.
Proof.
  rewrite existsb_false_forallb. unfold not_rbracket.
  split; apply forallb_impl; intros c; by rewrite Ascii.eqb_sym.
Qed.

Lemma group3_length (m : Match) : name m ≠ "" → 1 < String.length (group3 m).
Proof.
  intros Hne. unfold group3. rewrite !slength_app.
  destruct (name m); [done|]. simpl. lia.
Qed.

Section stable_links.
Variable cwd : string.
Variable self : AutoLinkReplacer.t.

Lemma replace_nonempty (old new s : string) :
  old ≠ "" → new ≠ "" → s ≠ "" → replace s old new ≠ "".
Proof.
  intros Hold Hnew Hs. destruct s as [|c s]; [done|].
  destruct (startswith old (String c s)) eqn:Hp.
  - apply startswith_spec in Hp as [r ->]. rewrite replace_front by done.
    by destruct new.
  - by rewrite replace_copy.
Qed.

Lemma existsb_or3_false (f g h : ascii → bool) (s : string) :
  existsb (λ c, f c || g c || h c) s = false →
  existsb f s = false ∧ existsb g s = false ∧ existsb h s = false.
Proof.
  induction s as [|c s IH]; [done|]. cbn [existsb].
  intros [Hc Hs]%orb_false_elim. destruct (IH Hs) as (-> & -> & ->).
  apply orb_false_elim in Hc as [Hc ->]. by apply orb_false_elim in Hc as [-> ->].
Qed.

(** What [stable_link] says, in words of the replacer. *)
Lemma stable_link_spec (m : Match) :
  stable_link cwd self m = true →
  match_ (group0 m) = Some (m, "") ∧
  (∃ index abs_link_path rel,
     AutoLinkReplacer.filename_to_abs_path self = Some index ∧
     index !! strip (group3 m) = Some abs_link_path ∧
     relpath cwd abs_link_path (dirname (AutoLinkReplacer.abs_page_path self)) = Ok rel ∧
     link_out cwd self m = replace (group0 m) (group3 m) (quote rel) ∧
     has_sep rel = true) ∧
  existsb (Ascii.eqb "(") (group3 m) = false ∧
  existsb (Ascii.eqb "[") (group3 m) = false ∧
  existsb (Ascii.eqb "]") (group3 m) = false ∧
  has_lbracket (default "" (group1 m)) = false ∧
  has_lbracket (anchor m) = false.
Proof.
  unfold stable_link, link_out, link_rel. rewrite !andb_true_iff, !negb_true_iff.
  intros ((((Hm%bool_decide_eq_true & Hrel) & Hname) & Hlab) & Hanchor).
  split; [done|]. split; [|by apply existsb_or3_false in Hname as (? & ? & ?)].
  destruct (AutoLinkReplacer.filename_to_abs_path self) as [index|]; [|done].
  destruct (index !! strip (group3 m)) as [abs_link_path|] eqn:Hhit; [|done].
  destruct (relpath cwd abs_link_path _) as [rel|e] eqn:Hr; [|done].
  by exists index, abs_link_path, rel.
Qed.

(** The replacer returns [link_out] for a stable link, and records
    nothing. *)
Lemma call_stable_link (m : Match) (missing : gmap string Counter) :
  stable_link cwd self m = true →
  AutoLinkReplacer.__call__ cwd self m missing = (Ok (link_out cwd self m), missing).
Proof.
  intros (_ & (index & abs_link_path & rel & Hidx & Hhit & Hrel & -> & _) & _)%stable_link_spec.
  pose proof Hrel as [Hne Hto]%relpath_Ok.
  by rewrite (call_hit cwd self m index abs_link_path missing Hidx Hhit Hne), Hto.
Qed.

(** The text returned for a stable link: a head without an empty label
    and without a "[" inside, and a target with a "/" before the end of
    its name. *)
Lemma link_out_shape (m : Match) :
  stable_link cwd self m = true →
  ∃ hd r x,
    link_out cwd self m = hd +:+ "(" +:+ r +:+ String "/" x ∧
    forallb plain_char r = true ∧
    has_lbracket (r +:+ String "/" x) = false ∧
    (hd = "![]" ∨
     ∃ lab, hd = "[" +:+ lab +:+ "]" ∧ lab ≠ "" ∧
            forallb not_rbracket lab = true ∧ has_lbracket lab = false).
Proof.
  intros (Hm & (index & abs_link_path & rel & Hidx & Hhit & Hrel & Hout & Hsep)
          & Hn1 & Hn2 & Hn3 & Hlab & Hanchor)%stable_link_spec.
  pose proof (group3_nonempty m) as Hg3.
  set (R := quote rel) in *.
  set (tl := replace (anchor m +:+ ")") (group3 m) R).
  assert (link_out cwd self m
          = replace (link_head m) (group3 m) R +:+ "(" +:+ R +:+ tl) as Hout'.
  { rewrite Hout. unfold group0, group2.
    change ("(" +:+ (group3 m +:+ anchor m) +:+ ")")
      with (String "("%char ((group3 m +:+ anchor m) +:+ ")")).
    rewrite replace_app_absent by done.
    by rewrite sapp_assoc, replace_front. }
  assert (has_lbracket tl = false) as Htl.
  { apply replace_absent_char; [done| |apply quote_no_lbracket].
    unfold has_lbracket in Hanchor. by rewrite sexistsb_app, Hanchor. }
  destruct (first_sep_split _ (quote_has_sep _ Hsep)) as (a & b & Hq & Ha).
  fold R in Hq.
  assert (forallb plain_char a = true) as Hplain.
  { pose proof (quote_quoted rel) as Hqq. fold R in Hqq.
    rewrite Hq, sforallb_app in Hqq. apply andb_prop in Hqq as [Hqa _].
    apply existsb_false_forallb in Ha.
    apply (forallb_and quoted_char (λ c, negb (is_sep c)) plain_char); [|done..].
    intros c Hc Hs. apply quoted_char_plain; [done|]. by destruct (is_sep c). }
  assert (has_lbracket (a +:+ String "/" (b +:+ tl)) = false) as Hnb.
  { rewrite <- sapp_cons, <- sapp_assoc, <- Hq. unfold has_lbracket in *.
    rewrite sexistsb_app, Htl.
    fold (has_lbracket R). unfold R. by rewrite quote_no_lbracket. }
  assert (R +:+ tl = a +:+ String "/" (b +:+ tl)) as HR
    by by rewrite Hq, sapp_assoc, sapp_cons.
  assert (R ≠ "") as HRne by (rewrite Hq; by destruct a).
  exists (replace (link_head m) (group3 m) R), a, (b +:+ tl).
  split; [by rewrite Hout', HR|]. split; [done|]. split; [done|].
  apply match_spec in Hm as (_ & Hhead & Hname_ne & _).
  destruct Hhead as [[Hh Hg1]|(lab & Hg1 & Hh & Hne & Hnrb)]; rewrite Hh.
  - (* the image form: the head holds no occurrence of the name *)
    left. change "![]" with ("!" +:+ String "["%char "]").
    rewrite replace_app_absent by done.
    pose proof (group3_length m Hname_ne).
    by rewrite !replace_short by (simpl; lia).
  - (* a label: the name may occur in it *)
    right. rewrite Hg1 in Hlab. simpl in Hlab.
    exists (replace lab (group3 m) R). split; [|split; [|split]].
    + change ("[" +:+ lab +:+ "]") with ("" +:+ String "["%char (lab +:+ "]")).
      rewrite replace_app_absent, replace_nil by done.
      change (lab +:+ "]") with (lab +:+ String "]"%char "").
      by rewrite replace_app_absent, replace_nil by done.
    + by apply replace_nonempty.
    + apply not_rbracket_absent, replace_absent_char; [done| |apply quote_no_rbracket].
      by apply not_rbracket_absent.
    + apply replace_absent_char; [done|done|apply quote_no_lbracket].
Qed.

(** The text returned for a stable link does not start with "[]". *)
Lemma link_out_start (m : Match) (T : string) :
  stable_link cwd self m = true →
  strip_prefix "[]" (link_out cwd self m +:+ T) = None.
Proof.
  intros (hd & r & x & -> & _ & _ & [->|(lab & -> & Hne & Hnrb & _)])%link_out_shape.
  - done.
  - rewrite (sapp_assoc ("[" +:+ lab +:+ "]")). by apply strip_empty_label_head.
Qed.

(** The scan copies the text returned for a stable link. *)
Lemma sub_link_out {S} (repl : Match → M S string) (m : Match) (T : string) (st : S) :
  stable_link cwd self m = true →
  strip_prefix "[]" T = None →
  re.sub repl (link_out cwd self m +:+ T) st
  = prepend (link_out cwd self m) (re.sub repl T st).
Proof.
  intros (hd & r & x & -> & Hr & Hx & [->|(lab & -> & Hne & Hnrb & Hlab)])%link_out_shape HT.
  - by apply sub_image_with_sep.
  - by apply sub_label_with_sep.
Qed.

(** The text of a stable link does not start with "[]". *)
Lemma group0_start (m : Match) (T : string) :
  stable_link cwd self m = true →
  strip_prefix "[]" (group0 m +:+ T) = None.
Proof.
  intros (Hm & _)%stable_link_spec.
  apply match_spec in Hm as (_ & Hhead & _). unfold group0.
  destruct Hhead as [[-> _]|(lab & _ & -> & Hne & Hnrb)].
  - done.
  - rewrite (sapp_assoc ("[" +:+ lab +:+ "]")). by apply strip_empty_label_head.
Qed.

Lemma pieces_text_start (ps : list piece) :
  List.forallb (simple_piece cwd self) ps = true →
  strip_prefix "[]" (pieces_text ps) = None.
Proof.
  induction ps as [|[u|m] ps IH]; [done|..]; cbn [List.forallb pieces_text piece_text simple_piece];
    intros [Hp Hps]%andb_prop.
  - apply strip_empty_label_text; [|by apply IH]. by apply negb_true_iff.
  - by apply group0_start.
Qed.

Lemma pieces_out_start (ps : list piece) :
  List.forallb (simple_piece cwd self) ps = true →
  strip_prefix "[]" (pieces_out cwd self ps) = None.
Proof.
  induction ps as [|[u|m] ps IH]; [done|..]; cbn [List.forallb pieces_out piece_out simple_piece];
    intros [Hp Hps]%andb_prop.
  - apply strip_empty_label_text; [|by apply IH]. by apply negb_true_iff.
  - by apply link_out_start.
Qed.

(** The first pass over a page of simple pieces. *)
Lemma sub_pieces_text (ps : list piece) (missing : gmap string Counter) :
  List.forallb (simple_piece cwd self) ps = true →
  re.sub (AutoLinkReplacer.__call__ cwd self) (pieces_text ps) missing
  = (Ok (pieces_out cwd self ps), missing).
Proof.
  induction ps as [|[u|m] ps IH]; [done|..];
    cbn [List.forallb pieces_text pieces_out piece_text piece_out simple_piece];
    intros [Hp Hps]%andb_prop.
  - rewrite sub_text_then, (IH Hps); [done|by apply negb_true_iff|].
    by apply pieces_text_start.
  - pose proof Hp as (Hm & _)%stable_link_spec.
    rewrite (sub_match _ _ m (pieces_text ps) missing (match_extend m _ "" _ Hm)).
    by rewrite (call_stable_link m missing Hp), (IH Hps).
Qed.

(** The second pass. *)
Lemma sub_pieces_out (ps : list piece) (missing : gmap string Counter) :
  List.forallb (simple_piece cwd self) ps = true →
  re.sub (AutoLinkReplacer.__call__ cwd self) (pieces_out cwd self ps) missing
  = (Ok (pieces_out cwd self ps), missing).
Proof.
  induction ps as [|[u|m] ps IH]; [done|..];
    cbn [List.forallb pieces_out piece_out simple_piece];
    intros [Hp Hps]%andb_prop.
  - rewrite sub_text_then, (IH Hps); [done|by apply negb_true_iff|].
    by apply pieces_out_start.
  - rewrite sub_link_out, (IH Hps); [done..|]. by apply pieces_out_start.
Qed.

End stable_links.

(** Building the index records no missing name. *)
Lemma init_missing (cwd : string) (files : list File) (docs_dir : string)
    (self self' : AutoLinksPlugin.t) :
  Forall (λ f, abs_src_path f ≠ "") files →
  AutoLinksPlugin.init_filename_to_abs_path cwd files docs_dir self = (Ok tt, self') →
  AutoLinksPlugin.missing_filenames self' = AutoLinksPlugin.missing_filenames self.
Proof.
  intros Hne.
  destruct (init_loop cwd docs_dir files self Hne) as (s & index & Hrun & _ & _ & _ & Hm).
  unfold AutoLinksPlugin.init_filename_to_abs_path, bind, modify. rewrite Hrun.
  by intros [= <-].
Qed.

(** The page hook of a plugin that has its index, on a page of simple
    pieces: the text returned, and the plugin left as it was. *)
Lemma on_page_markdown_pieces (cwd : string) (ps : list piece) (page : Page)
    (config : Config) (files : list File) (self : AutoLinksPlugin.t)
    (index : gmap string string) :
  AutoLinksPlugin.filename_to_abs_path self = Some index →
  List.forallb (simple_piece cwd (page_replacer config page index)) ps = true →
  let markdown := pieces_out cwd (page_replacer config page index) ps in
  AutoLinksPlugin.on_page_markdown cwd (pieces_text ps) page config files self
    = (Ok markdown, self) ∧
  AutoLinksPlugin.on_page_markdown cwd markdown page config files self
    = (Ok markdown, self).
Proof.
  intros Hidx Hps markdown.
  rewrite !(on_page_markdown_initialized _ _ _ _ _ _ _ Hidx).
  fold (page_replacer config page index).
  rewrite (sub_pieces_text _ _ _ _ Hps). fold markdown.
  unfold markdown at 1. rewrite (sub_pieces_out _ _ _ _ Hps). fold markdown.
  by destruct self.
Qed.

(** A page made of texts that hold no "[" and of stable links:
    recognised links whose name is in the index and holds none of
    "(", "[" and "]", whose label and anchor hold no "[", and whose file is
    reached from the directory of the page by a path that holds a "/".
    The page hook rewrites every link of the page, and run again on the
    text it returned, with the plugin it left, it returns that text as it
    is and leaves the plugin as it is. *)
Theorem rewritten_page_is_stable (cwd : string) (ps : list piece) (page : Page)
    (config : Config) (files : list File) (self self1 : AutoLinksPlugin.t)
    (r1 : result string) (index : gmap string string) :
  Forall (λ f, abs_src_path f ≠ "") files →
  AutoLinksPlugin.on_page_markdown cwd (pieces_text ps) page config files self = (r1, self1) →
  AutoLinksPlugin.filename_to_abs_path self1 = Some index →
  List.forallb (simple_piece cwd (page_replacer config page index)) ps = true →
  let markdown := pieces_out cwd (page_replacer config page index) ps in
  r1 = Ok markdown ∧
  AutoLinksPlugin.missing_filenames self1 = AutoLinksPlugin.missing_filenames self ∧
  AutoLinksPlugin.on_page_markdown cwd markdown page config files self1 = (Ok markdown, self1).
Proof.
  intros Hfiles Hrun Hidx1 Hps markdown.
  assert (∃ self', AutoLinksPlugin.filename_to_abs_path self' = Some index ∧
            AutoLinksPlugin.missing_filenames self' = AutoLinksPlugin.missing_filenames self ∧
            AutoLinksPlugin.on_page_markdown cwd (pieces_text ps) page config files self'
            = (r1, self1)) as (self' & Hidx & Hmissing & Hrun').
  { destruct (AutoLinksPlugin.filename_to_abs_path self) as [index0|] eqn:Hidx.
    - exists self. split; [|done].
      pose proof (on_page_markdown_frame cwd (pieces_text ps) page config files self index0
                    Hidx) as (Hidx' & _).
      rewrite Hrun in Hidx'. simpl in Hidx'. congruence.
    - destruct (on_page_markdown_first cwd (pieces_text ps) page config files self Hidx Hfiles)
        as (self' & index0 & Hinit & Hidx' & _ & Heq).
      exists self'. rewrite <- Heq. split; [|split; [|done]].
      + pose proof (on_page_markdown_frame cwd (pieces_text ps) page config files self' index0
                      Hidx') as (Hidx'' & _).
        rewrite <- Heq, Hrun in Hidx''. simpl in Hidx''. congruence.
      + by apply (init_missing cwd files (docs_dir config) self self' Hfiles). }
  destruct (on_page_markdown_pieces cwd ps page config files self' index Hidx Hps)
    as [Hfirst Hsecond].
  fold markdown in Hfirst, Hsecond. rewrite Hrun' in Hfirst.
  injection Hfirst as -> ->. done.
Qed.

Lemma rewritten_page_is_stable_witness :
  let page := page_at "a/page.md" "/docs/a/page.md" in
  let index : gmap string string :=
    {[ "notes.md" := "/docs/x/notes.md"; "page.md" := "/docs/a/page.md" ]} in
  let run :=
    AutoLinksPlugin.on_page_markdown "/" (pieces_text notes_page) page docs_config notes_site
      AutoLinksPlugin.__init__ in
  let markdown := pieces_out "/" (page_replacer docs_config page index) notes_page in
  run.1 = Ok markdown ∧
  AutoLinksPlugin.missing_filenames run.2 = ∅ ∧
  AutoLinksPlugin.on_page_markdown "/" markdown page docs_config notes_site run.2
    = (Ok markdown, run.2).
Proof.
  intros page index run markdown.
  apply (rewritten_page_is_stable "/" notes_page page docs_config notes_site
           AutoLinksPlugin.__init__ run.2 run.1 index).
  - repeat constructor; done.
  - apply surjective_pairing.
  - vm_compute. reflexivity.
  - vm_compute. reflexivity.
Defined.

(** The page of the witness, before and after the first pass. *)
Example notes_page_passes :
  pieces_text notes_page = "See [Link](notes.md#section-2), or (!) ![](notes.md)!" ∧
  pieces_out "/" notes_replacer notes_page
    = "See [Link](../x/notes.md#section-2), or (!) ![](../x/notes.md)!".
Proof. vm_compute. split; reflexivity. Qed.

(** A label that holds the name is rewritten by the first pass, and the
    text is stable from then on. *)
Example label_with_name_then_stable :
  let page := page_at "a/page.md" "/docs/a/page.md" in
  let '(r1, self1) :=
    AutoLinksPlugin.on_page_markdown "/" "[notes.md](notes.md#top)" page docs_config
      notes_site AutoLinksPlugin.__init__ in
  let '(r2, self2) :=
    AutoLinksPlugin.on_page_markdown "/" "[../x/notes.md](../x/notes.md#top)" page
      docs_config notes_site self1 in
  r1 = Ok "[../x/notes.md](../x/notes.md#top)" ∧
  r2 = Ok "[../x/notes.md](../x/notes.md#top)" ∧
  AutoLinksPlugin.missing_filenames self2 = ∅.
Proof. vm_compute. split_and!; reflexivity. Qed.

End second_pass.

(** ** The states a plugin goes through *)

Section plugin_states.
Import PyStr posixpath urllib re.
Variable cwd : string.

Lemma for_each_invariant {S A} (P : S → Prop) (f : A → M S unit) (l : list A) (st : S) :
  (∀ x st, P st → P (f x st).2) → P st → P (for_each f l st).2.
Proof.
  intros Hf. revert st. induction l as [|x l IH]; intros st Hst; [done|].
  simpl. unfold bind. specialize (Hf x st Hst).
  destruct (f x st) as [[[]|e] st']; [by apply IH|done].
Qed.

Lemma sub_go_invariant {S} (P : S → Prop) (repl : Match → M S string)
    (k : nat) (s : string) (st : S) :
  (∀ m st, P st → P (repl m st).2) → P st → P (sub_go repl k s st).2.
Proof.
  intros Hrepl. revert k st. induction s as [|c s IH]; intros k st Hst; [done|].
  destruct k as [|k]; simpl; [|by apply IH].
  destruct (match_ (String c s)) as [[m rest]|]; unfold bind, ret.
  - specialize (Hrepl m st Hst). destruct (repl m st) as [[r|e] st']; [|done].
    specialize (IH (String.length (group0 m) - 1) st' Hrepl).
    by destruct (sub_go repl _ s st') as [[out|e] st''].
  - specialize (IH 0 st Hst). by destruct (sub_go repl 0 s st) as [[out|e] st'].
Qed.

Lemma count_missing_wf (filename ref : string) (missing : gmap string Counter) :
  counters_wf missing → counters_wf (AutoLinkReplacer.count_missing filename ref missing).
Proof.
  unfold counters_wf. intros Hwf f c.
  destruct (decide (filename = f)) as [<-|Hf].
  - rewrite count_missing_lookup. intros [= <-]. apply counter_incr_NoDup.
    destruct (missing !! filename) as [c|] eqn:Hc; simpl; [|constructor].
    apply (Hwf _ _ Hc).
  - rewrite count_missing_lookup_ne by done. apply Hwf.
Qed.

Lemma call_counters_wf (self : AutoLinkReplacer.t) (m : Match)
    (missing : gmap string Counter) :
  counters_wf missing → counters_wf (AutoLinkReplacer.__call__ cwd self m missing).2.
Proof.
  intros Hwf. unfold AutoLinkReplacer.__call__.
  destruct (AutoLinkReplacer.filename_to_abs_path self) as [index|]; [|done].
  destruct (index !! strip (group3 m)) as [p|]; unfold bind, lift, modify, ret.
  - by destruct (relpath cwd p _).
  - destruct (relpath cwd _ _); [|done]. by apply count_missing_wf.
Qed.

Lemma init_step_missing (docs_dir : string) (f : File) (self : AutoLinksPlugin.t) :
  AutoLinksPlugin.missing_filenames (AutoLinksPlugin.init_step cwd docs_dir f self).2
  = AutoLinksPlugin.missing_filenames self.
Proof.
  unfold AutoLinksPlugin.init_step.
  destruct (AutoLinksPlugin.filename_to_abs_path self) as [index|]; [|done].
  destruct (index !! basename (abs_src_path f)) as [first|]; [|done].
  unfold AutoLinksPlugin.append_duplicate, dd_get.
  destruct (AutoLinksPlugin.duplicate_filenames self !! _) as [l|]; simpl.
  - destruct (Nat.eqb (length l) 0); [|by destruct (_ !! _)].
    destruct (relpath cwd first docs_dir); simpl; [|done].
    by repeat (destruct (_ !! _); simpl).
  - destruct (relpath cwd first docs_dir); simpl; [|done].
    by repeat (destruct (_ !! _); simpl).
Qed.

(** The page hook keeps the keys of every counter distinct, whatever it
    returns or raises; a fresh plugin has no counter. *)
Lemma on_page_markdown_counters_wf (markdown : string) (page : Page) (config : Config)
    (files : list File) (self : AutoLinksPlugin.t) :
  counters_wf (AutoLinksPlugin.missing_filenames self) →
  counters_wf (AutoLinksPlugin.missing_filenames
                 (AutoLinksPlugin.on_page_markdown cwd markdown page config files self).2).
Proof.
  intros Hwf. unfold AutoLinksPlugin.on_page_markdown, bind.
  set (init := match AutoLinksPlugin.filename_to_abs_path self with
               | None => _ | Some _ => _ end).
  assert (counters_wf (AutoLinksPlugin.missing_filenames init.2)) as Hinit.
  { subst init. destruct (AutoLinksPlugin.filename_to_abs_path self); [done|].
    unfold AutoLinksPlugin.init_filename_to_abs_path, bind, modify.
    apply (for_each_invariant
             (λ st, counters_wf (AutoLinksPlugin.missing_filenames st))); [|done].
    intros f st Hst. by rewrite init_step_missing. }
  destruct init as [[[]|e] self']; [|done]. simpl in Hinit.
  pose proof (sub_go_invariant counters_wf
                (AutoLinkReplacer.__call__ cwd
                   {| AutoLinkReplacer.base_docs_dir := docs_dir config;
                      AutoLinkReplacer.abs_page_path := abs_src_path (file page);
                      AutoLinkReplacer.filename_to_abs_path :=
                        AutoLinksPlugin.filename_to_abs_path self' |})
                0 markdown (AutoLinksPlugin.missing_filenames self')
                (call_counters_wf _) Hinit) as Hsub.
  unfold re.sub. by destruct (sub_go _ 0 markdown _).
Qed.

Lemma init_counters_wf : counters_wf (AutoLinksPlugin.missing_filenames AutoLinksPlugin.__init__).
Proof. apply map_Forall_empty. Qed.

End plugin_states.

(** * Further properties *)

(** ** The language of the pattern *)

Section pattern_language.
Import PyStr re.

Lemma link_shaped_spec (m : Match) :
  link_shaped m = true ↔
  (link_head m = "![]" ∧ group1 m = None ∨
   ∃ lab, group1 m = Some lab ∧ link_head m = "[" +:+ lab +:+ "]" ∧ lab ≠ "" ∧
          forallb not_rbracket lab = true) ∧
  name m ≠ "" ∧ forallb name_char (name m) = true ∧ group4 m ∈ extensions ∧
  forallb not_rparen (anchor m) = true ∧
  (anchor m = "" ∨ ∃ a', anchor m = String "#" a').
Proof.
  unfold link_shaped. rewrite !andb_true_iff, !negb_true_iff, bool_decide_eq_true.
  rewrite String.eqb_neq.
  assert ((match anchor m with
           | EmptyString => true
           | String c _ => Ascii.eqb c "#"
           end = true) ↔ (anchor m = "" ∨ ∃ a', anchor m = String "#" a')) as ->.
  { destruct (anchor m) as [|c a].
    - split; [by left|done].
    - rewrite Ascii.eqb_eq. split.
      + intros ->. right. by exists a.
      + intros [?|[a' ?]]; congruence. }
  assert ((match group1 m with
           | Some lab =>
               String.eqb (link_head m) ("[" +:+ lab +:+ "]")
               && negb (String.eqb lab "") && forallb not_rbracket lab
           | None => String.eqb (link_head m) "![]"
           end = true) ↔
          (link_head m = "![]" ∧ group1 m = None ∨
           ∃ lab, group1 m = Some lab ∧ link_head m = "[" +:+ lab +:+ "]" ∧ lab ≠ "" ∧
                  forallb not_rbracket lab = true)) as ->.
  { destruct (group1 m) as [lab|].
    - rewrite !andb_true_iff, negb_true_iff, String.eqb_eq, String.eqb_neq. split.
      + intros [[? ?] ?]. right. by exists lab.
      + intros [[_ ?]|(lab' & [= <-] & ? & ? & ?)]; done.
    - rewrite String.eqb_eq. split.
      + intros ?. by left.
      + intros [[? _]|(lab' & ? & _)]; done. }
  tauto.
Qed.

Lemma match_anchors_complete (a T : string) :
  forallb not_rparen a = true →
  (a = "" ∨ ∃ a', a = String "#" a') →
  match_anchors (a +:+ String ")" T) = Some (a, T).
Proof.
  intros Ha [->|[a' ->]]; [done|].
  cbn [forallb] in Ha. apply andb_prop in Ha as [_ Ha].
  rewrite sapp_cons. unfold match_anchors.
  by rewrite (span_app not_rparen a' ")" T Ha eq_refl).
Qed.

Lemma match_ext_complete (exts : list string) (e t : string) :
  e ∈ exts → is_Some (match_anchors t) → is_Some (match_ext exts (e +:+ t)).
Proof.
  intros He [[a rest] Ha]. induction exts as [|x exts IH]; [by apply elem_of_nil in He|].
  cbn [match_ext].
  destruct (strip_prefix x (e +:+ t)) as [t'|] eqn:Hx.
  - destruct (match_anchors t') as [[a' rest']|] eqn:Ha'; [done|].
    apply elem_of_cons in He as [->|He]; [|by apply IH].
    rewrite strip_prefix_app in Hx. congruence.
  - apply elem_of_cons in He as [->|He]; [|by apply IH].
    by rewrite strip_prefix_app in Hx.
Qed.

Lemma match_name_complete (n e t : string) :
  n ≠ "" → forallb name_char n = true → e ∈ extensions → is_Some (match_anchors t) →
  is_Some (match_name (n +:+ String "." (e +:+ t))).
Proof.
  intros Hne Hn He Ht. induction n as [|c n IH]; [done|].
  cbn [forallb] in Hn. apply andb_prop in Hn as [Hc Hn].
  rewrite sapp_cons. cbn [match_name]. rewrite Hc.
  destruct n as [|c' n].
  - rewrite sapp_nil_l.
    destruct (match_name (String "." (e +:+ t))) as [[[[? ?] ?] ?]|]; [done|].
    change (match_dot_ext (String "." (e +:+ t))) with (match_ext extensions (e +:+ t)).
    by destruct (match_ext_complete extensions e t He Ht) as [[[? ?] ?] ->].
  - by destruct (IH ltac:(done) Hn) as [[[[? ?] ?] ?] ->].
Qed.

Lemma list_ascii_of_string_app (x y : string) :
  list_ascii_of_string (x +:+ y) = (list_ascii_of_string x ++ list_ascii_of_string y)%list.
Proof.
  induction x as [|h x IH]; [by rewrite sapp_nil_l|].
  rewrite sapp_cons. simpl. by rewrite IH.
Qed.

Lemma sapp_inv_tail (a b c : string) : a +:+ c = b +:+ c → a = b.
Proof.
  intros H. apply (f_equal list_ascii_of_string) in H.
  rewrite !list_ascii_of_string_app in H. apply app_inv_tail in H.
  apply (f_equal string_of_list_ascii) in H.
  by rewrite !string_of_list_ascii_of_string in H.
Qed.

(** A text in which no "." comes before the first ")" holds no name with
    an extension. *)
Lemma match_name_no_dot (v T : string) :
  existsb (Ascii.eqb ".") v = false → match_name (v +:+ String ")" T) = None.
Proof.
  induction v as [|c v IH]; [done|]. cbn [existsb].
  intros [Hc Hv]%orb_false_elim. rewrite sapp_cons. cbn [match_name].
  rewrite (IH Hv). destruct (name_char c); [|done].
  destruct v as [|c' v]; [done|]. rewrite sapp_cons.
  cbn [existsb] in Hv. apply orb_false_elim in Hv as [Hc' _].
  unfold match_dot_ext. apply Ascii.eqb_neq in Hc'.
  destruct c' as [[] [] [] [] [] [] [] []]; done.
Qed.

Lemma extension_no_dot (e : string) :
  e ∈ extensions → existsb (Ascii.eqb ".") e = false.
Proof.
  intros He. unfold extensions in He.
  repeat (apply elem_of_cons in He as [->|He]; [done|]).
  by apply elem_of_nil in He.
Qed.

Lemma extension_nonempty (e : string) : e ∈ extensions → e ≠ "".
Proof.
  intros He. unfold extensions in He.
  repeat (apply elem_of_cons in He as [->|He]; [done|]).
  by apply elem_of_nil in He.
Qed.

(** No extension of the pattern starts another one: in front of a text
    in which the anchor and the ")" are found, an extension is found as
    itself. *)
Lemma match_ext_exact (e a T : string) :
  e ∈ extensions → match_anchors (a +:+ String ")" T) = Some (a, T) →
  match_ext extensions (e +:+ a +:+ String ")" T) = Some (e, a, T).
Proof.
  intros He Ha. unfold extensions in *.
  repeat (apply elem_of_cons in He as [->|He];
          [norm_app; cbn [match_ext strip_prefix];
           repeat match goal with
                  | |- context [Ascii.eqb ?x ?y] =>
                      let b := eval vm_compute in (Ascii.eqb x y) in
                      change (Ascii.eqb x y) with b; cbv iota
                  end;
           by rewrite Ha|]).
  by apply elem_of_nil in He.
Qed.

(** The name, the extension and the anchor are found as they stand when
    the anchor holds no ".". *)
Lemma match_name_exact (n e a T : string) :
  n ≠ "" → forallb name_char n = true → e ∈ extensions →
  forallb not_rparen a = true → (a = "" ∨ ∃ a', a = String "#" a') →
  existsb (Ascii.eqb ".") a = false →
  match_name (n +:+ String "." (e +:+ a +:+ String ")" T)) = Some (n, e, a, T).
Proof.
  intros Hne Hn He Ha Ha' Hdot.
  pose proof (match_anchors_complete a T Ha Ha') as Hanch.
  induction n as [|c n IH]; [done|].
  cbn [forallb] in Hn. apply andb_prop in Hn as [Hc Hn].
  rewrite sapp_cons. cbn [match_name]. rewrite Hc.
  destruct n as [|c' n].
  - rewrite sapp_nil_l.
    assert (match_name (String "." (e +:+ a +:+ String ")" T)) = None) as ->.
    { cbn [match_name]. change (name_char ".") with true. cbv iota.
      rewrite <- sapp_assoc, match_name_no_dot.
      - destruct e as [|x e]; [by apply extension_nonempty in He|].
        rewrite !sapp_cons. unfold match_dot_ext.
        pose proof (extension_no_dot _ He) as Hx. cbn [existsb] in Hx.
        apply orb_false_elim in Hx as [Hx%Ascii.eqb_neq _].
        destruct x as [[] [] [] [] [] [] [] []]; done.
      - by rewrite sexistsb_app, (extension_no_dot _ He). }
    change (match_dot_ext (String "." (e +:+ a +:+ String ")" T)))
      with (match_ext extensions (e +:+ a +:+ String ")" T)).
    by rewrite match_ext_exact.
  - by rewrite (IH ltac:(done) Hn).
Qed.

(** X1.  Whatever the pattern matches at the start of a text is a prefix
    of the text and has the shape of a link. *)
Theorem match_has_link_shape (s : string) (m : Match) (rest : string) :
  match_ s = Some (m, rest) → s = group0 m +:+ rest ∧ link_shaped m = true.
Proof.
  intros (-> & Hshape)%match_spec. split; [done|]. by apply link_shaped_spec.
Qed.

Lemma match_has_link_shape_witness :
  "[Link](notes.md#section-2) and more" = group0 notes_match +:+ " and more" ∧
  link_shaped notes_match = true.
Proof.
  apply (match_has_link_shape "[Link](notes.md#section-2) and more" notes_match " and more").
  vm_compute. reflexivity.
Defined.

(** X2.  Every text that has the shape of a link is matched in full,
    whatever text follows it, with its head and its label.  The name, the
    extension and the anchor are found as they stand when the anchor
    holds no "."; otherwise the name found may reach into the anchor. *)
Theorem link_shaped_is_matched (m : Match) (T : string) :
  link_shaped m = true →
  ∃ m',
    match_ (group0 m +:+ T) = Some (m', T) ∧
    group0 m' = group0 m ∧ link_head m' = link_head m ∧ group1 m' = group1 m ∧
    (existsb (Ascii.eqb ".") (anchor m) = false → m' = m).
Proof.
  intros (Hhead & Hne & Hn & He & Ha & Ha')%link_shaped_spec.
  set (v := group2 m).
  assert (forallb not_rparen v = true) as Hv.
  { unfold v, group2, group3. rewrite !sforallb_app.
    by rewrite (name_char_not_rparen _ Hn), (extension_not_rparen _ He), Ha. }
  assert (∀ X, match_head (link_head m +:+ X) = Some (link_head m, group1 m, X)) as Hhd.
  { intros X. destruct Hhead as [[-> ->]|(lab & -> & -> & Hlab & Hnb)].
    - apply match_head_image.
    - rewrite !sapp_assoc, match_head_label by done.
      destruct (String.eqb_spec lab ""); [done|]. by rewrite <- !sapp_assoc. }
  assert (group0 m +:+ T = link_head m +:+ "(" +:+ v +:+ ")" +:+ T) as ->.
  { unfold group0. fold v. by rewrite !sapp_assoc. }
  rewrite (match_at_head _ _ _ _ Hhd Hv).
  assert (v +:+ String ")" "" = name m +:+ String "." (group4 m +:+ anchor m +:+ String ")" ""))
    as Hvv by (unfold v, group2, group3; by norm_app).
  pose proof (match_anchors_complete (anchor m) "" Ha Ha') as Hanch.
  destruct (match_name (v +:+ String ")" "")) as [[[[n e] a] r]|] eqn:Hname.
  - eexists. split; [done|].
    pose proof Hname as Hspec. apply match_name_spec in Hspec as (Hvn & _).
    pose proof (match_name_rest v "" Hv) as Hr. rewrite Hname in Hr.
    cbn [set_rest4] in Hr. injection Hr as ->.
    assert (n +:+ "." +:+ e +:+ a = v) as Hnv.
    { apply (sapp_inv_tail _ _ (String ")" "")). rewrite Hvn. by norm_app. }
    split_and!; [|done|done|].
    + change (link_head m +:+ "(" +:+ ((n +:+ "." +:+ e) +:+ a) +:+ ")"
              = link_head m +:+ "(" +:+ v +:+ ")").
      rewrite <- Hnv. by norm_app.
    + intros Hdot. rewrite Hvv in Hname at 1.
      rewrite match_name_exact in Hname by done.
      injection Hname as <- <- <-. by destruct m.
  - rewrite Hvv in Hname.
    destruct (match_name_complete (name m) (group4 m) (anchor m +:+ String ")" "")
                Hne Hn He) as [x Hx]; [by rewrite Hanch|].
    congruence.
Qed.

Lemma link_shaped_is_matched_witness :
  ∃ m',
    match_ (group0 notes_match +:+ " and more") = Some (m', " and more") ∧
    group0 m' = group0 notes_match ∧ link_head m' = link_head notes_match ∧
    group1 m' = group1 notes_match ∧
    (existsb (Ascii.eqb ".") (anchor notes_match) = false → m' = notes_match).
Proof.
  apply (link_shaped_is_matched notes_match " and more").
  vm_compute. reflexivity.
Defined.

(** A name that reaches into the anchor: in "[Link](a.md#b.md)" the name
    found is "a.md#b" and the anchor is empty. *)
Example name_reaches_into_anchor :
  match_ "[Link](a.md#b.md)"
  = Some ({| link_head := "[Link]"; group1 := Some "Link"; name := "a.md#b";
             group4 := "md"; anchor := "" |}, "").
Proof. vm_compute. reflexivity. Qed.

End pattern_language.

(** ** What the scan recognises *)

Section scan_language.
Import PyStr re.

(** X3.  The match found at the start of a text is the match found at the
    start of its own text followed by any other text: what comes after a
    link plays no part in how the link is read. *)
Theorem match_is_local (s : string) (m : Match) (rest T : string) :
  match_ s = Some (m, rest) → match_ (group0 m +:+ T) = Some (m, T).
Proof. apply match_extend. Qed.

Lemma match_is_local_witness :
  match_ (group0 notes_match +:+ "](x.md)") = Some (notes_match, "](x.md)").
Proof.
  apply (match_is_local "[Link](notes.md#section-2) and more" notes_match " and more").
  vm_compute. reflexivity.
Defined.

(** X4.  A link whose target has a "/" before the first "#" or ")" is not
    matched, with either head: the name of a link cannot hold a "/", so a
    target that names a directory is left alone. *)
Theorem target_with_directory_not_matched (r x : string) :
  forallb plain_char r = true →
  match_ ("![]" +:+ "(" +:+ r +:+ String "/" x) = None ∧
  ∀ lab, forallb not_rbracket lab = true →
         match_ (("[" +:+ lab +:+ "]") +:+ "(" +:+ r +:+ String "/" x) = None.
Proof.
  intros Hr. pose proof (match_name_before_sep r x Hr) as Hname. split.
  - unfold match_. rewrite match_head_image.
    change ("(" +:+ r +:+ String "/" x) with (String "("%char (r +:+ String "/" x)).
    cbn -[match_name String.append]. by rewrite Hname.
  - intros lab Hlab. unfold match_. rewrite sapp_assoc, sapp_assoc, match_head_label by done.
    destruct (String.eqb lab ""); [done|].
    change ("(" +:+ r +:+ String "/" x) with (String "("%char (r +:+ String "/" x)).
    cbn -[match_name String.append]. by rewrite Hname.
Qed.

Lemma target_with_directory_not_matched_witness :
  match_ ("![]" +:+ "(" +:+ "img" +:+ String "/" "logo.png)") = None ∧
  ∀ lab, forallb not_rbracket lab = true →
         match_ (("[" +:+ lab +:+ "]") +:+ "(" +:+ "img" +:+ String "/" "logo.png)") = None.
Proof.
  apply (target_with_directory_not_matched "img" "logo.png)").
  vm_compute. reflexivity.
Defined.

Section with_replacer.
Context {S : Type}.
Variable repl : Match → M S string.

(** X5.  An image with an alternative text is read as a "!" followed by a
    link with a label: the scan copies the "!" and goes on at the "[",
    where the replacer gets the link as it gets any other. *)
Theorem image_with_alt_is_a_link (lab T : string) (st : S) :
  lab ≠ "" → forallb not_rbracket lab = true →
  match_ (String "!" (("[" +:+ lab +:+ "]") +:+ T)) = None ∧
  re.sub repl (String "!" (("[" +:+ lab +:+ "]") +:+ T)) st
  = prepend "!" (re.sub repl (("[" +:+ lab +:+ "]") +:+ T) st).
Proof.
  intros Hne Hlab.
  assert (match_ (String "!" (("[" +:+ lab +:+ "]") +:+ T)) = None) as Hnone
    by by apply match_bang, strip_empty_label_head.
  split; [done|]. by rewrite sub_skip.
Qed.

End with_replacer.

Lemma image_with_alt_is_a_link_witness :
  match_ (String "!" (("[" +:+ "logo" +:+ "]") +:+ "(notes.md)")) = None ∧
  re.sub (AutoLinkReplacer.__call__ "/" notes_replacer)
    (String "!" (("[" +:+ "logo" +:+ "]") +:+ "(notes.md)")) ∅
  = prepend "!" (re.sub (AutoLinkReplacer.__call__ "/" notes_replacer)
                   (("[" +:+ "logo" +:+ "]") +:+ "(notes.md)") ∅).
Proof.
  apply (image_with_alt_is_a_link (AutoLinkReplacer.__call__ "/" notes_replacer)
           "logo" "(notes.md)" ∅).
  - discriminate.
  - vm_compute. reflexivity.
Defined.

(** An image with an alternative text, on a page of [notes_site]. *)
Example image_with_alt_example :
  (AutoLinksPlugin.on_page_markdown "/" "![logo](notes.md)"
     (page_at "a/page.md" "/docs/a/page.md") docs_config notes_site
     AutoLinksPlugin.__init__).1 = Ok "![logo](../x/notes.md)".
Proof. vm_compute. reflexivity. Qed.

(** What the scan returns does not depend on the store when what the
    replacer returns does not. *)
Lemma sub_go_store_irrelevant {S} (repl : Match → M S string) (k : nat) (s : string)
    (st1 st2 : S) :
  (∀ m st1 st2, (repl m st1).1 = (repl m st2).1) →
  (sub_go repl k s st1).1 = (sub_go repl k s st2).1.
Proof.
  intros Hrepl. revert k st1 st2.
  induction s as [|c s IH]; intros k st1 st2; [done|].
  destruct k as [|k]; cbn [sub_go]; [|apply IH].
  destruct (match_ (String c s)) as [[m rest]|]; unfold bind, ret.
  - specialize (Hrepl m st1 st2).
    destruct (repl m st1) as [[r1|e1] st1'], (repl m st2) as [[r2|e2] st2'];
      simpl in Hrepl; try done.
    injection Hrepl as ->.
    specialize (IH (String.length (group0 m) - 1) st1' st2').
    destruct (sub_go repl _ s st1') as [[o1|e1] st1''],
             (sub_go repl _ s st2') as [[o2|e2] st2'']; simpl in *; congruence.
  - specialize (IH 0 st1 st2).
    destruct (sub_go repl 0 s st1) as [[o1|e1] st1'],
             (sub_go repl 0 s st2) as [[o2|e2] st2']; simpl in *; congruence.
Qed.

End scan_language.

(** ** The page hook over a whole page *)

Section whole_page.
Import PyStr posixpath urllib re.
Variable cwd : string.

(** The scan with a replacer that raises nothing: the replacer is called
    on the matches of [finditer], in their order, and nothing is
    raised. *)
Lemma sub_go_finditer {S} (repl : Match → M S string) (g : Match → string)
    (f : Match → S → S) (k : nat) (s : string) (st : S) :
  (∀ m st, repl m st = (Ok (g m), f m st)) →
  ∃ out, sub_go repl k s st = (Ok out, foldl (λ st m, f m st) st (finditer_go k s)) ∧
         ((∀ m, m ∈ finditer_go k s → g m = group0 m) → out = drop k s).
Proof.
  intros Hrepl. revert k st. induction s as [|c s IH]; intros k st.
  { exists "". split; [done|]. by destruct k. }
  destruct k as [|k]; cbn [sub_go finditer_go drop]; [|apply IH].
  destruct (match_ (String c s)) as [[m rest]|] eqn:Hm; unfold bind, ret.
  - rewrite Hrepl.
    destruct (IH (String.length (group0 m) - 1) (f m st)) as (out & -> & Hout).
    eexists. split; [done|]. intros Hg.
    rewrite Hout by (intros m' Hm'; apply Hg; by right).
    rewrite Hg by left.
    apply match_spec in Hm as [Hs _]. rewrite Hs.
    pose proof (group0_length_pos m) as Hpos.
    destruct (group0 m) as [|c' g0] eqn:Hg0; [simpl in Hpos; lia|].
    rewrite sapp_cons in Hs. injection Hs as -> ->.
    cbn [String.length]. rewrite Nat.sub_1_r. cbn [Nat.pred].
    by rewrite sapp_cons, sdrop_app_length.
  - destruct (IH 0 st) as (out & -> & Hout).
    eexists. split; [done|]. intros Hg. by rewrite (Hout Hg).
Qed.

(** What the call returns and what it does to the registry, for a
    replacer with an index of non-empty paths on a page with a non-empty
    path. *)
Lemma call_total (self : AutoLinkReplacer.t) (index : gmap string string) (m : Match)
    (missing : gmap string Counter) :
  AutoLinkReplacer.filename_to_abs_path self = Some index →
  AutoLinkReplacer.abs_page_path self ≠ "" →
  map_Forall (λ (_ : string) (p : string), p ≠ "") index →
  AutoLinkReplacer.__call__ cwd self m missing =
    (Ok (match index !! strip (group3 m) with
         | Some abs_link_path =>
             replace (group0 m) (group3 m)
               (quote (rel_to cwd (dirname (AutoLinkReplacer.abs_page_path self))
                         abs_link_path))
         | None => group0 m
         end),
     match index !! strip (group3 m) with
     | Some _ => missing
     | None =>
         AutoLinkReplacer.count_missing (strip (group3 m))
           (rel_to cwd (AutoLinkReplacer.base_docs_dir self)
                   (AutoLinkReplacer.abs_page_path self)) missing
     end).
Proof.
  intros Hidx Hpage Hpaths.
  destruct (index !! strip (group3 m)) as [p|] eqn:Hp.
  - apply (call_hit cwd self m index p missing Hidx Hp). by apply (Hpaths _ _ Hp).
  - apply (call_miss cwd self m index missing Hidx Hp Hpage).
Qed.

(** The counts after a run of calls. *)
Lemma missing_count_foldl (index : gmap string string) (rel : string) (ms : list Match)
    (missing : gmap string Counter) (f ref : string) :
  missing_count
    (foldl (λ st m, match index !! strip (group3 m) with
                    | Some _ => st
                    | None => AutoLinkReplacer.count_missing (strip (group3 m)) rel st
                    end) missing ms) f ref
  = missing_count missing f ref
    + (if decide (ref = rel)
       then length (filter (λ k, k = f)
                      (filter (λ k, index !! k = None)
                         ((λ m, strip (group3 m)) <$> ms)))
       else 0).
Proof.
  revert missing. induction ms as [|m ms IH]; intros missing.
  { simpl. destruct (decide _); lia. }
  cbn [foldl]. rewrite IH, fmap_cons.
  destruct (index !! strip (group3 m)) as [p|] eqn:Hp.
  - rewrite filter_cons_False by (by rewrite Hp). done.
  - rewrite filter_cons_True by done.
    destruct (decide (ref = rel)) as [->|Href].
    + destruct (decide (strip (group3 m) = f)) as [<-|Hf].
      * rewrite filter_cons_True by done. rewrite missing_count_count_missing.
        simpl. lia.
      * rewrite filter_cons_False by done.
        rewrite missing_count_count_missing_ne by congruence. done.
    + rewrite missing_count_count_missing_ne by congruence. done.
Qed.

(** A call of the page hook is a call on a plugin that has its index and
    the same registry of missing names: the plugin itself, or the plugin
    with the index built from the files. *)
Lemma on_page_markdown_ready (markdown : string) (page : Page) (config : Config)
    (files : list File) (self : AutoLinksPlugin.t) :
  Forall (λ f, abs_src_path f ≠ "") files →
  index_paths_nonempty self →
  ∃ self' index,
    AutoLinksPlugin.filename_to_abs_path self' = Some index ∧
    map_Forall (λ (_ : string) (p : string), p ≠ "") index ∧
    AutoLinksPlugin.missing_filenames self' = AutoLinksPlugin.missing_filenames self ∧
    AutoLinksPlugin.on_page_markdown cwd markdown page config files self
    = AutoLinksPlugin.on_page_markdown cwd markdown page config files self'.
Proof.
  intros Hfiles Hpaths.
  destruct (AutoLinksPlugin.filename_to_abs_path self) as [index|] eqn:Hidx.
  - exists self, index. split_and!; [done| |done..]. by apply Hpaths.
  - destruct (on_page_markdown_first cwd markdown page config files self Hidx Hfiles)
      as (self' & index & Hinit & Hidx' & Hindex & Heq).
    exists self', index. split_and!; [done| | |done].
    + intros b p. rewrite Hindex.
      destruct (named b files) as [|f0 tl] eqn:Hnamed; [done|]. intros [= <-].
      assert (f0 ∈ named b files) as Hin by (rewrite Hnamed; left).
      apply list_elem_of_filter in Hin as [_ Hin].
      by apply (proj1 (Forall_forall _ _) Hfiles).
    + by apply (init_missing cwd files (docs_dir config) self self' Hfiles).
Qed.

(** The page hook on a plugin that has its index, in terms of the
    matches of [finditer]. *)
Lemma on_page_markdown_finditer (markdown : string) (page : Page) (config : Config)
    (files : list File) (self : AutoLinksPlugin.t) (index : gmap string string) :
  AutoLinksPlugin.filename_to_abs_path self = Some index →
  map_Forall (λ (_ : string) (p : string), p ≠ "") index →
  abs_src_path (file page) ≠ "" →
  ∃ out,
    AutoLinksPlugin.on_page_markdown cwd markdown page config files self =
      (Ok out,
       AutoLinksPlugin.set_missing_filenames
         (foldl (λ st m, match index !! strip (group3 m) with
                         | Some _ => st
                         | None =>
                             AutoLinkReplacer.count_missing (strip (group3 m))
                               (rel_to cwd (docs_dir config) (abs_src_path (file page))) st
                         end)
            (AutoLinksPlugin.missing_filenames self) (finditer markdown)) self) ∧
    (Forall (λ m, index !! strip (group3 m) = None) (finditer markdown) → out = markdown).
Proof.
  intros Hidx Hpaths Hpage.
  rewrite (on_page_markdown_initialized _ _ _ _ _ _ _ Hidx).
  set (replacer := {| AutoLinkReplacer.base_docs_dir := docs_dir config;
                      AutoLinkReplacer.abs_page_path := abs_src_path (file page);
                      AutoLinkReplacer.filename_to_abs_path := Some index |}).
  destruct (sub_go_finditer (AutoLinkReplacer.__call__ cwd replacer) _ _ 0 markdown
              (AutoLinksPlugin.missing_filenames self)
              (λ m st, call_total replacer index m st eq_refl Hpage Hpaths))
    as (out & Hsub & Hout).
  exists out. unfold re.sub. rewrite Hsub. split; [done|].
  intros Hmiss. apply Hout. intros m Hm.
  by rewrite (proj1 (Forall_forall _ _) Hmiss m Hm).
Qed.

(** X6.  A call of the page hook with files and a page of non-empty
    paths raises nothing, and what it adds to the registry of missing
    names is one count for each link of the page whose trimmed name is no
    key of the index, under that name and the path of the page relative
    to the documents directory; no other count changes. *)
Theorem unresolved_links_counted_once (markdown : string) (page : Page) (config : Config)
    (files : list File) (self self' : AutoLinksPlugin.t) (r : result string)
    (index : gmap string string) :
  Forall (λ f, abs_src_path f ≠ "") files →
  index_paths_nonempty self →
  abs_src_path (file page) ≠ "" →
  AutoLinksPlugin.on_page_markdown cwd markdown page config files self = (r, self') →
  AutoLinksPlugin.filename_to_abs_path self' = Some index →
  ∃ out rel_page_path,
    r = Ok out ∧
    relpath cwd (abs_src_path (file page)) (docs_dir config) = Ok rel_page_path ∧
    index_paths_nonempty self' ∧
    ∀ f ref,
      missing_count (AutoLinksPlugin.missing_filenames self') f ref
      = missing_count (AutoLinksPlugin.missing_filenames self) f ref
        + (if decide (ref = rel_page_path)
           then length (filter (λ k, k = f) (unresolved index markdown))
           else 0).
Proof.
  intros Hfiles Hpaths Hpage Hrun Hidx'.
  destruct (on_page_markdown_ready markdown page config files self Hfiles Hpaths)
    as (self1 & index1 & Hidx1 & Hpaths1 & Hmissing & Heq).
  destruct (on_page_markdown_finditer markdown page config files self1 index1
              Hidx1 Hpaths1 Hpage) as (out & Hrun1 & _).
  rewrite Heq, Hrun1 in Hrun. injection Hrun as <- <-.
  cbn [AutoLinksPlugin.set_missing_filenames AutoLinksPlugin.filename_to_abs_path] in Hidx'.
  assert (index1 = index) as -> by congruence.
  exists out, (rel_to cwd (docs_dir config) (abs_src_path (file page))).
  split_and!; [done|by apply relpath_nonempty| |].
  - intros index' Hindex'.
    cbn [AutoLinksPlugin.set_missing_filenames AutoLinksPlugin.filename_to_abs_path]
      in Hindex'.
    by assert (index' = index) as -> by congruence.
  - intros f ref.
    cbn [AutoLinksPlugin.set_missing_filenames AutoLinksPlugin.missing_filenames].
    by rewrite missing_count_foldl, Hmissing.
Qed.

(** X7.  On a page with a non-empty path, when the trimmed name of no
    link of the page is a key of the index, the page hook returns the
    page as it is. *)
Theorem page_of_unresolved_links_unchanged (markdown : string) (page : Page)
    (config : Config) (files : list File) (self : AutoLinksPlugin.t)
    (index : gmap string string) :
  AutoLinksPlugin.filename_to_abs_path self = Some index →
  abs_src_path (file page) ≠ "" →
  Forall (λ m, index !! strip (group3 m) = None) (finditer markdown) →
  (AutoLinksPlugin.on_page_markdown cwd markdown page config files self).1 = Ok markdown.
Proof.
  intros Hidx Hpage Hmiss.
  rewrite (on_page_markdown_initialized _ _ _ _ _ _ _ Hidx).
  set (replacer := {| AutoLinkReplacer.base_docs_dir := docs_dir config;
                      AutoLinkReplacer.abs_page_path := abs_src_path (file page);
                      AutoLinkReplacer.filename_to_abs_path := Some index |}).
  set (missing := AutoLinksPlugin.missing_filenames self).
  assert (∀ k st, Forall (λ m, index !! strip (group3 m) = None) (finditer_go k markdown) →
            (sub_go (AutoLinkReplacer.__call__ cwd replacer) k markdown st).1
            = Ok (drop k markdown)) as Hsub.
  { clear Hmiss. generalize markdown. clear markdown.
    induction markdown as [|c s IH]; intros k st Hmiss; [by destruct k|].
    destruct k as [|k]; cbn [sub_go finditer_go drop] in *; [|by apply IH].
    destruct (match_ (String c s)) as [[m rest]|] eqn:Hm; unfold bind, ret.
    - apply Forall_cons in Hmiss as [Hmiss1 Hmiss].
      rewrite (call_miss cwd replacer m index st eq_refl Hmiss1 Hpage).
      specialize (IH (String.length (group0 m) - 1)
                     (AutoLinkReplacer.count_missing (strip (group3 m))
                        (rel_to cwd (docs_dir config) (abs_src_path (file page))) st) Hmiss).
      cbn [AutoLinkReplacer.base_docs_dir AutoLinkReplacer.abs_page_path replacer].
      destruct (sub_go _ _ s _) as [[out|e] st']; simpl in IH; [|done].
      injection IH as ->. simpl. f_equal.
      apply match_spec in Hm as [Hs _]. rewrite Hs.
      pose proof (group0_length_pos m) as Hpos.
      destruct (group0 m) as [|c' g0] eqn:Hg0; [simpl in Hpos; lia|].
      rewrite sapp_cons in Hs. injection Hs as -> ->.
      cbn [String.length]. rewrite Nat.sub_1_r. cbn [Nat.pred].
      by rewrite sapp_cons, sdrop_app_length.
    - specialize (IH 0 st Hmiss).
      destruct (sub_go _ 0 s st) as [[out|e] st']; simpl in IH; [|done].
      by injection IH as ->. }
  specialize (Hsub 0 missing Hmiss). unfold re.sub.
  by destruct (sub_go _ 0 markdown missing).
Qed.

End whole_page.

Section whole_page_witnesses.
Import PyStr posixpath urllib re.

Lemma unresolved_links_counted_once_witness :
  let page := page_at "a/page.md" "/docs/a/page.md" in
  let markdown := "[a](ghost.md) [b](notes.md) ![](ghost.md)" in
  let index : gmap string string :=
    {[ "notes.md" := "/docs/x/notes.md"; "page.md" := "/docs/a/page.md" ]} in
  let run :=
    AutoLinksPlugin.on_page_markdown "/" markdown page docs_config notes_site
      AutoLinksPlugin.__init__ in
  ∃ out rel_page_path,
    run.1 = Ok out ∧
    relpath "/" (abs_src_path (file page)) (docs_dir docs_config) = Ok rel_page_path ∧
    index_paths_nonempty run.2 ∧
    ∀ f ref,
      missing_count (AutoLinksPlugin.missing_filenames run.2) f ref
      = missing_count (AutoLinksPlugin.missing_filenames AutoLinksPlugin.__init__) f ref
        + (if decide (ref = rel_page_path)
           then length (filter (λ k, k = f) (unresolved index markdown))
           else 0).
Proof.
  intros page markdown index run.
  apply (unresolved_links_counted_once "/" markdown page docs_config notes_site
           AutoLinksPlugin.__init__ run.2 run.1 index).
  - repeat constructor; discriminate.
  - intros ? [=].
  - discriminate.
  - apply surjective_pairing.
  - vm_compute. reflexivity.
Defined.

(** The page of the witness: two links to "ghost.md", which no file has,
    and what the registry holds after the page. *)
Example ghost_counted_twice :
  let page := page_at "a/page.md" "/docs/a/page.md" in
  let markdown := "[a](ghost.md) [b](notes.md) ![](ghost.md)" in
  let run :=
    AutoLinksPlugin.on_page_markdown "/" markdown page docs_config notes_site
      AutoLinksPlugin.__init__ in
  unresolved {[ "notes.md" := "/docs/x/notes.md"; "page.md" := "/docs/a/page.md" ]} markdown
    = ["ghost.md"; "ghost.md"] ∧
  run.1 = Ok "[a](ghost.md) [b](../x/notes.md) ![](ghost.md)" ∧
  map_to_list (AutoLinksPlugin.missing_filenames run.2) = [("ghost.md", [("a/page.md", 2)])].
Proof. vm_compute. split_and!; reflexivity. Qed.

Lemma page_of_unresolved_links_unchanged_witness :
  (AutoLinksPlugin.on_page_markdown "/" "![](ghost.png) and [g](ghost.md#top)"
     (page_at "a/page.md" "/docs/a/page.md") docs_config [] notes_plugin).1
  = Ok "![](ghost.png) and [g](ghost.md#top)".
Proof.
  apply (page_of_unresolved_links_unchanged "/" "![](ghost.png) and [g](ghost.md#top)"
           (page_at "a/page.md" "/docs/a/page.md") docs_config [] notes_plugin
           {[ "notes.md" := "/docs/x/notes.md"; "page.md" := "/docs/a/page.md" ]}).
  - reflexivity.
  - discriminate.
  - refine (bool_decide_unpack _ _). vm_compute. exact I.
Defined.

End whole_page_witnesses.

(** ** The second pass over a whole page *)

Section second_pass_whole_page.
Import PyStr posixpath urllib re.
Variable cwd : string.







End second_pass_whole_page.

Section second_pass_whole_page_witnesses.
Import PyStr posixpath urllib re.


(** The page of the witness.  The first pass rewrites the link to
    "notes.md", which lies in another directory; in the text it returns,
    the check box, the footnote mark, the link to another site and the
    link it rewrote are no links for the pattern, and the two links that
    are recognised are settled: the link to the page beside the linking
    page, and the image that no file has.  The second pass returns the
    text as it is and counts the image once more. *)
Example mixed_page_passes :
  let page := page_at "a/page.md" "/docs/a/page.md" in
  let '(r1, self1) :=
    AutoLinksPlugin.on_page_markdown "/" mixed_page page docs_config mixed_site
      AutoLinksPlugin.__init__ in
  let '(r2, self2) :=
    AutoLinksPlugin.on_page_markdown "/" mixed_page_rewritten page docs_config mixed_site
      self1 in
  r1 = Ok mixed_page_rewritten ∧
  AutoLinksPlugin.filename_to_abs_path self1 = Some mixed_index ∧
  (λ m, (group0 m, settled_link "/" page mixed_index m)) <$> finditer mixed_page_rewritten
    = [("[s](sibling.md)", true); ("![](ghost.png)", true)] ∧
  r2 = Ok mixed_page_rewritten ∧
  map_to_list (AutoLinksPlugin.missing_filenames self1) = [("ghost.png", [("a/page.md", 1)])] ∧
  map_to_list (AutoLinksPlugin.missing_filenames self2) = [("ghost.png", [("a/page.md", 2)])].
Proof. vm_compute. split_and!; reflexivity. Qed.

(** The text that the first pass returns on the page "/docs/p.md" of
    [percent_site] for "[x](a b.md)": its link is recognised, its name is
    a key of the index, and it is not settled. *)
Example percent_link_not_settled :
  let page := page_at "p.md" "/docs/p.md" in
  let self1 :=
    (AutoLinksPlugin.on_page_markdown "/" "[x](a b.md)" page docs_config percent_site
       AutoLinksPlugin.__init__).2 in
  ∃ index,
    AutoLinksPlugin.filename_to_abs_path self1 = Some index ∧
    (λ m, (group0 m, index !! strip (group3 m), settled_link "/" page index m))
      <$> finditer "[x](a%20b.md)"
    = [("[x](a%20b.md)", Some "/docs/sub/a%20b.md", false)].
Proof. eexists. vm_compute. split; reflexivity. Qed.

End second_pass_whole_page_witnesses.

(** ** The registry of missing names across a call of the page hook *)

Section registry.
Import PyStr posixpath urllib re.
Variable cwd : string.

(** What holds of the registry of missing names and is kept by one more
    count holds after the page hook, whatever it returns or raises. *)
Lemma on_page_markdown_missing_invariant (P : gmap string Counter → Prop)
    (markdown : string) (page : Page) (config : Config) (files : list File)
    (self : AutoLinksPlugin.t) :
  (∀ filename ref missing,
     P missing → P (AutoLinkReplacer.count_missing filename ref missing)) →
  P (AutoLinksPlugin.missing_filenames self) →
  P (AutoLinksPlugin.missing_filenames
       (AutoLinksPlugin.on_page_markdown cwd markdown page config files self).2).
Proof.
  intros Hcount HP. unfold AutoLinksPlugin.on_page_markdown, bind.
  set (init := match AutoLinksPlugin.filename_to_abs_path self with
               | None => _ | Some _ => _ end).
  assert (P (AutoLinksPlugin.missing_filenames init.2)) as Hinit.
  { subst init. destruct (AutoLinksPlugin.filename_to_abs_path self); [done|].
    unfold AutoLinksPlugin.init_filename_to_abs_path, bind, modify.
    apply (for_each_invariant (λ st, P (AutoLinksPlugin.missing_filenames st))); [|done].
    intros f st Hst. by rewrite init_step_missing. }
  destruct init as [[[]|e] self']; [|done]. simpl in Hinit.
  set (replacer := {| AutoLinkReplacer.base_docs_dir := docs_dir config;
                      AutoLinkReplacer.abs_page_path := abs_src_path (file page);
                      AutoLinkReplacer.filename_to_abs_path :=
                        AutoLinksPlugin.filename_to_abs_path self' |}).
  assert (∀ m st, P st → P (AutoLinkReplacer.__call__ cwd replacer m st).2) as Hcall.
  { intros m st Hst. unfold AutoLinkReplacer.__call__.
    destruct (AutoLinkReplacer.filename_to_abs_path replacer) as [index|]; [|done].
    destruct (index !! strip (group3 m)) as [p|]; unfold bind, lift, modify, ret.
    - by destruct (relpath cwd p _).
    - destruct (relpath cwd _ _); [|done]. by apply Hcount. }
  pose proof (sub_go_invariant P (AutoLinkReplacer.__call__ cwd replacer)
                0 markdown (AutoLinksPlugin.missing_filenames self') Hcall Hinit) as Hsub.
  unfold re.sub. by destruct (sub_go _ 0 markdown _).
Qed.

(** X8.  Whatever the page hook returns or raises, no count of the
    registry of missing names is lower after the call than before it. *)
Theorem counts_never_decrease (markdown : string) (page : Page) (config : Config)
    (files : list File) (self : AutoLinksPlugin.t) (f ref : string) :
  missing_count (AutoLinksPlugin.missing_filenames self) f ref
  ≤ missing_count
      (AutoLinksPlugin.missing_filenames
         (AutoLinksPlugin.on_page_markdown cwd markdown page config files self).2) f ref.
Proof.
  apply (on_page_markdown_missing_invariant
           (λ missing, missing_count (AutoLinksPlugin.missing_filenames self) f ref
                       ≤ missing_count missing f ref)); [|done].
  intros filename ref' missing Hle.
  destruct (decide ((f, ref) = (filename, ref'))) as [[= -> ->]|Hne].
  - rewrite missing_count_count_missing. lia.
  - by rewrite missing_count_count_missing_ne.
Qed.

(** X9.  The page hook keeps the keys of every counter of the registry
    distinct, whatever it returns or raises: the counters of a plugin
    are dictionaries at every point of a build. *)
Theorem counter_keys_stay_distinct (markdown : string) (page : Page) (config : Config)
    (files : list File) (self : AutoLinksPlugin.t) :
  counters_wf (AutoLinksPlugin.missing_filenames self) →
  counters_wf (AutoLinksPlugin.missing_filenames
                 (AutoLinksPlugin.on_page_markdown cwd markdown page config files self).2).
Proof.
  apply (on_page_markdown_missing_invariant counters_wf).
  intros filename ref missing. apply count_missing_wf.
Qed.

Lemma call_ignores_registry (self : AutoLinkReplacer.t) (m : Match)
    (missing1 missing2 : gmap string Counter) :
  (AutoLinkReplacer.__call__ cwd self m missing1).1
  = (AutoLinkReplacer.__call__ cwd self m missing2).1.
Proof.
  unfold AutoLinkReplacer.__call__.
  destruct (AutoLinkReplacer.filename_to_abs_path self) as [index|]; [|done].
  destruct (index !! strip (group3 m)) as [p|]; unfold bind, lift, modify, ret.
  - by destruct (relpath cwd p _).
  - by destruct (relpath cwd _ _).
Qed.

(** X10.  With an index in place, what the page hook returns for a page
    does not depend on what the registry of missing names holds. *)
Theorem rewriting_ignores_registry (markdown : string) (page : Page) (config : Config)
    (files : list File) (self : AutoLinksPlugin.t) (index : gmap string string)
    (missing : gmap string Counter) :
  AutoLinksPlugin.filename_to_abs_path self = Some index →
  (AutoLinksPlugin.on_page_markdown cwd markdown page config files
     (AutoLinksPlugin.set_missing_filenames missing self)).1
  = (AutoLinksPlugin.on_page_markdown cwd markdown page config files self).1.
Proof.
  intros Hidx.
  rewrite (on_page_markdown_initialized _ _ _ _ _ _ _ Hidx).
  rewrite (on_page_markdown_initialized cwd markdown page config files
             (AutoLinksPlugin.set_missing_filenames missing self) index Hidx).
  cbn [AutoLinksPlugin.set_missing_filenames AutoLinksPlugin.missing_filenames].
  set (replacer := {| AutoLinkReplacer.base_docs_dir := docs_dir config;
                      AutoLinkReplacer.abs_page_path := abs_src_path (file page);
                      AutoLinkReplacer.filename_to_abs_path := Some index |}).
  pose proof (sub_go_store_irrelevant (AutoLinkReplacer.__call__ cwd replacer) 0 markdown
                missing (AutoLinksPlugin.missing_filenames self)
                (call_ignores_registry replacer)) as Hsub.
  unfold re.sub.
  by destruct (sub_go _ 0 markdown missing), (sub_go _ 0 markdown _).
Qed.

End registry.

Section registry_witnesses.

Lemma counter_keys_stay_distinct_witness :
  counters_wf
    (AutoLinksPlugin.missing_filenames
       (AutoLinksPlugin.on_page_markdown "/" "[a](ghost.md) ![](ghost.md)"
          (page_at "a/page.md" "/docs/a/page.md") docs_config notes_site
          AutoLinksPlugin.__init__).2).
Proof.
  apply (counter_keys_stay_distinct "/" "[a](ghost.md) ![](ghost.md)"
           (page_at "a/page.md" "/docs/a/page.md") docs_config notes_site
           AutoLinksPlugin.__init__).
  apply map_Forall_empty.
Defined.

Lemma rewriting_ignores_registry_witness :
  (AutoLinksPlugin.on_page_markdown "/" "[a](ghost.md) [b](notes.md)"
     (page_at "a/page.md" "/docs/a/page.md") docs_config []
     (AutoLinksPlugin.set_missing_filenames {[ "ghost.md" := [("a/page.md", 3)] ]}
        notes_plugin)).1
  = (AutoLinksPlugin.on_page_markdown "/" "[a](ghost.md) [b](notes.md)"
       (page_at "a/page.md" "/docs/a/page.md") docs_config [] notes_plugin).1.
Proof.
  apply (rewriting_ignores_registry "/" "[a](ghost.md) [b](notes.md)"
           (page_at "a/page.md" "/docs/a/page.md") docs_config [] notes_plugin
           {[ "notes.md" := "/docs/x/notes.md"; "page.md" := "/docs/a/page.md" ]}
           {[ "ghost.md" := [("a/page.md", 3)] ]}).
  reflexivity.
Defined.

End registry_witnesses.

(** ** Paths of clean components *)

Section clean_paths.
Import PyStr posixpath.

Lemma pjoin_cons (sep x : string) (l : list string) :
  l ≠ [] → PyStr.join sep (x :: l) = x +:+ sep +:+ PyStr.join sep l.
Proof. by destruct l. Qed.

Lemma pjoin_snoc (sep : string) (l : list string) (x : string) :
  l ≠ [] → PyStr.join sep (l ++ [x]) = PyStr.join sep l +:+ sep +:+ x.
Proof.
  induction l as [|y l IH]; [done|]. intros _.
  destruct l as [|z l]; [done|].
  change ((y :: z :: l) ++ [x]) with (y :: ((z :: l) ++ [x])).
  rewrite (pjoin_cons sep y ((z :: l) ++ [x])) by done.
  rewrite IH by done. rewrite (pjoin_cons sep y (z :: l)) by done.
  by rewrite !sapp_assoc.
Qed.

Lemma split_sep_no_sep (s : string) : has_sep s = false → split_sep s = [s].
Proof.
  unfold has_sep. induction s as [|c s IH]; [done|]. cbn [existsb split_sep].
  intros [Hc Hs]%orb_false_elim. by rewrite Hc, (IH Hs).
Qed.

Lemma split_sep_app (a b : string) :
  has_sep a = false → split_sep (a +:+ String "/" b) = a :: split_sep b.
Proof.
  unfold has_sep. induction a as [|c a IH]; [done|]. cbn [existsb].
  intros [Hc Ha]%orb_false_elim. rewrite sapp_cons. cbn [split_sep].
  by rewrite Hc, (IH Ha).
Qed.

(** [split] undoes [join]. *)
Lemma split_sep_join (cs : list string) :
  cs ≠ [] → Forall (λ c, has_sep c = false) cs → split_sep (PyStr.join "/" cs) = cs.
Proof.
  induction cs as [|c cs IH]; [done|]. intros _ [Hc Hcs]%Forall_cons.
  destruct cs as [|c' cs]; [by apply split_sep_no_sep|].
  rewrite (pjoin_cons "/" c (c' :: cs)) by done.
  change ("/" +:+ PyStr.join "/" (c' :: cs)) with (String "/"%char (PyStr.join "/" (c' :: cs))).
  rewrite split_sep_app by done. by rewrite IH.
Qed.

Lemma split_sep_components (s : string) : Forall (λ c, has_sep c = false) (split_sep s).
Proof.
  induction s as [|c s IH]; [by repeat constructor|]. cbn [split_sep].
  destruct (is_sep c) eqn:Hc; [by constructor|].
  destruct (split_sep s) as [|x l]; [by repeat constructor; cbn; rewrite Hc|].
  apply Forall_cons in IH as [Hx Hl]. constructor; [|done].
  unfold has_sep in *. cbn [existsb]. by rewrite Hc, Hx.
Qed.

Lemma clean_comp_spec (c : string) :
  clean_comp c = true ↔ c ≠ "" ∧ has_sep c = false ∧ c ≠ "." ∧ c ≠ "..".
Proof.
  unfold clean_comp. rewrite !andb_true_iff, !negb_true_iff, !String.eqb_neq. tauto.
Qed.

Lemma clean_no_sep (cs : list string) :
  Forall (λ c, clean_comp c = true) cs → Forall (λ c, has_sep c = false) cs.
Proof.
  intros H. apply (Forall_impl _ _ _ H). by intros c (_ & ? & _)%clean_comp_spec.
Qed.

Lemma clean_nonempty (cs : list string) :
  Forall (λ c, clean_comp c = true) cs → List.filter nonempty cs = cs.
Proof.
  induction 1 as [|c cs Hc _ IH]; [done|]. cbn [List.filter].
  apply clean_comp_spec in Hc as (Hc & _). unfold nonempty at 1.
  apply String.eqb_neq in Hc. by rewrite Hc, IH.
Qed.

Lemma split_sep_abs_of (cs : list string) :
  Forall (λ c, has_sep c = false) cs →
  split_sep (abs_of cs) = "" :: (if bool_decide (cs = []) then [""] else cs).
Proof.
  intros Hcs. unfold abs_of.
  change ("/" +:+ PyStr.join "/" cs) with ("" +:+ String "/"%char (PyStr.join "/" cs)).
  rewrite split_sep_app by done. f_equal.
  destruct cs as [|c cs]; [done|]. by rewrite split_sep_join.
Qed.

(** The loop of [normpath] over components without "." and "..". *)
Lemma normpath_clean_comps (n : nat) (acc cs : list string) :
  Forall (λ c, clean_comp c = true) cs →
  foldl (normpath_step n) acc cs = acc ++ cs.
Proof.
  intros Hcs. revert acc. induction Hcs as [|c cs Hc _ IH]; intros acc.
  { by rewrite app_nil_r. }
  cbn [foldl]. rewrite IH.
  assert (normpath_step n acc c = acc ++ [c]) as ->; [|by rewrite <- app_assoc].
  apply clean_comp_spec in Hc as (H1 & _ & H2 & H3).
  unfold normpath_step.
  apply String.eqb_neq in H1, H2, H3. by rewrite H1, H2, H3.
Qed.

(** The loop of [normpath] of an absolute path over ".." after clean
    components: each ".." takes the last component away. *)
Lemma normpath_pardirs (acc : list string) (k : nat) :
  Forall (λ c, clean_comp c = true) acc →
  foldl (normpath_step 1) acc (replicate k "..") = take (length acc - k) acc.
Proof.
  revert acc. induction k as [|k IH]; intros acc Hacc.
  { by rewrite Nat.sub_0_r, firstn_all. }
  cbn [replicate foldl].
  assert (normpath_step 1 acc ".." = removelast acc) as ->.
  { unfold normpath_step. cbn [String.eqb Ascii.eqb Bool.eqb negb orb andb Nat.eqb].
    destruct acc as [|a acc] using rev_ind; [done|].
    rewrite last_snoc.
    apply Forall_app in Hacc as [_ [Ha _]%Forall_cons].
    apply clean_comp_spec in Ha as (_ & _ & _ & Ha).
    rewrite (bool_decide_eq_false_2 (Some a = Some "..")) by congruence.
    by rewrite andb_false_r. }
  destruct acc as [|a acc _] using rev_ind.
  { cbn. clear. induction k; [done|]. cbn [replicate foldl]. done. }
  rewrite removelast_last, IH by (by apply Forall_app in Hacc as [? _]).
  rewrite length_app. cbn [length].
  replace (length acc + 1 - S k) with (length acc - k) by lia.
  rewrite take_app_le by lia. done.
Qed.

(** A component that is not empty and holds no "/". *)
Lemma pjoin_head (x : ascii) (c : string) (cs : list string) :
  ∃ r, PyStr.join "/" (String x c :: cs) = String x r.
Proof.
  destruct cs as [|c' cs]; [by exists c|].
  rewrite (pjoin_cons "/" (String x c) (c' :: cs)) by done. rewrite sapp_cons. eauto.
Qed.

Lemma no_sep_head (x : ascii) (c : string) :
  has_sep (String x c) = false → is_sep x = false.
Proof. unfold has_sep. cbn [existsb]. by intros [? _]%orb_false_elim. Qed.

Lemma join_not_abs (cs : list string) :
  Forall (λ c, c ≠ "" ∧ has_sep c = false) cs →
  startswith "/" (PyStr.join "/" cs) = false.
Proof.
  intros Hcs. destruct cs as [|c cs]; [done|].
  apply Forall_cons in Hcs as [[Hne Hc] _]. destruct c as [|x c]; [done|].
  destruct (pjoin_head x c cs) as [r ->]. apply no_sep_head in Hc.
  unfold startswith. cbn [String.prefix].
  destruct (ascii_dec "/" x) as [<-|]; [done|]. done.
Qed.

Lemma abs_of_cons (cs : list string) : abs_of cs = String "/" (PyStr.join "/" cs).
Proof. done. Qed.

Lemma abs_of_isabs (cs : list string) : isabs (abs_of cs) = true.
Proof.
  rewrite abs_of_cons. unfold isabs, startswith. cbn [sep String.prefix].
  destruct (ascii_dec "/" "/"); [|done]. by destruct (PyStr.join "/" cs).
Qed.

Lemma abs_of_one_slash (cs : list string) :
  Forall (λ c, c ≠ "" ∧ has_sep c = false) cs → startswith "//" (abs_of cs) = false.
Proof.
  intros Hcs. pose proof (join_not_abs cs Hcs) as Hj.
  rewrite abs_of_cons. unfold startswith in *.
  cbn [String.prefix]. destruct (ascii_dec "/" "/"); [|done].
  by destruct (PyStr.join "/" cs).
Qed.

(** [normpath] of an absolute path given by its components. *)
Lemma normpath_abs_of (cs : list string) :
  Forall (λ c, c ≠ "" ∧ has_sep c = false) cs →
  normpath (abs_of cs) = abs_of (foldl (normpath_step 1) [] cs).
Proof.
  intros Hcs. unfold normpath.
  assert (String.eqb (abs_of cs) "" = false) as -> by by rewrite abs_of_cons.
  assert (startswith "/" (abs_of cs) = true) as -> by apply abs_of_isabs.
  rewrite (abs_of_one_slash cs Hcs). cbn [andb].
  rewrite split_sep_abs_of
    by (apply (Forall_impl _ _ _ Hcs); by intros c [_ ?]).
  assert (foldl (normpath_step 1) [] ("" :: (if bool_decide (cs = []) then [""] else cs))
          = foldl (normpath_step 1) [] cs) as ->.
  { destruct cs as [|c cs]; [done|]. done. }
  done.
Qed.

Lemma clean_good (cs : list string) :
  Forall (λ c, clean_comp c = true) cs → Forall (λ c, c ≠ "" ∧ has_sep c = false) cs.
Proof.
  intros H. apply (Forall_impl _ _ _ H). by intros c (? & ? & _)%clean_comp_spec.
Qed.

(** A path of clean components is normalised already. *)
Lemma normpath_clean (cs : list string) :
  Forall (λ c, clean_comp c = true) cs → normpath (abs_of cs) = abs_of cs.
Proof.
  intros Hcs. rewrite normpath_abs_of by by apply clean_good.
  by rewrite normpath_clean_comps.
Qed.

Section with_cwd.
Variable cwd : string.

Lemma abspath_clean (cs : list string) :
  Forall (λ c, clean_comp c = true) cs → abspath cwd (abs_of cs) = abs_of cs.
Proof. intros Hcs. unfold abspath. by rewrite abs_of_isabs, normpath_clean. Qed.

(** The components that [relpath] works with. *)
Lemma path_list_clean (cs : list string) :
  Forall (λ c, clean_comp c = true) cs →
  List.filter nonempty (split_sep (abspath cwd (abs_of cs))) = cs.
Proof.
  intros Hcs. rewrite abspath_clean, split_sep_abs_of by by try apply clean_no_sep.
  destruct cs as [|c cs]; [done|].
  rewrite bool_decide_eq_false_2 by done.
  change (List.filter nonempty (c :: cs) = c :: cs). by apply clean_nonempty.
Qed.

End with_cwd.

Lemma commonprefix_app (C Ss Ps : list string) :
  head Ss ≠ head Ps ∨ Ss = [] ∧ Ps = [] →
  commonprefix (C ++ Ss) (C ++ Ps) = C.
Proof.
  intros H. induction C as [|c C IH].
  - destruct Ss as [|x Ss], Ps as [|y Ps]; try done. cbn [commonprefix app].
    destruct (String.eqb_spec x y) as [->|]; [|done].
    destruct H as [H|[? _]]; done.
  - cbn [commonprefix app]. by rewrite String.eqb_refl, IH.
Qed.

Lemma commonprefix_split (S P : list string) :
  ∃ C Ss Ps, S = C ++ Ss ∧ P = C ++ Ps ∧ (head Ss ≠ head Ps ∨ Ss = [] ∧ Ps = []).
Proof.
  revert P. induction S as [|x S IH]; intros P.
  - exists [], [], P. split_and!; [done..|]. destruct P; [by right|by left].
  - destruct P as [|y P]; [exists [], (x :: S), []; split_and!; [done..|by left]|].
    destruct (String.eqb_spec x y) as [->|Hxy].
    + destruct (IH P) as (C & Ss & Ps & -> & -> & H).
      by exists (y :: C), Ss, Ps.
    + exists [], (x :: S), (y :: P). split_and!; [done..|]. left. simpl. congruence.
Qed.

(** The last character of a text. *)
Lemma last_char_app (x y : string) :
  y ≠ "" →
  last (list_ascii_of_string (x +:+ y)) = last (list_ascii_of_string y).
Proof.
  intros Hy. rewrite list_ascii_of_string_app, last_app.
  destruct y as [|c y]; [done|]. cbn [list_ascii_of_string].
  rewrite last_cons. by destruct (last (list_ascii_of_string y)).
Qed.

Lemma last_char_no_sep (y : string) :
  y ≠ "" → has_sep y = false →
  is_sep (default "x"%char (last (list_ascii_of_string y))) = false.
Proof.
  unfold has_sep. induction y as [|c y IH]; [done|]. intros _. cbn [existsb].
  intros [Hc Hy]%orb_false_elim. cbn [list_ascii_of_string]. rewrite last_cons.
  destruct y as [|c' y]; [done|]. specialize (IH ltac:(done) Hy).
  by destruct (last (list_ascii_of_string (String c' y))).
Qed.

Lemma pjoin_last (cs : list string) (c : string) :
  ∃ x, PyStr.join "/" (cs ++ [c]) = x +:+ c.
Proof.
  destruct cs as [|c' cs]; [by exists ""|].
  rewrite pjoin_snoc by done. eexists. by rewrite <- sapp_assoc.
Qed.

Lemma pjoin_nonempty (cs : list string) :
  cs ≠ [] → Forall (λ c, c ≠ "" ∧ has_sep c = false) cs → PyStr.join "/" cs ≠ "".
Proof.
  intros Hne Hcs. destruct cs as [|c cs]; [done|].
  apply Forall_cons in Hcs as [[Hc _] _]. destruct c as [|x c]; [done|].
  by destruct (pjoin_head x c cs) as [r ->].
Qed.

Lemma join_ends_no_sep (cs : list string) :
  cs ≠ [] → Forall (λ c, c ≠ "" ∧ has_sep c = false) cs →
  is_sep (default "x"%char (last (list_ascii_of_string (PyStr.join "/" cs)))) = false.
Proof.
  intros Hne Hcs. destruct cs as [|c cs _] using rev_ind; [done|].
  apply Forall_app in Hcs as [_ [[Hc Hs] _]%Forall_cons].
  destruct (pjoin_last cs c) as [x ->].
  rewrite last_char_app by done. by apply last_char_no_sep.
Qed.

(** [join] of relative components puts one "/" between them. *)
Lemma join_step_comp (pre : list string) (b : string) :
  pre ≠ [] → Forall (λ c, c ≠ "" ∧ has_sep c = false) (pre ++ [b]) →
  join_step (PyStr.join "/" pre) b = PyStr.join "/" (pre ++ [b]).
Proof.
  intros Hne [Hpre [[Hb Hbs] _]%Forall_cons]%Forall_app. unfold join_step.
  assert (startswith sep b = false) as ->.
  { apply (join_not_abs [b]). by repeat constructor. }
  apply String.eqb_neq in Hb.
  pose proof (pjoin_nonempty pre Hne Hpre) as Hj. apply String.eqb_neq in Hj.
  rewrite Hj, (join_ends_no_sep pre Hne Hpre). cbn [orb].
  by rewrite pjoin_snoc.
Qed.

Lemma join_comps (pre l : list string) :
  pre ≠ [] → Forall (λ c, c ≠ "" ∧ has_sep c = false) (pre ++ l) →
  foldl join_step (PyStr.join "/" pre) l = PyStr.join "/" (pre ++ l).
Proof.
  revert pre. induction l as [|b l IH]; intros pre Hne Hall.
  { by rewrite app_nil_r. }
  cbn [foldl].
  assert (Forall (λ c, c ≠ "" ∧ has_sep c = false) (pre ++ [b])) as Hpb.
  { apply Forall_app in Hall as [Hpre [Hb Hl]%Forall_cons].
    apply Forall_app. split; [done|by constructor]. }
  rewrite join_step_comp by done.
  rewrite IH; [by rewrite <- app_assoc|by destruct pre|by rewrite <- app_assoc].
Qed.

Lemma join_relative (a : string) (p : list string) :
  Forall (λ c, c ≠ "" ∧ has_sep c = false) (a :: p) →
  posixpath.join a p = PyStr.join "/" (a :: p).
Proof. intros Hall. by apply (join_comps [a] p). Qed.

Lemma pjoin_app (l1 l2 : list string) :
  l1 ≠ [] → l2 ≠ [] →
  PyStr.join "/" (l1 ++ l2) = PyStr.join "/" l1 +:+ "/" +:+ PyStr.join "/" l2.
Proof.
  intros H1 H2. induction l1 as [|x l1 IH]; [done|].
  destruct l1 as [|y l1].
  - cbn [app]. by rewrite pjoin_cons.
  - change ((x :: y :: l1) ++ l2) with (x :: ((y :: l1) ++ l2)).
    rewrite (pjoin_cons "/" x ((y :: l1) ++ l2)) by done.
    rewrite IH by done. rewrite (pjoin_cons "/" x (y :: l1)) by done.
    by rewrite !sapp_assoc.
Qed.

(** The components of the relative path. *)
Lemma rel_list_good (Ss Ps : list string) :
  Forall (λ c, clean_comp c = true) Ps →
  Forall (λ c, c ≠ "" ∧ has_sep c = false) (replicate (length Ss) ".." ++ Ps).
Proof.
  intros HPs. apply Forall_app. split; [|by apply clean_good].
  apply Forall_replicate. done.
Qed.

End clean_paths.

(** ** [relpath] between paths of clean components *)

Section relpath_clean.
Import PyStr posixpath.
Variable cwd : string.

(** [relpath] from a directory to a path, both given by clean
    components after their common prefix [C]. *)
Lemma relpath_clean (C Ss Ps : list string) :
  Forall (λ c, clean_comp c = true) (C ++ Ss) →
  Forall (λ c, clean_comp c = true) (C ++ Ps) →
  head Ss ≠ head Ps ∨ Ss = [] ∧ Ps = [] →
  relpath cwd (abs_of (C ++ Ps)) (abs_of (C ++ Ss))
  = Ok (match replicate (length Ss) ".." ++ Ps with
        | [] => "."
        | l => PyStr.join "/" l
        end).
Proof.
  intros HS HP Hdiff. unfold relpath.
  assert (String.eqb (abs_of (C ++ Ps)) "" = false) as -> by by rewrite abs_of_cons.
  rewrite !path_list_clean by done. rewrite commonprefix_app by done.
  rewrite length_app, drop_app_length.
  replace (length C + length Ss - length C) with (length Ss) by lia.
  unfold pardir, curdir.
  destruct (replicate (length Ss) ".." ++ Ps) as [|a p] eqn:Hrel; [done|].
  rewrite join_relative; [done|]. rewrite <- Hrel. apply rel_list_good.
  by apply Forall_app in HP as [_ ?].
Qed.

(** [relpath] when the directory and the path part after [C]. *)
Lemma relpath_clean_diff (C Ss Ps : list string) :
  Forall (λ c, clean_comp c = true) (C ++ Ss) →
  Forall (λ c, clean_comp c = true) (C ++ Ps) →
  head Ss ≠ head Ps →
  relpath cwd (abs_of (C ++ Ps)) (abs_of (C ++ Ss))
  = Ok (PyStr.join "/" (replicate (length Ss) ".." ++ Ps)).
Proof.
  intros HS HP Hdiff. rewrite relpath_clean by auto.
  destruct (replicate (length Ss) ".." ++ Ps) as [|a p] eqn:Hrel; [|done].
  apply app_eq_nil in Hrel as [Hr ->]. by destruct Ss.
Qed.

(** X11.  From a directory to a path, both absolute and given by clean
    components, of which they share [C] and then part: [relpath] raises
    nothing and returns one ".." for each component of the directory
    after [C], followed by the components of the path after [C], with a
    "/" between them. *)
Theorem relpath_of_clean_paths (C Ss Ps : list string) :
  Forall (λ c, clean_comp c = true) (C ++ Ss) →
  Forall (λ c, clean_comp c = true) (C ++ Ps) →
  head Ss ≠ head Ps →
  relpath cwd (abs_of (C ++ Ps)) (abs_of (C ++ Ss))
  = Ok (PyStr.join "/" (replicate (length Ss) ".." ++ Ps)).
Proof. apply relpath_clean_diff. Qed.

(** The path joined to a directory, for a relative path given by
    components. *)
Lemma join_abs_of (S R : list string) :
  Forall (λ c, c ≠ "" ∧ has_sep c = false) S →
  Forall (λ c, c ≠ "" ∧ has_sep c = false) R → R ≠ [] →
  posixpath.join (abs_of S) [PyStr.join "/" R] = abs_of (S ++ R).
Proof.
  intros HS HR HRne. unfold posixpath.join. cbn [foldl]. unfold join_step, sep.
  rewrite (join_not_abs R HR).
  destruct S as [|c S].
  - done.
  - assert (String.eqb (abs_of (c :: S)) "" = false) as -> by by rewrite abs_of_cons.
    cbn [orb].
    assert (is_sep (default "x"%char (last (list_ascii_of_string (abs_of (c :: S))))) = false)
      as ->.
    { unfold abs_of. rewrite last_char_app by by apply pjoin_nonempty.
      by apply join_ends_no_sep. }
    unfold abs_of. rewrite pjoin_app by done. by rewrite !sapp_assoc.
Qed.

(** X12.  For a directory and a path, both absolute and given by clean
    components: [relpath] returns a relative path that, joined to the
    directory and normalised, is the path. *)
Theorem relpath_leads_back (S P : list string) :
  Forall (λ c, clean_comp c = true) S →
  Forall (λ c, clean_comp c = true) P →
  ∃ rel,
    relpath cwd (abs_of P) (abs_of S) = Ok rel ∧
    isabs rel = false ∧
    normpath (posixpath.join (abs_of S) [rel]) = abs_of P.
Proof.
  intros HS HP.
  destruct (commonprefix_split S P) as (C & Ss & Ps & -> & -> & Hdiff).
  rewrite relpath_clean by done. eexists. split; [done|].
  pose proof HS as [HC HSs]%Forall_app. pose proof HP as [_ HPs]%Forall_app.
  set (R := match replicate (length Ss) ".." ++ Ps with
            | [] => ["."]
            | l => l
            end).
  assert (match replicate (length Ss) ".." ++ Ps with
          | [] => "."
          | l => PyStr.join "/" l
          end = PyStr.join "/" R) as ->.
  { unfold R. by destruct (replicate (length Ss) ".." ++ Ps). }
  assert (Forall (λ c, c ≠ "" ∧ has_sep c = false) R) as HR.
  { unfold R. pose proof (rel_list_good Ss Ps HPs) as Hgood.
    destruct (replicate (length Ss) ".." ++ Ps); [|done].
    constructor; [done|constructor]. }
  assert (R ≠ []) as HRne.
  { unfold R. by destruct (replicate (length Ss) ".." ++ Ps). }
  split; [by apply join_not_abs|].
  rewrite (join_abs_of _ _ (clean_good _ HS) HR HRne).
  rewrite normpath_abs_of
    by (apply Forall_app; split; [by apply clean_good|done]).
  f_equal. rewrite foldl_app, (normpath_clean_comps 1 [] (C ++ Ss) HS). cbn [app].
  unfold R. destruct (replicate (length Ss) ".." ++ Ps) as [|a p] eqn:Hrel.
  - apply app_eq_nil in Hrel as [Hr ->]. destruct Ss; [|done].
    cbn [foldl]. by rewrite !app_nil_r.
  - rewrite <- Hrel, foldl_app, (normpath_pardirs (C ++ Ss) (length Ss) HS).
    rewrite length_app.
    replace (length C + length Ss - length Ss) with (length C) by lia.
    rewrite take_app_length. by apply normpath_clean_comps.
Qed.

End relpath_clean.

Section relpath_clean_witnesses.
Import PyStr posixpath.

Lemma relpath_of_clean_paths_witness :
  relpath "/" (abs_of (["docs"] ++ ["x"; "notes.md"])) (abs_of (["docs"] ++ ["a"; "b"]))
  = Ok (PyStr.join "/" (replicate (length ["a"; "b"]) ".." ++ ["x"; "notes.md"])).
Proof.
  apply (relpath_of_clean_paths "/" ["docs"] ["a"; "b"] ["x"; "notes.md"]).
  - repeat constructor.
  - repeat constructor.
  - discriminate.
Defined.

(** The paths of the witness and the relative path between them. *)
Example relpath_two_levels_up :
  abs_of (["docs"] ++ ["x"; "notes.md"]) = "/docs/x/notes.md" ∧
  abs_of (["docs"] ++ ["a"; "b"]) = "/docs/a/b" ∧
  relpath "/" "/docs/x/notes.md" "/docs/a/b" = Ok "../../x/notes.md".
Proof. vm_compute. split_and!; reflexivity. Qed.

Lemma relpath_leads_back_witness :
  ∃ rel,
    relpath "/" (abs_of ["docs"; "x"; "notes.md"]) (abs_of ["docs"; "a"]) = Ok rel ∧
    isabs rel = false ∧
    normpath (posixpath.join (abs_of ["docs"; "a"]) [rel]) = abs_of ["docs"; "x"; "notes.md"].
Proof.
  apply (relpath_leads_back "/" ["docs"; "a"] ["docs"; "x"; "notes.md"]).
  - repeat constructor.
  - repeat constructor.
Defined.

End relpath_clean_witnesses.

(** ** [basename], [dirname] and the keys of the index *)

Section split_paths.
Import PyStr posixpath.

(** The cut of a path at its last "/". *)
Lemma rsplit_sep_spec (p h t : string) :
  rsplit_sep p = (h, t) →
  p = h +:+ t ∧ has_sep t = false ∧ (h = "" ∨ ∃ h', h = h' +:+ "/").
Proof.
  revert h t. induction p as [|c p IH]; intros h t.
  { intros [= <- <-]. split_and!; [done..|by left]. }
  cbn [rsplit_sep]. destruct (rsplit_sep p) as [h' t'].
  destruct (IH h' t' eq_refl) as (-> & Ht' & Hh').
  destruct h' as [|x h'].
  - destruct (is_sep c) eqn:Hc.
    + intros [= <- <-]. apply Ascii.eqb_eq in Hc as ->.
      split_and!; [done..|]. right. by exists "".
    + intros [= <- <-]. split_and!; [done| |by left].
      unfold has_sep in *. cbn [existsb]. by rewrite Hc, Ht'.
  - intros [= <- <-]. split_and!; [done..|]. right.
    destruct Hh' as [?|[h'' Hh'']]; [done|]. exists (String c h'').
    by rewrite sapp_cons, <- Hh''.
Qed.

Lemma rsplit_sep_no_sep (t : string) : has_sep t = false → rsplit_sep t = ("", t).
Proof.
  unfold has_sep. induction t as [|c t IH]; [done|]. cbn [existsb rsplit_sep].
  intros [Hc Ht]%orb_false_elim. by rewrite (IH Ht), Hc.
Qed.

Lemma rsplit_sep_app (h t : string) :
  has_sep t = false → (h = "" ∨ ∃ h', h = h' +:+ "/") →
  rsplit_sep (h +:+ t) = (h, t).
Proof.
  intros Ht. induction h as [|c h IH]; intros Hh.
  { rewrite sapp_nil_l. by apply rsplit_sep_no_sep. }
  destruct Hh as [?|[h' Hh']]; [done|].
  rewrite sapp_cons. cbn [rsplit_sep].
  destruct h as [|x h].
  - destruct h' as [|y h']; [|by destruct h'].
    injection Hh' as ->. rewrite sapp_nil_l, (rsplit_sep_no_sep t Ht). done.
  - destruct h' as [|y h']; [done|]. rewrite sapp_cons in Hh'. injection Hh' as -> Hh'.
    rewrite IH by (right; by exists h'). done.
Qed.

Lemma basename_no_sep (p : string) : has_sep (basename p) = false.
Proof.
  unfold basename. destruct (rsplit_sep p) as [h t] eqn:Hs.
  by apply rsplit_sep_spec in Hs as (_ & ? & _).
Qed.

Lemma rstrip_by_app (f : ascii → bool) (x y : string) :
  rstrip_by f (x +:+ y)
  = if String.eqb (rstrip_by f y) "" then rstrip_by f x else x +:+ rstrip_by f y.
Proof.
  induction x as [|c x IH].
  { rewrite !sapp_nil_l. by destruct (rstrip_by f y). }
  rewrite sapp_cons. cbn [rstrip_by]. rewrite IH.
  destruct (String.eqb_spec (rstrip_by f y) "") as [Hy|Hy]; [done|].
  rewrite sapp_cons. destruct (x +:+ rstrip_by f y) eqn:Hxy; [|done].
  destruct x; [by rewrite sapp_nil_l in Hxy|by rewrite sapp_cons in Hxy].
Qed.

Lemma rstrip_by_no_sep (y : string) :
  y ≠ "" → has_sep y = false → rstrip_by is_sep y = y.
Proof.
  unfold has_sep. induction y as [|c y IH]; [done|]. intros _. cbn [existsb rstrip_by].
  intros [Hc Hy]%orb_false_elim. destruct y as [|c' y]; [by cbn; rewrite Hc|].
  by rewrite IH.
Qed.

(** [dirname] and [basename] of a path of clean components. *)
Lemma rsplit_sep_abs_of (D : list string) (pg : string) :
  has_sep pg = false →
  abs_of (D ++ [pg])
  = (if bool_decide (D = []) then "/" else abs_of D +:+ "/") +:+ pg.
Proof.
  intros Hpg. unfold abs_of. destruct D as [|d D]; [done|].
  rewrite bool_decide_eq_false_2 by done. rewrite pjoin_snoc by done.
  by rewrite !sapp_assoc.
Qed.

Lemma basename_abs_of (D : list string) (pg : string) :
  has_sep pg = false → basename (abs_of (D ++ [pg])) = pg.
Proof.
  intros Hpg. unfold basename. rewrite rsplit_sep_abs_of by done.
  rewrite rsplit_sep_app; [done|done|].
  right. destruct D as [|d D]; [by exists ""|].
  rewrite bool_decide_eq_false_2 by done. by exists (abs_of (d :: D)).
Qed.

Lemma dirname_abs_of (D : list string) (pg : string) :
  Forall (λ c, clean_comp c = true) D → has_sep pg = false →
  dirname (abs_of (D ++ [pg])) = abs_of D.
Proof.
  intros HD Hpg. unfold dirname. rewrite rsplit_sep_abs_of by done.
  rewrite rsplit_sep_app; [|done|].
  2:{ right. destruct D as [|d D]; [by exists ""|].
      rewrite bool_decide_eq_false_2 by done. by exists (abs_of (d :: D)). }
  cbn [fst]. destruct D as [|d D]; [done|].
  rewrite bool_decide_eq_false_2 by done.
  assert (forallb is_sep (abs_of (d :: D) +:+ "/") = false) as ->.
  { apply Forall_cons in HD as [(Hd & Hs & _)%clean_comp_spec _].
    destruct d as [|x d]; [done|]. apply no_sep_head in Hs.
    rewrite abs_of_cons. destruct (pjoin_head x d D) as [r ->].
    rewrite !sapp_cons. cbn [forallb]. by rewrite Hs, andb_false_r. }
  assert (String.eqb (abs_of (d :: D) +:+ "/") "" = false) as ->
    by by rewrite abs_of_cons, sapp_cons.
  cbn [negb andb]. unfold rstrip_sep. rewrite rstrip_by_app.
  change (rstrip_by is_sep "/") with "". cbn [String.eqb].
  unfold abs_of. rewrite rstrip_by_app.
  assert (PyStr.join "/" (d :: D) ≠ "") as Hne by (apply pjoin_nonempty; [done|by apply clean_good]).
  destruct (d :: D) as [|y l _] using rev_ind; [done|].
  apply Forall_app in HD as [_ [(Hy & Hys & _)%clean_comp_spec _]%Forall_cons].
  destruct (pjoin_last l y) as [x Hx]. rewrite Hx in *.
  rewrite (rstrip_by_app is_sep x y), (rstrip_by_no_sep y Hy Hys).
  apply String.eqb_neq in Hy. rewrite Hy.
  destruct (String.eqb_spec (x +:+ y) "") as [Hxy|_]; [|done].
  destruct x; [rewrite sapp_nil_l in Hxy; by subst|by rewrite sapp_cons in Hxy].
Qed.

(** X13.  Cutting a path of clean components at its last "/" and
    joining the two parts again: [dirname] is the path of the components
    but the last, [basename] is the last component, and [join] of the two
    is the path. *)
Theorem clean_path_splits (D : list string) (pg : string) :
  Forall (λ c, clean_comp c = true) D → clean_comp pg = true →
  dirname (abs_of (D ++ [pg])) = abs_of D ∧
  basename (abs_of (D ++ [pg])) = pg ∧
  posixpath.join (dirname (abs_of (D ++ [pg]))) [basename (abs_of (D ++ [pg]))]
  = abs_of (D ++ [pg]).
Proof.
  intros HD Hpg. pose proof Hpg as (Hne & Hs & _)%clean_comp_spec.
  rewrite dirname_abs_of, basename_abs_of by done. split_and!; [done..|].
  apply (join_abs_of D [pg]); [by apply clean_good| |done].
  by repeat constructor.
Qed.

Lemma clean_path_splits_witness :
  dirname (abs_of (["docs"; "a"] ++ ["page.md"])) = abs_of ["docs"; "a"] ∧
  basename (abs_of (["docs"; "a"] ++ ["page.md"])) = "page.md" ∧
  posixpath.join (dirname (abs_of (["docs"; "a"] ++ ["page.md"])))
    [basename (abs_of (["docs"; "a"] ++ ["page.md"]))]
  = abs_of (["docs"; "a"] ++ ["page.md"]).
Proof.
  apply (clean_path_splits ["docs"; "a"] "page.md").
  - repeat constructor.
  - reflexivity.
Defined.

(** X14.  The index that [init_filename_to_abs_path] builds from files
    with non-empty absolute paths: every key is the basename of the path
    it is mapped to and holds no "/", and the path is the non-empty
    absolute path of one of the files. *)
Theorem index_keys_are_basenames (cwd docs_dir : string) (files : list File)
    (self0 : AutoLinksPlugin.t) :
  Forall (λ f, abs_src_path f ≠ "") files →
  ∃ self index,
    AutoLinksPlugin.init_filename_to_abs_path cwd files docs_dir self0 = (Ok tt, self) ∧
    AutoLinksPlugin.filename_to_abs_path self = Some index ∧
    ∀ b p, index !! b = Some p →
           basename p = b ∧ has_sep b = false ∧ p ≠ "" ∧
           ∃ f, f ∈ files ∧ abs_src_path f = p.
Proof.
  intros Hne.
  destruct (init_loop cwd docs_dir files self0 Hne)
    as (self & index & Hrun & Hidx & Hindex & _ & _).
  exists self, index. split_and!; [done..|].
  intros b p. rewrite Hindex.
  destruct (named b files) as [|f0 tl] eqn:Hnamed; [done|]. intros [= <-].
  assert (f0 ∈ named b files) as Hin by (rewrite Hnamed; left).
  apply list_elem_of_filter in Hin as [Hb Hin].
  split_and!.
  - done.
  - rewrite <- Hb. apply basename_no_sep.
  - by apply (proj1 (Forall_forall _ _) Hne).
  - by exists f0.
Qed.

Lemma index_keys_are_basenames_witness :
  ∃ self index,
    AutoLinksPlugin.init_filename_to_abs_path "/" abc_files "/docs" AutoLinksPlugin.__init__
      = (Ok tt, self) ∧
    AutoLinksPlugin.filename_to_abs_path self = Some index ∧
    ∀ b p, index !! b = Some p →
           basename p = b ∧ has_sep b = false ∧ p ≠ "" ∧
           ∃ f, f ∈ abc_files ∧ abs_src_path f = p.
Proof.
  apply (index_keys_are_basenames "/" "/docs" abc_files AutoLinksPlugin.__init__).
  repeat constructor; discriminate.
Defined.

End split_paths.

(** ** [quote], [replace] and [strip] *)

Section text_functions.
Import PyStr posixpath urllib re.

(** What stands for a character in a quoted text is read back as the
    character. *)
Lemma unquote_head_quote (c : ascii) (r : string) :
  unquote_head (String.concat "" (quote_byte <$> utf8 c) +:+ r) = Some (c, r).
Proof. destruct c as [[] [] [] [] [] [] [] []]; vm_compute; reflexivity. Qed.

(** X15.  [quote] gives different texts for different texts: the target
    that the replacer writes for a relative path stands for no other
    path. *)
Theorem quote_is_injective (s1 s2 : string) : quote s1 = quote s2 → s1 = s2.
Proof.
  revert s2. induction s1 as [|c1 s1 IH]; intros [|c2 s2] H; [done|..].
  - apply (f_equal unquote_head) in H. rewrite quote_cons, unquote_head_quote in H. done.
  - apply (f_equal unquote_head) in H. rewrite quote_cons, unquote_head_quote in H. done.
  - apply (f_equal unquote_head) in H. rewrite !quote_cons, !unquote_head_quote in H.
    injection H as -> H. by rewrite (IH s2 H).
Qed.

Lemma quote_is_injective_witness : "a b.md" = "a b.md".
Proof. apply (quote_is_injective "a b.md" "a b.md"). reflexivity. Defined.

(** X16.  The text that [quote] returns holds letters, digits and the
    characters "_", ".", "-", "~", "/" and "%" only: none of the
    characters that end a link, start an anchor or open a label, and no
    white space. *)
Theorem quote_alphabet (s : string) :
  forallb quoted_char (quote s) = true ∧
  existsb (λ c, bool_decide (c ∈ [")"; "("; "["; "]"; "#"; " "; "?"; "!"]%char)) (quote s)
  = false.
Proof.
  split; [apply quote_quoted|].
  apply existsb_false_forallb.
  apply (forallb_impl quoted_char); [|apply quote_quoted].
  intros c Hc. destruct c as [[] [] [] [] [] [] [] []]; vm_compute in Hc |- *; congruence.
Qed.

Lemma quote_safe (s : string) : all_safe s = true → quote s = s.
Proof.
  unfold all_safe. induction s as [|c s IH]; [done|]. cbn [forallb].
  intros [Hc Hs]%andb_prop. rewrite quote_cons, (IH Hs).
  assert (String.concat "" (quote_byte <$> utf8 c) = String c "") as ->; [|done].
  destruct c as [[] [] [] [] [] [] [] []]; vm_compute in Hc |- *; congruence.
Qed.

End text_functions.

(** ** The call of the replacer on clean paths *)

Section call_on_clean_paths.
Import PyStr posixpath urllib re.
Variable cwd : string.

(** The call for a link whose name is in the index, on clean paths. *)
Lemma call_hit_clean (self : AutoLinkReplacer.t) (m : Match)
    (index : gmap string string) (C Ss Ps : list string) (pg : string)
    (missing : gmap string Counter) :
  AutoLinkReplacer.filename_to_abs_path self = Some index →
  AutoLinkReplacer.abs_page_path self = abs_of ((C ++ Ss) ++ [pg]) →
  index !! strip (group3 m) = Some (abs_of (C ++ Ps)) →
  Forall (λ c, clean_comp c = true) (C ++ Ss) → clean_comp pg = true →
  Forall (λ c, clean_comp c = true) (C ++ Ps) →
  head Ss ≠ head Ps →
  AutoLinkReplacer.__call__ cwd self m missing
  = (Ok (replace (group0 m) (group3 m)
           (quote (PyStr.join "/" (replicate (length Ss) ".." ++ Ps)))),
     missing).
Proof.
  intros Hidx Hpage Hhit HS Hpg HP Hdiff.
  rewrite (call_hit cwd self m index _ missing Hidx Hhit) by by rewrite abs_of_cons.
  apply clean_comp_spec in Hpg as (_ & Hpg & _).
  rewrite Hpage, dirname_abs_of by done.
  unfold rel_to. by rewrite relpath_clean_diff.
Qed.

(** X17.  The call for a link whose name is in the index, on a page and
    for a file with absolute paths of clean components: the name is
    replaced by the encoded relative path that has one ".." for each
    directory of the page below the directories [C] that the page and the
    file share, followed by the components of the file below [C]. *)
Theorem hit_on_clean_paths (self : AutoLinkReplacer.t) (m : Match)
    (index : gmap string string) (C Ss Ps : list string) (pg : string)
    (missing : gmap string Counter) :
  AutoLinkReplacer.filename_to_abs_path self = Some index →
  AutoLinkReplacer.abs_page_path self = abs_of ((C ++ Ss) ++ [pg]) →
  index !! strip (group3 m) = Some (abs_of (C ++ Ps)) →
  Forall (λ c, clean_comp c = true) (C ++ Ss) → clean_comp pg = true →
  Forall (λ c, clean_comp c = true) (C ++ Ps) →
  head Ss ≠ head Ps →
  AutoLinkReplacer.__call__ cwd self m missing
  = (Ok (replace (group0 m) (group3 m)
           (quote (PyStr.join "/" (replicate (length Ss) ".." ++ Ps)))),
     missing).
Proof. apply call_hit_clean. Qed.

(** X18.  A link to a file in the directory of the page, when the name of
    the link is the name of the file and holds characters that [quote]
    keeps: the call returns the link as it is and records nothing. *)
Theorem link_to_sibling_unchanged (self : AutoLinkReplacer.t) (m : Match)
    (index : gmap string string) (D : list string) (pg : string)
    (missing : gmap string Counter) :
  AutoLinkReplacer.filename_to_abs_path self = Some index →
  AutoLinkReplacer.abs_page_path self = abs_of (D ++ [pg]) →
  index !! strip (group3 m) = Some (abs_of (D ++ [group3 m])) →
  Forall (λ c, clean_comp c = true) D → clean_comp pg = true →
  clean_comp (group3 m) = true → all_safe (group3 m) = true →
  AutoLinkReplacer.__call__ cwd self m missing = (Ok (group0 m), missing).
Proof.
  intros Hidx Hpage Hhit HD Hpg Hg3 Hsafe.
  rewrite (call_hit_clean self m index D [] [group3 m] pg missing);
    rewrite ?app_nil_r; try done.
  - cbn [length replicate app PyStr.join String.concat].
    by rewrite (quote_safe _ Hsafe), replace_by_itself.
  - apply Forall_app. split; [done|by repeat constructor].
Qed.

(** The call for a link whose name is not in the index, on a page with
    an empty path. *)
Lemma call_miss_empty_page (self : AutoLinkReplacer.t) (m : Match)
    (index : gmap string string) (missing : gmap string Counter) :
  AutoLinkReplacer.filename_to_abs_path self = Some index →
  index !! strip (group3 m) = None →
  AutoLinkReplacer.abs_page_path self = "" →
  AutoLinkReplacer.__call__ cwd self m missing = (Raise ValueError, missing).
Proof.
  intros Hidx Hmiss Hpage. unfold AutoLinkReplacer.__call__.
  by rewrite Hidx, Hmiss, Hpage.
Qed.

End call_on_clean_paths.

Section call_on_clean_paths_witnesses.
Import PyStr posixpath urllib re.

Lemma hit_on_clean_paths_witness :
  AutoLinkReplacer.__call__ "/" notes_replacer notes_match ∅
  = (Ok (replace (group0 notes_match) (group3 notes_match)
           (quote (PyStr.join "/" (replicate (length ["a"]) ".." ++ ["x"; "notes.md"])))),
     ∅).
Proof.
  apply (hit_on_clean_paths "/" notes_replacer notes_match
           {[ "notes.md" := "/docs/x/notes.md"; "page.md" := "/docs/a/page.md" ]}
           ["docs"] ["a"] ["x"; "notes.md"] "page.md" ∅).
  - reflexivity.
  - reflexivity.
  - vm_compute. reflexivity.
  - repeat constructor.
  - reflexivity.
  - repeat constructor.
  - discriminate.
Defined.

Lemma link_to_sibling_unchanged_witness :
  AutoLinkReplacer.__call__ "/" sibling_replacer notes_match ∅
  = (Ok (group0 notes_match), ∅).
Proof.
  apply (link_to_sibling_unchanged "/" sibling_replacer notes_match
           {[ "notes.md" := "/docs/a/notes.md"; "page.md" := "/docs/a/page.md" ]}
           ["docs"; "a"] "page.md" ∅).
  - reflexivity.
  - reflexivity.
  - vm_compute. reflexivity.
  - repeat constructor.
  - reflexivity.
  - reflexivity.
  - reflexivity.
Defined.

End call_on_clean_paths_witnesses.

(** ** Trimmed names, the order of the counters, and the empty page path *)

Section lookups.
Import PyStr posixpath urllib re.

Lemma rstrip_by_cons (f : ascii → bool) (c : ascii) (s : string) :
  rstrip_by f (String c s)
  = match rstrip_by f s with
    | EmptyString => if f c then EmptyString else String c EmptyString
    | r => String c r
    end.
Proof. done. Qed.

Lemma rstrip_by_idemp (f : ascii → bool) (s : string) :
  rstrip_by f (rstrip_by f s) = rstrip_by f s.
Proof.
  induction s as [|c s IH]; [done|]. rewrite rstrip_by_cons.
  destruct (rstrip_by f s) as [|x r] eqn:Hr.
  - destruct (f c) eqn:Hc; [done|]. by rewrite rstrip_by_cons, Hc.
  - by rewrite rstrip_by_cons, IH.
Qed.

Lemma lstrip_by_head (f : ascii → bool) (s : string) :
  match lstrip_by f s with
  | EmptyString => True
  | String c _ => f c = false
  end.
Proof.
  induction s as [|c s IH]; [done|]. cbn [lstrip_by].
  by destruct (f c) eqn:Hc.
Qed.

Lemma rstrip_by_head (f : ascii → bool) (c : ascii) (s : string) :
  f c = false → ∃ r, rstrip_by f (String c s) = String c r.
Proof.
  intros Hc. rewrite rstrip_by_cons. destruct (rstrip_by f s); rewrite ?Hc; eauto.
Qed.

(** [strip] changes nothing in a text that it has trimmed. *)
Lemma strip_idemp (s : string) : strip (strip s) = strip s.
Proof.
  unfold strip. pose proof (lstrip_by_head isspace s) as Hhead.
  destruct (lstrip_by isspace s) as [|c t]; [done|].
  destruct (rstrip_by_head isspace c t Hhead) as [r Hr]. rewrite Hr.
  cbn [lstrip_by]. rewrite Hhead, <- Hr. apply rstrip_by_idemp.
Qed.

Section with_cwd.
Variable cwd : string.

(** X19.  A key of the index that starts or ends with white space is
    never looked up: the call looks up trimmed names only, so it returns
    and records the same with the key and without it. *)
Theorem untrimmed_key_is_never_looked_up (base_docs_dir abs_page_path k : string)
    (index : gmap string string) (m : Match) (missing : gmap string Counter) :
  strip k ≠ k →
  AutoLinkReplacer.__call__ cwd
    {| AutoLinkReplacer.base_docs_dir := base_docs_dir;
       AutoLinkReplacer.abs_page_path := abs_page_path;
       AutoLinkReplacer.filename_to_abs_path := Some (delete k index) |} m missing
  = AutoLinkReplacer.__call__ cwd
      {| AutoLinkReplacer.base_docs_dir := base_docs_dir;
         AutoLinkReplacer.abs_page_path := abs_page_path;
         AutoLinkReplacer.filename_to_abs_path := Some index |} m missing.
Proof.
  intros Hk. unfold AutoLinkReplacer.__call__.
  cbn [AutoLinkReplacer.filename_to_abs_path AutoLinkReplacer.abs_page_path
       AutoLinkReplacer.base_docs_dir].
  rewrite lookup_delete_ne; [done|].
  intros ->. by rewrite strip_idemp in Hk.
Qed.

(** X20.  Counting a missing name for a page leaves the entries of the
    other names as they are, and in the entry of the name it keeps the
    pages in the order in which they were first counted: a page counted
    before keeps its place, a new page comes last. *)
Theorem first_reference_order_kept (filename ref : string)
    (missing : gmap string Counter) :
  let before := default [] (missing !! filename) in
  let after :=
    default [] (AutoLinkReplacer.count_missing filename ref missing !! filename) in
  after.*1 = (if decide (ref ∈ before.*1) then before.*1 else before.*1 ++ [ref]) ∧
  ∀ f, f ≠ filename →
       AutoLinkReplacer.count_missing filename ref missing !! f = missing !! f.
Proof.
  intros before after. split.
  - unfold after. rewrite count_missing_lookup. apply counter_incr_keys.
  - intros f Hf. by apply count_missing_lookup_ne.
Qed.

(** X21.  On a page with an empty path, the page hook of a plugin that
    has its index raises [ValueError] as soon as the first link of the
    page is one whose trimmed name is no key of the index, and leaves the
    plugin as it is. *)
Theorem unresolved_link_on_empty_page_path_raises (markdown : string) (page : Page)
    (config : Config) (files : list File) (self : AutoLinksPlugin.t)
    (index : gmap string string) (m : Match) (ms : list Match) :
  AutoLinksPlugin.filename_to_abs_path self = Some index →
  abs_src_path (file page) = "" →
  finditer markdown = m :: ms →
  index !! strip (group3 m) = None →
  AutoLinksPlugin.on_page_markdown cwd markdown page config files self
  = (Raise ValueError, self).
Proof.
  intros Hidx Hpage Hfind Hmiss.
  rewrite (on_page_markdown_initialized _ _ _ _ _ _ _ Hidx).
  set (replacer := {| AutoLinkReplacer.base_docs_dir := docs_dir config;
                      AutoLinkReplacer.abs_page_path := abs_src_path (file page);
                      AutoLinkReplacer.filename_to_abs_path := Some index |}).
  assert (∀ k s st, finditer_go k s = m :: ms →
            sub_go (AutoLinkReplacer.__call__ cwd replacer) k s st
            = (Raise ValueError, st)) as Hsub.
  { intros k s. revert k. induction s as [|c s IH]; intros k st; [done|].
    destruct k as [|k]; cbn [finditer_go sub_go]; [|apply IH].
    destruct (match_ (String c s)) as [[m' rest]|]; unfold bind, ret.
    - intros [= -> _].
      by rewrite (call_miss_empty_page cwd replacer m index st eq_refl Hmiss Hpage).
    - intros Hs. by rewrite (IH 0 st Hs). }
  unfold re.sub. rewrite (Hsub 0 markdown _ Hfind). by destruct self.
Qed.

End with_cwd.

End lookups.

Section lookups_witnesses.
Import PyStr posixpath urllib re.

Lemma untrimmed_key_is_never_looked_up_witness :
  AutoLinkReplacer.__call__ "/"
    {| AutoLinkReplacer.base_docs_dir := "/docs";
       AutoLinkReplacer.abs_page_path := "/docs/a/page.md";
       AutoLinkReplacer.filename_to_abs_path :=
         Some (delete " notes.md" {[ " notes.md" := "/docs/x/ notes.md" ]}) |}
    notes_match ∅
  = AutoLinkReplacer.__call__ "/"
      {| AutoLinkReplacer.base_docs_dir := "/docs";
         AutoLinkReplacer.abs_page_path := "/docs/a/page.md";
         AutoLinkReplacer.filename_to_abs_path :=
           Some {[ " notes.md" := "/docs/x/ notes.md" ]} |}
      notes_match ∅.
Proof.
  apply (untrimmed_key_is_never_looked_up "/" "/docs" "/docs/a/page.md" " notes.md"
           {[ " notes.md" := "/docs/x/ notes.md" ]} notes_match ∅).
  vm_compute. discriminate.
Defined.

(** A link with white space in front of its name is looked up under the
    trimmed name, and the white space goes with the name. *)
Example name_is_trimmed :
  (AutoLinksPlugin.on_page_markdown "/" "[n]( notes.md)"
     (page_at "a/page.md" "/docs/a/page.md") docs_config notes_site
     AutoLinksPlugin.__init__).1 = Ok "[n](../x/notes.md)".
Proof. vm_compute. reflexivity. Qed.

Lemma unresolved_link_on_empty_page_path_raises_witness :
  AutoLinksPlugin.on_page_markdown "/" "see ![](ghost.png)" (page_at "" "")
    docs_config [] notes_plugin
  = (Raise ValueError, notes_plugin).
Proof.
  apply (unresolved_link_on_empty_page_path_raises "/" "see ![](ghost.png)" (page_at "" "")
           docs_config [] notes_plugin
           {[ "notes.md" := "/docs/x/notes.md"; "page.md" := "/docs/a/page.md" ]}
           ghost_match []).
  - reflexivity.
  - reflexivity.
  - vm_compute. reflexivity.
  - vm_compute. reflexivity.
Defined.

End lookups_witnesses.

(** ** From the pages to the report *)

Section pages_to_report.
Import PyStr posixpath urllib re.
Variable cwd : string.

(** The names that have an entry after a run of calls. *)
Lemma foldl_count_missing_keys (index : gmap string string) (rel : string)
    (ms : list Match) (missing : gmap string Counter) (k : string) :
  is_Some
    (foldl (λ st m, match index !! strip (group3 m) with
                    | Some _ => st
                    | None => AutoLinkReplacer.count_missing (strip (group3 m)) rel st
                    end) missing ms !! k)
  ↔ is_Some (missing !! k)
    ∨ k ∈ filter (λ k, index !! k = None) ((λ m, strip (group3 m)) <$> ms).
Proof.
  revert missing. induction ms as [|m ms IH]; intros missing.
  { simpl. split; [by left|]. intros [?|?%elem_of_nil]; done. }
  cbn [foldl]. rewrite IH, fmap_cons.
  destruct (index !! strip (group3 m)) as [p|] eqn:Hp.
  - rewrite filter_cons_False by (by rewrite Hp). done.
  - rewrite filter_cons_True by done. rewrite elem_of_cons.
    destruct (decide (strip (group3 m) = k)) as [->|Hk].
    + rewrite count_missing_lookup. split; [|by left].
      intros _. right. by left.
    + rewrite count_missing_lookup_ne by done. split.
      * intros [?|?]; [by left|by right; right].
      * intros [?|[?|?]]; [by left|done|by right].
Qed.

(** The pages listed for a name after a run of calls. *)
Lemma foldl_count_missing_refs (index : gmap string string) (rel : string)
    (ms : list Match) (missing : gmap string Counter) (k : string) :
  (default []
     (foldl (λ st m, match index !! strip (group3 m) with
                     | Some _ => st
                     | None => AutoLinkReplacer.count_missing (strip (group3 m)) rel st
                     end) missing ms !! k)).*1
  = (if decide (k ∈ filter (λ k, index !! k = None) ((λ m, strip (group3 m)) <$> ms)
                ∧ rel ∉ (default [] (missing !! k)).*1)
     then (default [] (missing !! k)).*1 ++ [rel]
     else (default [] (missing !! k)).*1).
Proof.
  revert missing. induction ms as [|m ms IH]; intros missing.
  { cbn [foldl]. rewrite decide_False; [done|]. intros [H _]. by apply elem_of_nil in H. }
  cbn [foldl]. rewrite IH, fmap_cons.
  destruct (index !! strip (group3 m)) as [p|] eqn:Hp.
  { rewrite filter_cons_False by (by rewrite Hp). done. }
  rewrite filter_cons_True by done.
  set (rest := filter (λ k, index !! k = None) ((λ m, strip (group3 m)) <$> ms)).
  set (old := (default [] (missing !! k)).*1).
  destruct (decide (strip (group3 m) = k)) as [Hk|Hk].
  - rewrite Hk, count_missing_lookup. cbn [from_option id]. rewrite counter_incr_keys.
    fold old.
    destruct (decide (rel ∈ old)) as [Hin|Hin].
    + rewrite !decide_False; [done|by intros [_ ?]..].
    + rewrite decide_False, decide_True; [done| |].
      * split; [by left|done].
      * intros [_ Hn]. apply Hn, elem_of_app. right. by left.
  - rewrite count_missing_lookup_ne by done. fold old.
    destruct (decide (k ∈ rest ∧ rel ∉ old)) as [[H1 H2]|Hn].
    + rewrite decide_True; [done|]. split; [by right|done].
    + rewrite decide_False; [done|]. intros [[?|?]%elem_of_cons ?]; [done|].
      by apply Hn.
Qed.

(** The report is the frame around the two sections. *)
Lemma generate_report_frame (self : AutoLinksPlugin.t) :
  AutoLinksPlugin.generate_report self
  = report_frame
      (PyStr.join nl (AutoLinksPlugin.duplicate_line self
                        <$> sorted (AutoLinksPlugin.duplicate_filenames self)))
      (PyStr.join nl (AutoLinksPlugin.missing_block self
                        <$> sorted (AutoLinksPlugin.missing_filenames self))).
Proof. reflexivity. Qed.

(** The entry of a name in the section of missing names, from the
    registry. *)
Lemma missing_block_text (self : AutoLinksPlugin.t) (filename : string) :
  counters_wf (AutoLinksPlugin.missing_filenames self) →
  AutoLinksPlugin.missing_block self filename
  = "- [ ] " +:+ filename +:+ ", in " +:+
    of_nat (length (default [] (AutoLinksPlugin.missing_filenames self !! filename)).*1)
    +:+ " file(s)" +:+ nl +:+
    String.concat nl
      ((λ ref_path,
          "  - `" +:+ ref_path +:+ "` (" +:+
          of_nat (missing_count (AutoLinksPlugin.missing_filenames self) filename ref_path)
          +:+ " occurences)")
         <$> (default [] (AutoLinksPlugin.missing_filenames self !! filename)).*1).
Proof.
  intros Hwf. unfold AutoLinksPlugin.missing_block, missing_count, PyStr.join.
  destruct (AutoLinksPlugin.missing_filenames self !! filename) as [counter|] eqn:Hc;
    [|done].
  pose proof (Hwf _ _ Hc) as Hnd. simpl in Hnd. simpl.
  rewrite length_fmap. do 7 f_equal.
  rewrite <- list_fmap_compose. apply Forall_fmap_ext_1, Forall_forall.
  intros [ref n] Hin. simpl.
  by rewrite (counter_get_NoDup counter ref n Hnd Hin).
Qed.

(** X22.  After a call of the page hook with files and a page of
    non-empty paths, on a plugin whose counters have distinct keys: the
    section of missing names of the report has one entry for each name
    that had one before the call or is the trimmed name of a link of the
    page that is no key of the index, the names in ascending order and
    none of them twice.  The entry of a name lists the pages listed
    before the call, and after them the page of the call if it is new for
    the name; the count of the page of the call has grown by the number
    of links of the page with that name, the other counts are the
    same. *)
Theorem missing_section_lists_unresolved_names (markdown : string) (page : Page)
    (config : Config) (files : list File) (self self' : AutoLinksPlugin.t)
    (r : result string) (index : gmap string string) :
  Forall (λ f, abs_src_path f ≠ "") files →
  index_paths_nonempty self →
  abs_src_path (file page) ≠ "" →
  counters_wf (AutoLinksPlugin.missing_filenames self) →
  AutoLinksPlugin.on_page_markdown cwd markdown page config files self = (r, self') →
  AutoLinksPlugin.filename_to_abs_path self' = Some index →
  let rel_page_path := rel_to cwd (docs_dir config) (abs_src_path (file page)) in
  let names := unresolved index markdown in
  let before := AutoLinksPlugin.missing_filenames self in
  let ks := sorted (AutoLinksPlugin.missing_filenames self') in
  StronglySorted String.le ks ∧ NoDup ks ∧
  (∀ k, k ∈ ks ↔ k ∈ sorted before ∨ k ∈ names) ∧
  ∃ duplicates_section,
    AutoLinksPlugin.generate_report self' =
      report_frame duplicates_section
        (String.concat nl
           ((λ k,
               "- [ ] " +:+ k +:+ ", in " +:+
               of_nat
                 (length
                    (if decide (k ∈ names ∧ rel_page_path ∉ (default [] (before !! k)).*1)
                     then (default [] (before !! k)).*1 ++ [rel_page_path]
                     else (default [] (before !! k)).*1))
               +:+ " file(s)" +:+ nl +:+
               String.concat nl
                 ((λ ref_path,
                     "  - `" +:+ ref_path +:+ "` (" +:+
                     of_nat
                       (missing_count before k ref_path
                        + (if decide (ref_path = rel_page_path)
                           then length (filter (λ x, x = k) names)
                           else 0))
                     +:+ " occurences)")
                    <$> (if decide (k ∈ names
                                    ∧ rel_page_path ∉ (default [] (before !! k)).*1)
                         then (default [] (before !! k)).*1 ++ [rel_page_path]
                         else (default [] (before !! k)).*1)))
              <$> ks)).
Proof.
  intros Hfiles Hpaths Hpage Hwf Hrun Hidx' rel_page_path names before ks.
  pose proof (on_page_markdown_missing_invariant cwd counters_wf markdown page config files
                self (λ f r' st, count_missing_wf f r' st) Hwf) as Hwf'.
  rewrite Hrun in Hwf'. cbn [snd] in Hwf'.
  destruct (on_page_markdown_ready cwd markdown page config files self Hfiles Hpaths)
    as (self1 & index1 & Hidx1 & Hpaths1 & Hmissing & Heq).
  destruct (on_page_markdown_finditer cwd markdown page config files self1 index1
              Hidx1 Hpaths1 Hpage) as (out & Hrun1 & _).
  rewrite Heq, Hrun1 in Hrun. injection Hrun as _ Hself.
  rewrite <- Hself in Hidx'.
  cbn [AutoLinksPlugin.set_missing_filenames AutoLinksPlugin.filename_to_abs_path] in Hidx'.
  assert (index1 = index) as -> by congruence.
  assert (AutoLinksPlugin.missing_filenames self'
          = foldl (λ st m, match index !! strip (group3 m) with
                           | Some _ => st
                           | None =>
                               AutoLinkReplacer.count_missing
                                 (strip (group3 m)) rel_page_path st
                           end) before (finditer markdown)) as Hm.
  { rewrite <- Hself.
    cbn [AutoLinksPlugin.set_missing_filenames AutoLinksPlugin.missing_filenames].
    by rewrite Hmissing. }
  destruct (sorted_spec (AutoLinksPlugin.missing_filenames self'))
    as (Hsorted & Hnodup & Hin).
  split_and!; [done|done| |].
  - intros k. unfold ks. rewrite Hin, Hm.
    destruct (sorted_spec before) as (_ & _ & ->).
    by rewrite foldl_count_missing_keys.
  - eexists. rewrite generate_report_frame. apply (f_equal (report_frame _)).
    unfold PyStr.join. apply (f_equal (String.concat nl)).
    apply Forall_fmap_ext_1, Forall_forall. intros k _.
    rewrite (missing_block_text _ _ Hwf'), Hm, foldl_count_missing_refs.
    change (filter (λ k, index !! k = None) ((λ m, strip (group3 m)) <$> finditer markdown))
      with names.
    apply (f_equal (λ x, _ +:+ _ +:+ _ +:+ _ +:+ _ +:+ _ +:+ String.concat nl x)).
    apply Forall_fmap_ext_1, Forall_forall. intros ref_path _.
    by rewrite missing_count_foldl.
Qed.

(** X23.  After the first call of the page hook on a fresh plugin, with
    files of non-empty paths: the section of duplicate names of the
    report has one line for each basename that at least two of the files
    have, the basenames in ascending order and none of them twice; the
    line names the basename and lists, between backquotes, the path of
    the first file with that basename relative to the documents
    directory and then the [src_path] of every later one, in the order of
    the files. *)
Theorem duplicate_section_lists_shared_names (markdown : string) (page : Page)
    (config : Config) (files : list File) :
  Forall (λ f, abs_src_path f ≠ "") files →
  let self' :=
    (AutoLinksPlugin.on_page_markdown cwd markdown page config files
       AutoLinksPlugin.__init__).2 in
  let ks := sorted (AutoLinksPlugin.duplicate_filenames self') in
  StronglySorted String.le ks ∧ NoDup ks ∧
  (∀ k, k ∈ ks ↔ 2 ≤ length (named k files)) ∧
  ∃ missing_section,
    AutoLinksPlugin.generate_report self' =
      report_frame
        (String.concat nl
           ((λ k,
               "- [ ] " +:+ k +:+ ", at " +:+
               String.concat ", "
                 ((λ p, "`" +:+ p +:+ "`")
                    <$> match named k files with
                        | f0 :: tl =>
                            rel_to cwd (docs_dir config) (abs_src_path f0)
                            :: (src_path <$> tl)
                        | [] => []
                        end))
              <$> ks))
        missing_section.
Proof.
  intros Hfiles self' ks.
  destruct (on_page_markdown_first cwd markdown page config files AutoLinksPlugin.__init__
              eq_refl Hfiles) as (self1 & index & Hinit & Hidx & _ & Heq).
  destruct (init_loop cwd (docs_dir config) files AutoLinksPlugin.__init__ Hfiles)
    as (self2 & index2 & Hrun & _ & _ & Hdups & _).
  change (AutoLinksPlugin.init_filename_to_abs_path cwd files (docs_dir config)
            AutoLinksPlugin.__init__)
    with (for_each (AutoLinksPlugin.init_step cwd (docs_dir config)) files
            (AutoLinksPlugin.set_filename_to_abs_path (Some ∅) AutoLinksPlugin.__init__))
    in Hinit.
  rewrite Hrun in Hinit. injection Hinit as ->.
  destruct (on_page_markdown_frame cwd markdown page config files self1 index Hidx)
    as (_ & Hframe & _).
  assert (∀ k, AutoLinksPlugin.duplicate_filenames self' !! k
               = match named k files with
                 | f0 :: f1 :: tl =>
                     Some (rel_to cwd (docs_dir config) (abs_src_path f0)
                           :: (src_path <$> f1 :: tl))
                 | _ => None
                 end) as Hentry.
  { intros k. subst self'. rewrite Heq, Hframe, Hdups.
    cbn [AutoLinksPlugin.duplicate_filenames AutoLinksPlugin.__init__].
    rewrite lookup_empty. by destruct (named k files) as [|f0 [|f1 tl]]. }
  destruct (sorted_spec (AutoLinksPlugin.duplicate_filenames self'))
    as (Hsorted & Hnodup & Hin).
  assert (∀ k, k ∈ ks ↔ 2 ≤ length (named k files)) as Hks.
  { intros k. unfold ks. rewrite Hin, Hentry.
    destruct (named k files) as [|f0 [|f1 tl]]; simpl.
    - split; [by intros []|lia].
    - split; [by intros []|lia].
    - split; [lia|eauto]. }
  split_and!; [done..|].
  eexists. rewrite generate_report_frame. apply (f_equal (λ x, report_frame x _)).
  unfold PyStr.join. apply (f_equal (String.concat nl)).
  apply Forall_fmap_ext_1, Forall_forall. intros k Hk%Hks.
  unfold AutoLinksPlugin.duplicate_line, PyStr.join. rewrite Hentry.
  by destruct (named k files) as [|f0 [|f1 tl]]; [simpl in Hk; lia..|].
Qed.

(** The scan with a replacer that raises nothing, in terms of the pieces
    of [scan]. *)
Lemma sub_go_scan {S} (repl : Match → M S string) (g : Match → string)
    (f : Match → S → S) (k : nat) (s : string) (st : S) :
  (∀ m st, repl m st = (Ok (g m), f m st)) →
  pieces_text (scan_go k s) = drop k s ∧
  ∃ st', sub_go repl k s st
         = (Ok (foldr (λ p out, match p with
                                | Text u => u
                                | Link m => g m
                                end +:+ out) "" (scan_go k s)), st').
Proof.
  intros Hrepl. revert k st. induction s as [|c s IH]; intros k st.
  { split; [by destruct k|by exists st]. }
  destruct k as [|k]; cbn [sub_go scan_go drop]; [|apply IH].
  destruct (match_ (String c s)) as [[m rest]|] eqn:Hm; unfold bind, ret.
  - rewrite Hrepl.
    destruct (IH (String.length (group0 m) - 1) (f m st)) as (Htext & st' & ->).
    split; [|by exists st'].
    cbn [pieces_text piece_text]. rewrite Htext.
    apply match_spec in Hm as [Hs _]. rewrite Hs.
    pose proof (group0_length_pos m) as Hpos.
    destruct (group0 m) as [|c' g0] eqn:Hg0; [simpl in Hpos; lia|].
    rewrite sapp_cons in Hs. injection Hs as -> ->.
    cbn [String.length]. rewrite Nat.sub_1_r. cbn [Nat.pred].
    by rewrite sdrop_app_length.
  - destruct (IH 0 st) as (Htext & st' & ->). split; [|by exists st'].
    cbn [pieces_text piece_text]. by rewrite Htext.
Qed.

Lemma pieces_out_foldr (self : AutoLinkReplacer.t) (ps : list piece) :
  pieces_out cwd self ps
  = foldr (λ p out, match p with
                    | Text u => u
                    | Link m => link_out cwd self m
                    end +:+ out) "" ps.
Proof.
  induction ps as [|[u|m] ps IH]; [done|..]; cbn [pieces_out piece_out foldr];
    by rewrite IH.
Qed.

Lemma link_out_call (self : AutoLinkReplacer.t) (index : gmap string string) (m : Match) :
  AutoLinkReplacer.filename_to_abs_path self = Some index →
  map_Forall (λ (_ : string) (p : string), p ≠ "") index →
  link_out cwd self m
  = match index !! strip (group3 m) with
    | Some abs_link_path =>
        replace (group0 m) (group3 m)
          (quote (rel_to cwd (dirname (AutoLinkReplacer.abs_page_path self)) abs_link_path))
    | None => group0 m
    end.
Proof.
  intros Hidx Hpaths. unfold link_out, link_rel. rewrite Hidx.
  destruct (index !! strip (group3 m)) as [p|] eqn:Hp; [|done].
  by rewrite (relpath_nonempty cwd p _ (Hpaths _ _ Hp)).
Qed.

(** X24.  The page hook of a plugin that has an index of non-empty
    paths, on a page with a non-empty path: the scan cuts the page in
    links and the characters between them, and the text returned is the
    page with every link replaced by what the replacer makes of it; the
    characters between the links are copied as they are. *)
Theorem page_is_rewritten_link_by_link (markdown : string) (page : Page)
    (config : Config) (files : list File) (self : AutoLinksPlugin.t)
    (index : gmap string string) :
  AutoLinksPlugin.filename_to_abs_path self = Some index →
  map_Forall (λ (_ : string) (p : string), p ≠ "") index →
  abs_src_path (file page) ≠ "" →
  pieces_text (scan markdown) = markdown ∧
  (AutoLinksPlugin.on_page_markdown cwd markdown page config files self).1
  = Ok (pieces_out cwd (page_replacer config page index) (scan markdown)).
Proof.
  intros Hidx Hpaths Hpage.
  rewrite (on_page_markdown_initialized _ _ _ _ _ _ _ Hidx).
  fold (page_replacer config page index).
  destruct (sub_go_scan (AutoLinkReplacer.__call__ cwd (page_replacer config page index))
              _ _ 0 markdown (AutoLinksPlugin.missing_filenames self)
              (λ m st, call_total cwd (page_replacer config page index) index m st
                         eq_refl Hpage Hpaths))
    as (Htext & st' & Hsub).
  split; [done|]. unfold re.sub. rewrite Hsub. cbn [fst]. f_equal.
  rewrite pieces_out_foldr. unfold scan. clear Htext Hsub.
  induction (scan_go 0 markdown) as [|[u|m] ps IH]; [done|..]; cbn [foldr].
  - by rewrite IH.
  - rewrite IH. f_equal. symmetry.
    apply (link_out_call (page_replacer config page index) index m eq_refl Hpaths).
Qed.

End pages_to_report.

Section pages_to_report_witnesses.
Import PyStr posixpath urllib re.

Lemma missing_section_lists_unresolved_names_witness :
  let page := page_at "a/page.md" "/docs/a/page.md" in
  let markdown := "[a](ghost.md) [b](notes.md) ![](ghost.md)" in
  let index : gmap string string :=
    {[ "notes.md" := "/docs/x/notes.md"; "page.md" := "/docs/a/page.md" ]} in
  let run :=
    AutoLinksPlugin.on_page_markdown "/" markdown page docs_config notes_site
      AutoLinksPlugin.__init__ in
  let rel_page_path := rel_to "/" (docs_dir docs_config) (abs_src_path (file page)) in
  let names := unresolved index markdown in
  let before := AutoLinksPlugin.missing_filenames AutoLinksPlugin.__init__ in
  let ks := sorted (AutoLinksPlugin.missing_filenames run.2) in
  StronglySorted String.le ks ∧ NoDup ks ∧
  (∀ k, k ∈ ks ↔ k ∈ sorted before ∨ k ∈ names) ∧
  ∃ duplicates_section,
    AutoLinksPlugin.generate_report run.2 =
      report_frame duplicates_section
        (String.concat nl
           ((λ k,
               "- [ ] " +:+ k +:+ ", in " +:+
               of_nat
                 (length
                    (if decide (k ∈ names ∧ rel_page_path ∉ (default [] (before !! k)).*1)
                     then (default [] (before !! k)).*1 ++ [rel_page_path]
                     else (default [] (before !! k)).*1))
               +:+ " file(s)" +:+ nl +:+
               String.concat nl
                 ((λ ref_path,
                     "  - `" +:+ ref_path +:+ "` (" +:+
                     of_nat
                       (missing_count before k ref_path
                        + (if decide (ref_path = rel_page_path)
                           then length (filter (λ x, x = k) names)
                           else 0))
                     +:+ " occurences)")
                    <$> (if decide (k ∈ names
                                    ∧ rel_page_path ∉ (default [] (before !! k)).*1)
                         then (default [] (before !! k)).*1 ++ [rel_page_path]
                         else (default [] (before !! k)).*1)))
              <$> ks)).
Proof.
  intros page markdown index run.
  apply (missing_section_lists_unresolved_names "/" markdown page docs_config notes_site
           AutoLinksPlugin.__init__ run.2 run.1 index).
  - repeat constructor; discriminate.
  - intros ? [=].
  - discriminate.
  - apply map_Forall_empty.
  - apply surjective_pairing.
  - vm_compute. reflexivity.
Defined.

(** The report after the page of the witness. *)
Example report_after_ghost_page :
  AutoLinksPlugin.generate_report
    (AutoLinksPlugin.on_page_markdown "/" "[a](ghost.md) [b](notes.md) ![](ghost.md)"
       (page_at "a/page.md" "/docs/a/page.md") docs_config notes_site
       AutoLinksPlugin.__init__).2
  = report_frame ""
      ("- [ ] ghost.md, in 1 file(s)" +:+ nl +:+ "  - `a/page.md` (2 occurences)").
Proof. vm_compute. reflexivity. Qed.

Lemma duplicate_section_lists_shared_names_witness :
  let self' :=
    (AutoLinksPlugin.on_page_markdown "/" "[x](x.md)" (page_at "a/x.md" "/docs/a/x.md")
       docs_config abc_files AutoLinksPlugin.__init__).2 in
  let ks := sorted (AutoLinksPlugin.duplicate_filenames self') in
  StronglySorted String.le ks ∧ NoDup ks ∧
  (∀ k, k ∈ ks ↔ 2 ≤ length (named k abc_files)) ∧
  ∃ missing_section,
    AutoLinksPlugin.generate_report self' =
      report_frame
        (String.concat nl
           ((λ k,
               "- [ ] " +:+ k +:+ ", at " +:+
               String.concat ", "
                 ((λ p, "`" +:+ p +:+ "`")
                    <$> match named k abc_files with
                        | f0 :: tl =>
                            rel_to "/" (docs_dir docs_config) (abs_src_path f0)
                            :: (src_path <$> tl)
                        | [] => []
                        end))
              <$> ks))
        missing_section.
Proof.
  apply (duplicate_section_lists_shared_names "/" "[x](x.md)"
           (page_at "a/x.md" "/docs/a/x.md") docs_config abc_files).
  repeat constructor; discriminate.
Defined.

(** The report after a page of the site of the duplicate example. *)
Example report_after_abc_page :
  AutoLinksPlugin.generate_report
    (AutoLinksPlugin.on_page_markdown "/" "[x](x.md)" (page_at "a/x.md" "/docs/a/x.md")
       docs_config abc_files AutoLinksPlugin.__init__).2
  = report_frame "- [ ] x.md, at `a/x.md`, `b/x.md`, `c/x.md`" "".
Proof. vm_compute. reflexivity. Qed.

Lemma page_is_rewritten_link_by_link_witness :
  let page := page_at "a/page.md" "/docs/a/page.md" in
  let markdown := "[a](ghost.md) [b](notes.md)" in
  let index : gmap string string :=
    {[ "notes.md" := "/docs/x/notes.md"; "page.md" := "/docs/a/page.md" ]} in
  pieces_text (scan markdown) = markdown ∧
  (AutoLinksPlugin.on_page_markdown "/" markdown page docs_config [] notes_plugin).1
  = Ok (pieces_out "/" (page_replacer docs_config page index) (scan markdown)).
Proof.
  intros page markdown index.
  apply (page_is_rewritten_link_by_link "/" markdown page docs_config [] notes_plugin index).
  - reflexivity.
  - refine (bool_decide_unpack _ _). vm_compute. exact I.
  - discriminate.
Defined.

(** The pieces of the page of the witness. *)
Example scan_example :
  scan "[a](ghost.md) [b](notes.md)"
  = [ Link {| link_head := "[a]"; group1 := Some "a"; name := "ghost";
              group4 := "md"; anchor := "" |};
      Text " ";
      Link {| link_head := "[b]"; group1 := Some "b"; name := "notes";
              group4 := "md"; anchor := "" |} ].
Proof. vm_compute. reflexivity. Qed.

End pages_to_report_witnesses.
